(** * annas-mcp: the retrieval core of [internal/anna], embedded in Rocq

    The Go package [anna] searches a catalog, resolves DOIs and downloads
    files.  This development embeds its functions shallowly:

    - Go strings are byte sequences, here [list ascii];
    - the pure helpers ([sanitizeFilename], [extractMetaInformation]) and the
      standard-library functions they call ([strings], [path/filepath] in
      its Unix flavour, the three regular expressions) are Rocq functions;
    - the effectful functions ([Book.Download], [Paper.Download],
      [LookupDOI], [FindBook]) run in a state-and-error monad over a file
      system (a [gmap] from paths to contents) and a trace of the calls made
      to the outside world, whose answers are given by a [World] record. *)

From Stdlib Require Import List Ascii String ZArith Lia Bool.
From Stdlib Require Import Numbers.DecimalString.
From stdpp Require Import base gmap strings.
Import ListNotations.

#[local] Open Scope list_scope.
#[local] Open Scope Z_scope.

(** ** Go strings *)

Notation gostring := (list ascii).

(** A string literal of the source, as its UTF-8 bytes. *)
Definition str (s : string) : gostring := list_ascii_of_string s.

Definition byte_eqb (a b : ascii) : bool := Ascii.eqb a b.

Fixpoint gostring_eqb (a b : gostring) : bool :=
  match a, b with
  | [], [] => true
  | x :: a', y :: b' => byte_eqb x y && gostring_eqb a' b'
  | _, _ => false
  end.

(** [s == ""] *)
Definition is_empty (s : gostring) : bool :=
  match s with [] => true | _ => false end.

(** ** Package [strings] *)

Module strings.

Fixpoint HasPrefix (s prefix : gostring) {struct prefix} : bool :=
  match prefix, s with
  | [], _ => true
  | p :: prefix', c :: s' => byte_eqb p c && HasPrefix s' prefix'
  | _ :: _, [] => false
  end.

(** [TrimPrefix]: [s] without the leading [prefix], or [s] itself. *)
Definition TrimPrefix (s prefix : gostring) : gostring :=
  if HasPrefix s prefix then skipn (List.length prefix) s else s.

(** [Index]: the byte offset of the first instance of [substr] in [s],
    [-1] when there is none. *)
Fixpoint Index_from (s substr : gostring) (i : Z) : Z :=
  if HasPrefix s substr then i
  else match s with
       | [] => -1
       | _ :: s' => Index_from s' substr (i + 1)
       end.

Definition Index (s substr : gostring) : Z := Index_from s substr 0.

(** [Contains] is [Index(s, substr) >= 0]. *)
Definition Contains (s substr : gostring) : bool := 0 <=? Index s substr.

(** [ReplaceAll s old new] for a non-empty [old]: the occurrences of [old]
    are found from left to right and do not overlap.  [skip] counts the
    bytes of an occurrence that are still to be passed over.  (For an
    empty [old] Go inserts [new] around every rune; the program never
    does that, and [s] is returned.) *)
Fixpoint replace_go (old new s : gostring) (skip : nat) : gostring :=
  match s with
  | [] => []
  | c :: s' =>
      match skip with
      | S k => replace_go old new s' k
      | O => if HasPrefix s old
             then new ++ replace_go old new s' (List.length old - 1)
             else c :: replace_go old new s' 0
      end
  end.

Definition ReplaceAll (s old new : gostring) : gostring :=
  match old with
  | [] => s
  | _ => replace_go old new s 0
  end.

(** [Split s sep] for a non-empty [sep]: the pieces between the
    occurrences of [sep], found from left to right without overlap; one
    piece more than there are occurrences.  [cur] holds the piece being
    read, reversed.  (For an empty [sep] Go splits after every rune; the
    program never does that, and the result is [[s]].) *)
Fixpoint split_go (sep s : gostring) (skip : nat) (cur : gostring)
  : list gostring :=
  match s with
  | [] => [rev cur]
  | c :: s' =>
      match skip with
      | S k => split_go sep s' k cur
      | O => if HasPrefix s sep
             then rev cur :: split_go sep s' (List.length sep - 1) []
             else split_go sep s' 0 (c :: cur)
      end
  end.

Definition Split (s sep : gostring) : list gostring :=
  match sep with
  | [] => [s]
  | _ => split_go sep s 0 []
  end.

Definition bytes (l : list nat) : gostring := map ascii_of_nat l.

(** The UTF-8 encodings of the code points for which [unicode.IsSpace]
    holds: tab, LF, VT, FF, CR, space, U+0085, U+00A0, U+1680,
    U+2000..U+200A, U+2028, U+2029, U+202F, U+205F, U+3000. *)
Definition spaceRunes : list gostring :=
  map bytes
    [ [9]; [10]; [11]; [12]; [13]; [32]; [194; 133]; [194; 160];
      [225; 154; 128];
      [226; 128; 128]; [226; 128; 129]; [226; 128; 130]; [226; 128; 131];
      [226; 128; 132]; [226; 128; 133]; [226; 128; 134]; [226; 128; 135];
      [226; 128; 136]; [226; 128; 137]; [226; 128; 138];
      [226; 128; 168]; [226; 128; 169]; [226; 128; 175];
      [226; 129; 159]; [227; 128; 128] ]%nat.

(** Removes leading runes of [runes]; every step removes at least one
    byte, so [fuel = len(s)] steps are enough. *)
Fixpoint trimLeft_go (runes : list gostring) (fuel : nat) (s : gostring)
  : gostring :=
  match fuel with
  | O => s
  | S fuel' =>
      match List.find (HasPrefix s) runes with
      | Some r => trimLeft_go runes fuel' (skipn (List.length r) s)
      | None => s
      end
  end.

Definition trimLeftSpace (s : gostring) : gostring :=
  trimLeft_go spaceRunes (List.length s) s.

(** A string ends with the encoding of a rune exactly when
    [utf8.DecodeLastRuneInString] reads that rune there (the first byte of
    each encoding is below 0x80 or a leading byte), so the trailing white
    space is removed on the reversed string. *)
Definition trimRightSpace (s : gostring) : gostring :=
  rev (trimLeft_go (map (@rev ascii) spaceRunes) (List.length s) (rev s)).

(** [TrimSpace]: all leading and trailing white space removed, as Unicode
    defines it. *)
Definition TrimSpace (s : gostring) : gostring :=
  trimRightSpace (trimLeftSpace s).

Definition isASCII (c : ascii) : bool := (N_of_ascii c <? 128)%N.

Definition upperByte (c : ascii) : ascii :=
  let n := N_of_ascii c in
  if ((97 <=? n) && (n <=? 122))%N then ascii_of_N (n - 32) else c.

Definition lowerByte (c : ascii) : ascii :=
  let n := N_of_ascii c in
  if ((65 <=? n) && (n <=? 90))%N then ascii_of_N (n + 32) else c.

(** The Unicode case tables are not part of the program: what
    [strings.Map(unicode.ToUpper, s)] and [strings.Map(unicode.ToLower, s)]
    return is taken as given. *)
Class CaseTables := {
  mapUnicodeToUpper : gostring -> gostring;
  mapUnicodeToLower : gostring -> gostring
}.

(** [ToUpper], [ToLower]: an all-ASCII string is converted byte by byte;
    otherwise every rune goes through the Unicode tables. *)
Definition ToUpper `{CaseTables} (s : gostring) : gostring :=
  if forallb isASCII s then map upperByte s else mapUnicodeToUpper s.

Definition ToLower `{CaseTables} (s : gostring) : gostring :=
  if forallb isASCII s then map lowerByte s else mapUnicodeToLower s.

(** [Join elems sep] *)
Fixpoint Join (elems : list gostring) (sep : gostring) : gostring :=
  match elems with
  | [] => []
  | [e] => e
  | e :: elems' => e ++ sep ++ Join elems' sep
  end.

End strings.

(** ** Package [path/filepath] (Unix: the separator is [/], no volume names) *)

Module filepath.

Definition Separator : ascii := "/"%char.

Definition IsPathSeparator (c : ascii) : bool := byte_eqb c Separator.

Fixpoint dropWhile {A} (p : A -> bool) (l : list A) : list A :=
  match l with
  | [] => []
  | x :: l' => if p x then dropWhile p l' else l
  end.

Fixpoint takeWhile {A} (p : A -> bool) (l : list A) : list A :=
  match l with
  | [] => []
  | x :: l' => if p x then x :: takeWhile p l' else []
  end.

(** [Base]: the last element of [path].  Trailing separators are removed
    before the last element is taken; an empty path gives ["."], a path
    of separators only gives ["/"]. *)
Definition Base (path : gostring) : gostring :=
  match path with
  | [] => str "."
  | _ =>
      (* Strip trailing slashes. *)
      let stripped := dropWhile IsPathSeparator (rev path) in
      (* Find the last element. *)
      let last := takeWhile (fun c => negb (IsPathSeparator c)) stripped in
      (* If empty now, it had only slashes. *)
      match last with
      | [] => [Separator]
      | _ => rev last
      end
  end.

(** One path element of [Clean].  [out] holds the elements written so
    far, the last one first; [dotdot] counts the leading [..] elements of
    a relative path, which a later [..] must not remove (the index
    [dotdot] of the source, in elements instead of bytes). *)
Definition cleanElem (rooted : bool) (st : list gostring * nat)
    (elem : gostring) : list gostring * nat :=
  let '(out, dotdot) := st in
  if is_empty elem then st                      (* empty path element *)
  else if gostring_eqb elem (str ".") then st   (* . element *)
  else if gostring_eqb elem (str "..") then     (* .. element *)
    if (dotdot <? List.length out)%nat
    then (tl out, dotdot)                       (* can backtrack *)
    else if negb rooted
         then (elem :: out, S dotdot)           (* append .. element *)
         else st
  else (elem :: out, dotdot).                   (* real path element *)

(** [Clean]: the shortest path name equivalent to [path] by purely
    lexical processing. *)
Definition Clean (path : gostring) : gostring :=
  match path with
  | [] => str "."
  | c :: _ =>
      let rooted := IsPathSeparator c in
      let '(out, _) :=
        fold_left (cleanElem rooted) (strings.Split path [Separator])
                  ([], O) in
      let body := strings.Join (rev out) [Separator] in
      if rooted then Separator :: body
      else if is_empty body then str "."   (* Turn empty string into "." *)
      else body
  end.

(** [Join]: the elements from the first non-empty one on, joined by the
    separator and cleaned; the empty string when all are empty. *)
Fixpoint Join (elem : list gostring) : gostring :=
  match elem with
  | [] => []
  | e :: elem' =>
      if is_empty e then Join elem'
      else Clean (strings.Join elem [Separator])
  end.

(** [IsAbs]: the path begins with a slash. *)
Definition IsAbs (path : gostring) : bool :=
  strings.HasPrefix path [Separator].

(** [Ext]: the suffix of the last element of [path] that begins at its
    last dot; empty when there is no dot. *)
Fixpoint ext_go (rpath : gostring) (acc : gostring) : gostring :=
  match rpath with
  | [] => []
  | c :: rpath' =>
      if IsPathSeparator c then []
      else if byte_eqb c "."%char then c :: acc
      else ext_go rpath' (c :: acc)
  end.

Definition Ext (path : gostring) : gostring := ext_go (rev path) [].

End filepath.

(** ** Package [regexp]: the character class of [unsafeFilenameChars] *)

(** [unsafeFilenameChars] is compiled from a single character class: the
    nine characters less-than, greater-than, colon, double quote, slash,
    backslash, bar, question mark, star, and the range [\x00-\x1f].  All its members are ASCII, and no byte of a
    multi-byte UTF-8 sequence (nor an invalid byte, which the engine reads
    as U+FFFD) is below 0x80, so the expression matches exactly the single
    bytes of the class. *)
Definition unsafeFilenameChars (c : ascii) : bool :=
  existsb (byte_eqb c)
    ["<"; ">"; ":"; "034"; "/"; "\"; "|"; "?"; "*"]%char
  || (N_of_ascii c <=? 31)%N.

(** [re.ReplaceAllString(src, repl)] for an expression [re] that is one
    character class [cls] (and a [repl] without [$]): every matching byte
    becomes [repl], every other byte is copied. *)
Definition ReplaceAllString_class (cls : ascii -> bool) (src repl : gostring)
  : gostring :=
  flat_map (fun c => if cls c then repl else [c]) src.

(** ** [sanitizeFilename] *)

Definition sanitizeFilename (filename : gostring) : gostring :=
  (* Replace unsafe characters with underscores *)
  let safe := ReplaceAllString_class unsafeFilenameChars filename (str "_") in
  (* Remove any path separators and ".." sequences *)
  let safe := strings.ReplaceAll safe (str "..") (str "_") in
  let safe := filepath.Base safe in
  (* Limit filename length *)
  if (200 <? List.length safe)%nat then firstn 200 safe else safe.


(** ** Package [regexp]: a backtracking matcher for the two expressions of
    [extractMetaInformation]

    Go's expressions are matched leftmost-first: among the matches that
    start at the leftmost possible place, the one a backtracking search
    finds first, alternatives tried from left to right and repetitions
    greedy.  The two expressions below only name ASCII characters, so they
    are matched byte by byte. *)

Module regexp.

Inductive re : Type :=
| Eps                          (* the empty expression *)
| Chr (p : ascii -> bool)      (* one character of a class *)
| Cat (a b : re)               (* ab *)
| Alt (a b : re)               (* a|b *)
| Star (a : re)                (* a*, greedy *)
| WordBoundary                 (* \b, at an ASCII word boundary *)
| Group (a : re).              (* (a), the capturing group *)

Definition Plus (a : re) : re := Cat a (Star a).       (* a+ *)
Definition Quest (a : re) : re := Alt a Eps.           (* a? *)

Definition alts (l : list re) : re :=
  match l with
  | [] => Eps
  | a :: l' => fold_left Alt l' a
  end.

(** A literal, and a literal under the flag [(?i)].  Folding a letter
    other than K and S only adds its other ASCII case. *)
Definition lit (s : gostring) : re :=
  fold_right (fun c r => Cat (Chr (byte_eqb c)) r) Eps s.

Definition litFold (s : gostring) : re :=
  fold_right
    (fun c r =>
       Cat (Chr (fun x => byte_eqb (strings.upperByte x) (strings.upperByte c))) r)
    Eps s.

(** [\d] is [0-9]; [\s] is tab, LF, FF, CR and space; [\w] is
    [0-9A-Za-z_]. *)
Definition digit (c : ascii) : bool :=
  let n := N_of_ascii c in ((48 <=? n) && (n <=? 57))%N.

Definition space (c : ascii) : bool :=
  existsb (N.eqb (N_of_ascii c)) [9; 10; 12; 13; 32]%N.

Definition word (c : ascii) : bool :=
  let n := N_of_ascii c in
  (digit c || ((65 <=? n) && (n <=? 90)) || ((97 <=? n) && (n <=? 122))
   || (n =? 95))%N.

Definition isWord (c : option ascii) : bool :=
  match c with Some c => word c | None => false end.

(** The state of a match: the byte before the position, the input left,
    and what the group captured.  [k] is what remains to be matched. *)
Fixpoint run {R} (r : re) (prev : option ascii) (s : gostring)
    (cap : option gostring)
    (k : option ascii -> gostring -> option gostring -> option R)
  : option R :=
  match r with
  | Eps => k prev s cap
  | Chr p =>
      match s with
      | c :: s' => if p c then k (Some c) s' cap else None
      | [] => None
      end
  | Cat a b => run a prev s cap (fun prev' s' cap' => run b prev' s' cap' k)
  | Alt a b =>
      match run a prev s cap k with
      | Some res => Some res
      | None => run b prev s cap k
      end
  | Star a =>
      (fix star (n : nat) prev s cap {struct n} : option R :=
         match n with
         | O => k prev s cap
         | S n' =>
             match run a prev s cap
                     (fun prev' s' cap' =>
                        if (List.length s' <? List.length s)%nat
                        then star n' prev' s' cap' else None) with
             | Some res => Some res
             | None => k prev s cap
             end
         end) (List.length s) prev s cap
  | WordBoundary =>
      if xorb (isWord prev) (isWord (hd_error s)) then k prev s cap else None
  | Group a =>
      run a prev s cap
        (fun prev' s' _ =>
           k prev' s' (Some (firstn (List.length s - List.length s') s)))
  end.

(** The match that starts at this position: the text matched and the
    text of the group (empty when the group took no part). *)
Definition matchHere (r : re) (prev : option ascii) (s : gostring)
  : option (list gostring) :=
  run r prev s None
    (fun _ s' cap =>
       Some [firstn (List.length s - List.length s') s;
             match cap with Some g => g | None => [] end]).

Fixpoint findFrom (r : re) (prev : option ascii) (s : gostring)
  : option (list gostring) :=
  match matchHere r prev s with
  | Some m => Some m
  | None =>
      match s with
      | [] => None
      | c :: s' => findFrom r (Some c) s'
      end
  end.

(** [FindStringSubmatch]: the leftmost match and its group; [None] is
    Go's nil slice. *)
Definition FindStringSubmatch (r : re) (s : gostring)
  : option (list gostring) :=
  findFrom r None s.

Definition MatchString (r : re) (s : gostring) : bool :=
  match findFrom r None s with Some _ => true | None => false end.

End regexp.

(** ** [extractMetaInformation] *)

Section MetaInformation.

Context `{strings.CaseTables}.

(** [(?i)\b(EPUB|PDF|MOBI|AZW3|AZW|DJVU|CBZ|CBR|FB2|DOCX?|TXT)\b] *)
Definition formatRegex : regexp.re :=
  regexp.Cat regexp.WordBoundary
    (regexp.Cat
       (regexp.Group
          (regexp.alts
             [ regexp.litFold (str "EPUB"); regexp.litFold (str "PDF");
               regexp.litFold (str "MOBI"); regexp.litFold (str "AZW3");
               regexp.litFold (str "AZW"); regexp.litFold (str "DJVU");
               regexp.litFold (str "CBZ"); regexp.litFold (str "CBR");
               regexp.litFold (str "FB2");
               regexp.Cat (regexp.litFold (str "DOC"))
                          (regexp.Quest (regexp.litFold (str "X")));
               regexp.litFold (str "TXT") ]))
       regexp.WordBoundary).

(** [\d+\.?\d*\s*(MB|KB|GB|TB)] *)
Definition sizeRegex : regexp.re :=
  regexp.Cat (regexp.Plus (regexp.Chr regexp.digit))
    (regexp.Cat (regexp.Quest (regexp.lit (str ".")))
       (regexp.Cat (regexp.Star (regexp.Chr regexp.digit))
          (regexp.Cat (regexp.Star (regexp.Chr regexp.space))
             (regexp.Group
                (regexp.alts
                   [ regexp.lit (str "MB"); regexp.lit (str "KB");
                     regexp.lit (str "GB"); regexp.lit (str "TB") ]))))).

(** The loop [for i := 1; i < len(parts); i++], over [parts[1:]]. *)
Fixpoint scanParts (parts : list gostring) (format size : gostring)
  : gostring * gostring :=
  match parts with
  | [] => (format, size)
  | p :: rest =>
      let part := strings.TrimSpace p in
      (* Check for size *)
      let size :=
        if is_empty size && regexp.MatchString sizeRegex part
        then part else size in
      (* Check for format *)
      let format :=
        if is_empty format && regexp.MatchString formatRegex part
        then match regexp.FindStringSubmatch formatRegex part with
             | Some matches => strings.ToUpper (nth 1 matches [])
             | None => format
             end
        else format in
      (* Early exit if we found both *)
      if negb (is_empty format) && negb (is_empty size)
      then (format, size)
      else scanParts rest format size
  end.

(** Returns [(language, format, size)]. *)
Definition extractMetaInformation (meta : gostring)
  : gostring * gostring * gostring :=
  let parts := strings.Split meta (str " · ") in
  if (List.length parts <? 3)%nat then ([], [], [])
  else
    (* Extract language from first part *)
    let languagePart := strings.TrimSpace (nth 0 parts []) in
    let idx := strings.Index languagePart (str "[") in
    let language :=
      if 0 <? idx
      then
        let language :=
          strings.TrimSpace (firstn (Z.to_nat idx) languagePart) in
        (* Remove checkmark and leading spaces properly *)
        let language := strings.TrimPrefix language (str "✅") in
        strings.TrimSpace language
      else [] in
    let '(format, size) := scanParts (skipn 1 parts) [] [] in
    (language, format, size).

End MetaInformation.



(** ** Packages [fmt] and [net/url] *)

(** [%d] of an integer. *)
Definition itoa (n : Z) : gostring :=
  str (NilZero.string_of_int (Z.to_int n)).

Module url.

Definition unreserved (c : ascii) : bool :=
  let n := N_of_ascii c in
  (((48 <=? n) && (n <=? 57)) || ((65 <=? n) && (n <=? 90))
   || ((97 <=? n) && (n <=? 122)))%N
  || existsb (byte_eqb c) ["-"; "_"; "."; "~"]%char.

Definition upperhex (n : N) : ascii :=
  nth (N.to_nat n) (str "0123456789ABCDEF") "0"%char.

(** [QueryEscape]: letters, digits and [-_.~] are kept, a space becomes
    [+], every other byte becomes [%XX]. *)
Definition QueryEscape (s : gostring) : gostring :=
  flat_map
    (fun c =>
       if unreserved c then [c]
       else if byte_eqb c " "%char then ["+"%char]
       else let n := N_of_ascii c in
            ["%"%char; upperhex (n / 16); upperhex (n mod 16)])
    s.

End url.

(** ** The data of the package *)

Module Book.
Record t : Type := mk {
  Language : gostring;
  Format : gostring;
  Size : gostring;
  Title : gostring;
  Publisher : gostring;
  Authors : gostring;
  URL : gostring;
  Hash : gostring
}.
End Book.

Module Paper.
Record t : Type := mk {
  DOI : gostring;
  Title : gostring;
  Authors : gostring;
  Journal : gostring;
  Size : gostring;
  Hash : gostring;
  DownloadURL : gostring;
  SciHubURL : gostring;
  PageURL : gostring
}.

(** [&Paper{DOI: doi}] *)
Definition new (doi : gostring) : t := mk doi [] [] [] [] [] [] [] [].

(** The assignments [paper.F = v]. *)
Definition setTitle (p : t) (v : gostring) : t :=
  mk (DOI p) v (Authors p) (Journal p) (Size p) (Hash p) (DownloadURL p)
     (SciHubURL p) (PageURL p).
Definition setAuthors (p : t) (v : gostring) : t :=
  mk (DOI p) (Title p) v (Journal p) (Size p) (Hash p) (DownloadURL p)
     (SciHubURL p) (PageURL p).
Definition setJournal (p : t) (v : gostring) : t :=
  mk (DOI p) (Title p) (Authors p) v (Size p) (Hash p) (DownloadURL p)
     (SciHubURL p) (PageURL p).
Definition setSize (p : t) (v : gostring) : t :=
  mk (DOI p) (Title p) (Authors p) (Journal p) v (Hash p) (DownloadURL p)
     (SciHubURL p) (PageURL p).
Definition setHash (p : t) (v : gostring) : t :=
  mk (DOI p) (Title p) (Authors p) (Journal p) (Size p) v (DownloadURL p)
     (SciHubURL p) (PageURL p).
Definition setDownloadURL (p : t) (v : gostring) : t :=
  mk (DOI p) (Title p) (Authors p) (Journal p) (Size p) (Hash p) v
     (SciHubURL p) (PageURL p).
Definition setPageURL (p : t) (v : gostring) : t :=
  mk (DOI p) (Title p) (Authors p) (Journal p) (Size p) (Hash p)
     (DownloadURL p) (SciHubURL p) v.
End Paper.

Record fastDownloadResponse : Type := {
  fdr_DownloadURL : gostring;   (* json:"download_url" *)
  fdr_Error : gostring          (* json:"error" *)
}.

Module env.
Definition DefaultAnnasBaseURL : gostring := str "annas-archive.li".

Record Env : Type := {
  SecretKey : gostring;
  DownloadPath : gostring;
  AnnasBaseURL : gostring
}.
End env.

Definition BrowserUserAgent : gostring :=
  str "Mozilla/5.0 (Macintosh; Intel Mac OS X 10_15_7) AppleWebKit/537.36 (KHTML, like Gecko) Chrome/120.0.0.0 Safari/537.36".

(** ** The outside world *)

(** An [error] is kept as its message, the text of [err.Error()];
    wrapping with [%w] puts the message of the cause into the new one. *)
Notation error := (list ascii) (only parsing).

(** A response body: the bytes that can be read from it, and the error
    that ends the reading when it does not end with [io.EOF]. *)
Record Body : Type := {
  body_data : gostring;
  body_err : option error
}.

Record Response : Type := {
  StatusCode : Z;
  Status : gostring;
  Header_Get : gostring -> gostring;   (* resp.Header.Get(key) *)
  resp_Body : Body
}.

Record Request : Type := {
  req_URL : gostring;
  req_Header : list (gostring * gostring)
}.

(** The part of [goquery] the package uses: selections of nodes of a
    parsed page. *)
Module goquery.
Class API : Type := {
  Selection : Type;
  Parent : Selection -> Selection;
  Find : Selection -> gostring -> Selection;
  Length : Selection -> nat;
  Text : Selection -> gostring
}.
End goquery.

Module colly.
Section Colly.
Context `{goquery.API}.

(** [*colly.HTMLElement] *)
Record HTMLElement : Type := {
  Attr : gostring -> gostring;          (* e.Attr(k) *)
  Text : gostring;                      (* e.Text *)
  DOM : goquery.Selection;              (* e.DOM *)
  AbsoluteURL : gostring -> gostring    (* e.Request.AbsoluteURL(u) *)
}.

(** What a visit of a URL does.  [Fetched page]: the page was received
    and parsed, and [page sel] lists the elements that match the
    selector [sel], in the order the callback of [sel] is called for
    them.  [Failed r err]: the request failed with [err]; [r] is
    [None] when it failed before it was issued (no callback is
    called), and else the status code of the response that the
    [OnError] callbacks see ([Some None] for a nil response). *)
Inductive Visited : Type :=
| Fetched (page : gostring -> list HTMLElement)
| Failed (r : option (option Z)) (err : error).
End Colly.
End colly.

Inductive level : Type := Info | Warn | Error.

(** The calls a function makes to the outside world, in order. *)
Inductive event : Type :=
| EvLog (lv : level) (msg : gostring)                 (* l.Info / Warn / Error *)
| EvDo (req : Request)                                (* client.Get, client.Do *)
| EvVisit (u : gostring)                              (* c.Visit(u) *)
| EvCreate (path : gostring) (err : option error)     (* os.Create *)
| EvCopy (path : gostring) (written : nat) (err : option error)  (* io.Copy *)
| EvSync (path : gostring) (err : option error)       (* out.Sync *)
| EvClose (path : gostring)                           (* out.Close *)
| EvRemove (path : gostring) (err : option error).    (* os.Remove *)

Section World.

Context `{strings.CaseTables} `{goquery.API}.

(** The answers of the outside world. *)
Record World : Type := {
  Getenv : gostring -> gostring;                    (* os.Getenv *)
  newRequestErr : gostring -> option error;         (* http.NewRequest *)
  roundTrip : Request -> error + Response;          (* http.Client.Do *)
  decodeJSON : Body -> error + fastDownloadResponse;
                                 (* json.NewDecoder(body).Decode(&apiResp) *)
  parseMediaType : gostring -> error + gmap (list ascii) (list ascii);
                                 (* mime.ParseMediaType: the params *)
  extensionsByType : gostring -> list gostring;     (* mime.ExtensionsByType *)
  visit : gostring -> colly.Visited;                (* a collector's fetch *)
  createErr : gostring -> option error;             (* os.Create fails *)
  writeErr : gostring -> option (nat * error);
                        (* writing to the file fails after so many bytes *)
  syncErr : gostring -> option error;               (* File.Sync fails *)
  removeErr : gostring -> option error              (* os.Remove fails *)
}.

Variable w : World.

(** ** The monad of the effectful functions

    A computation reads and changes the files (path to content), returns
    a value or an error, and lists the events it caused. *)
Definition M (A : Type) : Type :=
  gmap (list ascii) (list ascii) ->
  (error + A) * gmap (list ascii) (list ascii) * list event.

Definition ret {A} (a : A) : M A := fun fs => (inr a, fs, []).

Definition fail {A} (e : error) : M A := fun fs => (inl e, fs, []).

Definition bind {A B} (m : M A) (f : A -> M B) : M B :=
  fun fs =>
    let '(r, fs1, ev1) := m fs in
    match r with
    | inl e => (inl e, fs1, ev1)
    | inr a => let '(r2, fs2, ev2) := f a fs1 in (r2, fs2, ev1 ++ ev2)
    end.

Definition emit (e : event) : M unit := fun fs => (inr tt, fs, [e]).

Definition log (lv : level) (msg : gostring) : M unit := emit (EvLog lv msg).

(** [if err != nil { return fmt.Errorf(prefix + "%w", err) }] *)
Definition wrap {A} (prefix : gostring) (m : M A) : M A :=
  fun fs =>
    let '(r, fs1, ev1) := m fs in
    match r with
    | inl e => (inl (prefix ++ e), fs1, ev1)
    | inr a => (inr a, fs1, ev1)
    end.

End World.

Arguments ret {A} a.
Arguments fail {A} e.
Arguments bind {A B} m f.
Arguments wrap {A} prefix m.

Notation "'let*' x := m 'in' k" := (bind m (fun x => k))
  (at level 10, x pattern, m at level 100, k at level 200).
Notation "m ;; k" := (bind m (fun _ => k))
  (at level 100, k at level 200, right associativity).


(** ** The functions of the package *)

Section Anna.

Context `{strings.CaseTables} `{goquery.API}.
Variable w : World.

(** *** [env.GetEnv] *)

Definition GetEnv : M env.Env :=
  let secretKey := Getenv w (str "ANNAS_SECRET_KEY") in
  let downloadPath := Getenv w (str "ANNAS_DOWNLOAD_PATH") in
  let annasBaseURL := Getenv w (str "ANNAS_BASE_URL") in
  if is_empty secretKey || is_empty downloadPath then
    log Error (str "Environment variables not set") ;;
    fail (str "ANNAS_SECRET_KEY and ANNAS_DOWNLOAD_PATH environment variables must be set")
  else if negb (filepath.IsAbs downloadPath) then
    fail (str "ANNAS_DOWNLOAD_PATH must be an absolute path, got: "
            ++ downloadPath)
  else
    let annasBaseURL :=
      if is_empty annasBaseURL then env.DefaultAnnasBaseURL
      else annasBaseURL in
    ret {| env.SecretKey := secretKey;
           env.DownloadPath := downloadPath;
           env.AnnasBaseURL := annasBaseURL |}.

(** *** HTTP and files *)

(** [client.Do(req)]; [client.Get(url)] is [Do] of a request without
    headers of its own. *)
Definition client_Do (req : Request) : M Response :=
  emit (EvDo req) ;;
  match roundTrip w req with
  | inl err => fail err
  | inr resp => ret resp
  end.

Definition client_Get (u : gostring) : M Response :=
  client_Do {| req_URL := u; req_Header := [] |}.

(** [io.ReadAll(io.LimitReader(body, n))]: the first [n] bytes; the
    error of the body shows only when the body ends before them. *)
Definition readAllLimit (n : nat) (b : Body) : gostring * option error :=
  if (n <=? List.length (body_data b))%nat
  then (firstn n (body_data b), None)
  else (body_data b, body_err b).

(** [os.Create(path)]: the file exists and is empty afterwards. *)
Definition os_Create (path : gostring) : M unit :=
  fun fs =>
    match createErr w path with
    | Some err => (inl err, fs, [EvCreate path (Some err)])
    | None => (inr tt, <[path := []]> fs, [EvCreate path None])
    end.

(** [io.Copy(out, body)]: the number of bytes written and the first
    error met, of the writer or of the reader. *)
Definition io_Copy (path : gostring) (src : Body) : M (nat * option error) :=
  fun fs =>
    let data := body_data src in
    let '(written, err) :=
      match writeErr w path with
      | Some (n, e) =>
          if (n <? List.length data)%nat then (n, Some e)
          else (List.length data, body_err src)
      | None => (List.length data, body_err src)
      end in
    (inr (written, err), <[path := firstn written data]> fs,
     [EvCopy path written err]).

Definition File_Sync (path : gostring) : M (option error) :=
  fun fs => (inr (syncErr w path), fs, [EvSync path (syncErr w path)]).

Definition File_Close (path : gostring) : M unit := emit (EvClose path).

(** [os.Remove(path)]: the file is gone unless the removal fails. *)
Definition os_Remove (path : gostring) : M (option error) :=
  fun fs =>
    match removeErr w path with
    | Some err => (inr (Some err), fs, [EvRemove path (Some err)])
    | None => (inr None, delete path fs, [EvRemove path None])
    end.

(** The write path, the same statements in [Book.Download] and in
    [Paper.Download] from [success := false] to the end: the deferred
    function closes the file and, unless [success] was set, removes it.
    [done] is the message of the last log entry. *)
Definition writeBody (filePath : gostring) (src : Body) (done : gostring)
  : M unit :=
  fun fs =>
    (* success := false; the body up to the return *)
    let '(r, fs1, ev1) :=
      (let* (written, copyErr) := io_Copy filePath src in
       match copyErr with
       | Some err =>
           fail (str "failed to write file (wrote "
                   ++ itoa (Z.of_nat written) ++ str " bytes): " ++ err)
       | None =>
           let* syncE := File_Sync filePath in
           match syncE with
           | Some err => fail (str "failed to sync file to disk: " ++ err)
           | None =>
               (* success = true *)
               log Info done ;;
               ret true
           end
       end) fs in
    let success := match r with inr b => b | inl _ => false end in
    (* defer func() { out.Close(); if !success { ... } }() *)
    let '(_, fs2, ev2) :=
      (File_Close filePath ;;
       if negb success then
         (* Delete partial file on failure *)
         let* removeE := os_Remove filePath in
         match removeE with
         | Some _ => log Warn (str "Failed to remove partial file")
         | None => ret tt
         end
       else ret tt) fs1 in
    (match r with inl e => inl e | inr _ => inr tt end, fs2, ev1 ++ ev2).

(** *** [Book.Download] *)

(** The name of the file of a book, as [Download] builds it. *)
Definition Book_filePath (b : Book.t) (folderPath : gostring) : gostring :=
  (* Sanitize filename to prevent path traversal and invalid characters *)
  let safeTitle := sanitizeFilename (Book.Title b) in
  let safeTitle := if is_empty safeTitle then str "untitled" else safeTitle in
  let format := strings.ToLower (Book.Format b) in
  let format := if is_empty format then str "bin" else format in
  let filename := safeTitle ++ str "." ++ format in
  filepath.Join [folderPath; filename].

Definition fastDownloadURL (base hash key : gostring) : gostring :=
  str "https://" ++ base ++ str "/dyn/api/fast_download.json?md5=" ++ hash
    ++ str "&key=" ++ key.

Definition Book_Download (b : Book.t) (secretKey folderPath : gostring)
  : M unit :=
  let* env := wrap (str "failed to get environment: ") GetEnv in
  (* First API call: get download URL *)
  let apiURL :=
    fastDownloadURL (env.AnnasBaseURL env) (Book.Hash b) secretKey in
  log Info (str "Fetching download URL") ;;
  let* resp := wrap (str "failed to fetch download URL: ")
                    (client_Get apiURL) in
  (* Validate HTTP status code *)
  if negb (StatusCode resp =? 200) then
    let '(body, readErr) := readAllLimit 512 (resp_Body resp) in
    match readErr with
    | Some _ =>
        fail (str "API request failed with status "
                ++ itoa (StatusCode resp) ++ str ": " ++ Status resp)
    | None =>
        fail (str "API request failed with status "
                ++ itoa (StatusCode resp) ++ str ": " ++ Status resp
                ++ str " (body: " ++ body ++ str ")")
    end
  else
    match decodeJSON w (resp_Body resp) with
    | inl err => fail (str "failed to decode API response: " ++ err)
    | inr apiResp =>
        if is_empty (fdr_DownloadURL apiResp) then
          if negb (is_empty (fdr_Error apiResp))
          then fail (str "API error: " ++ fdr_Error apiResp)
          else fail (str "API returned empty download URL")
        else
          (* Second API call: download the file *)
          log Info (str "Downloading file") ;;
          let* downloadResp :=
            wrap (str "failed to download file: ")
                 (client_Get (fdr_DownloadURL apiResp)) in
          (* Validate download status code *)
          if negb (StatusCode downloadResp =? 200) then
            fail (str "download failed with status "
                    ++ itoa (StatusCode downloadResp) ++ str ": "
                    ++ Status downloadResp)
          else
            let filePath := Book_filePath b folderPath in
            log Info (str "Creating file") ;;
            (* Create the file *)
            wrap (str "failed to create file: ") (os_Create filePath) ;;
            writeBody filePath (resp_Body downloadResp)
                      (str "Download completed successfully")
    end.

(** *** [Paper.Download] *)

(** Infer file extension from Content-Disposition or Content-Type *)
Definition inferExt (resp : Response) : gostring :=
  let cd := Header_Get resp (str "Content-Disposition") in
  if negb (is_empty cd) then
    match parseMediaType w cd with
    | inr params =>
        match params !! str "filename" with
        | Some fn =>
            let e := filepath.Ext fn in
            if negb (is_empty e) then e else str ".pdf"
        | None => str ".pdf"
        end
    | inl _ => str ".pdf"
    end
  else
    let ct := Header_Get resp (str "Content-Type") in
    if negb (is_empty ct) then
      match extensionsByType w ct with
      | e :: _ => e
      | [] => str ".pdf"
      end
    else str ".pdf".

Definition Paper_Download (p : Paper.t) (folderPath : gostring) : M unit :=
  if is_empty (Paper.DownloadURL p) then
    fail (str "no download URL available for this paper")
  else
    let* env := wrap (str "failed to get environment: ") GetEnv in
    (* Construct full download URL *)
    let downloadURL := Paper.DownloadURL p in
    let downloadURL :=
      if negb (strings.HasPrefix downloadURL (str "http"))
      then str "https://" ++ env.AnnasBaseURL env ++ downloadURL
      else downloadURL in
    log Info (str "Downloading paper via SciDB") ;;
    match newRequestErr w downloadURL with
    | Some err => fail (str "failed to create request: " ++ err)
    | None =>
        let req := {| req_URL := downloadURL;
                      req_Header := [(str "User-Agent", BrowserUserAgent)] |} in
        let* resp := wrap (str "failed to download paper: ") (client_Do req) in
        if negb (StatusCode resp =? 200) then
          let '(body, readErr) := readAllLimit 512 (resp_Body resp) in
          match readErr with
          | Some _ =>
              fail (str "download failed with status "
                      ++ itoa (StatusCode resp) ++ str ": " ++ Status resp)
          | None =>
              fail (str "download failed with status "
                      ++ itoa (StatusCode resp) ++ str ": " ++ Status resp
                      ++ str " (body: " ++ body ++ str ")")
          end
        else
          let ext := inferExt resp in
          (* Build filename from title or DOI *)
          let name := Paper.Title p in
          let name := if is_empty name then Paper.DOI p else name in
          let safeName := sanitizeFilename name in
          let safeName :=
            if is_empty safeName then str "paper" else safeName in
          let filename := safeName ++ ext in
          let filePath := filepath.Join [folderPath; filename] in
          log Info (str "Creating file") ;;
          wrap (str "failed to create file: ") (os_Create filePath) ;;
          writeBody filePath (resp_Body resp)
                    (str "Paper download completed successfully")
    end.

(** *** [LookupDOI] *)

(** [c.Visit(u)] of a collector that is not asynchronous.  The [OnHTML]
    callbacks only assign fields of the paper, so they are applied to
    the page once the visit has returned it; [onError] is the [OnError]
    callback. *)
Definition collector_Visit (u : gostring) (onError : M unit)
  : M (gostring -> list colly.HTMLElement) :=
  emit (EvVisit u) ;;
  match visit w u with
  | colly.Fetched page => ret page
  | colly.Failed None err => fail err
  | colly.Failed (Some _) err => onError ;; fail err
  end.

(** [err := f(); if err != nil { ... }] without a return. *)
Definition try {A} (m : M A) : M (error + A) :=
  fun fs => let '(r, fs1, ev1) := m fs in (inr r, fs1, ev1).

Definition md5Selector : gostring := str "a[href^='/md5/']".

(** The callback of the search collector. *)
Definition onSearchAnchor (paper : Paper.t) (e : colly.HTMLElement)
  : Paper.t :=
  if negb (is_empty (Paper.Hash paper)) then paper
  else
    let href := colly.Attr e (str "href") in
    let hash := strings.TrimPrefix href (str "/md5/") in
    if negb (is_empty hash) then Paper.setHash paper hash else paper.

(** The callbacks of the detail collector, in the order of their
    registration. *)
Definition onTitle (paper : Paper.t) (e : colly.HTMLElement) : Paper.t :=
  let title := colly.Text e in
  let idx := strings.Index title (str " - Anna") in
  if 0 <? idx
  then Paper.setTitle paper (strings.TrimSpace (firstn (Z.to_nat idx) title))
  else paper.

Definition onDescription (paper : Paper.t) (e : colly.HTMLElement)
  : Paper.t :=
  let desc := colly.Attr e (str "content") in
  let parts := strings.Split desc ["010"; "010"]%char in
  if (3 <=? List.length parts)%nat
  then Paper.setJournal paper (strings.TrimSpace (nth 2 parts []))
  else if (2 <=? List.length parts)%nat
  then Paper.setJournal paper (strings.TrimSpace (nth 1 parts []))
  else Paper.setJournal paper (strings.TrimSpace desc).

Definition onSearchLink (paper : Paper.t) (e : colly.HTMLElement)
  : Paper.t :=
  if negb (is_empty (Paper.Authors paper)) then paper
  else if (0 <? goquery.Length
                  (goquery.Find (colly.DOM e)
                                (str "span.icon-\[mdi--user-edit\]")))%nat
  then Paper.setAuthors paper (strings.TrimSpace (colly.Text e))
  else paper.

Definition onSizeLine (paper : Paper.t) (e : colly.HTMLElement) : Paper.t :=
  let text := colly.Text e in
  if strings.Contains text (str "MB") || strings.Contains text (str "KB")
  then Paper.setSize paper (strings.TrimSpace text)
  else paper.

Definition detailCallbacks (page : gostring -> list colly.HTMLElement)
    (paper : Paper.t) : Paper.t :=
  let paper := fold_left onTitle (page (str "title")) paper in
  let paper :=
    fold_left onDescription (page (str "meta[name=description]")) paper in
  let paper := fold_left onSearchLink (page (str "a[href^='/search']")) paper in
  fold_left onSizeLine (page (str "div.text-gray-500")) paper.

Definition scidbURLOf (base doi : gostring) : gostring :=
  str "https://" ++ base ++ str "/scidb/" ++ doi.

Definition md5URLOf (base hash : gostring) : gostring :=
  str "https://" ++ base ++ str "/md5/" ++ hash.

Definition LookupDOI (doi : gostring) : M Paper.t :=
  let* env := GetEnv in
  let paper := Paper.new doi in
  (* Phase 1: Visit /scidb/DOI which redirects to a search results page. *)
  let scidbURL := scidbURLOf (env.AnnasBaseURL env) doi in
  let paper := Paper.setPageURL paper scidbURL in
  log Info (str "Looking up DOI") ;;
  let* page :=
    wrap (str "failed to lookup DOI: ")
         (collector_Visit scidbURL (log Error (str "SciDB search failed"))) in
  let paper := fold_left onSearchAnchor (page md5Selector) paper in
  if is_empty (Paper.Hash paper) then
    fail (str "no paper found for DOI: " ++ doi)
  else
    (* Phase 2: Visit /md5/HASH to get paper details. *)
    let md5URL := md5URLOf (env.AnnasBaseURL env) (Paper.Hash paper) in
    log Info (str "Fetching paper details") ;;
    let* r :=
      try (collector_Visit md5URL
             (log Warn (str "Failed to fetch paper details"))) in
    let* paper :=
      match r with
      | inl _ =>
          (* Non-fatal: we still have the hash for downloading *)
          log Warn (str "Failed to visit paper detail page") ;;
          ret paper
      | inr detail => ret (detailCallbacks detail paper)
      end in
    (* Set download URL for scidb (no browser verification required) *)
    let paper := Paper.setDownloadURL paper (str "/scidb?doi=" ++ doi) in
    ret paper.

(** *** [FindBook] *)

Definition primaryClass : gostring :=
  str "custom-a block mr-2 sm:mr-4 hover:opacity-80".

(** The body of the loop over [bookList]: the record of one element, or
    [None] where the source says [continue]. *)
Definition parseBook (e : colly.HTMLElement) : M (option Book.t) :=
  (* Validate that parent and container elements exist *)
  let parent := goquery.Parent (colly.DOM e) in
  if (goquery.Length parent =? 0)%nat then
    log Warn (str "Skipping book: no parent element found") ;; ret None
  else
    let bookInfoDiv := goquery.Find parent (str "div.max-w-full") in
    if (goquery.Length bookInfoDiv =? 0)%nat then
      log Warn (str "Skipping book: book info container not found") ;;
      ret None
    else
      (* Extract title *)
      let titleElement := goquery.Find bookInfoDiv md5Selector in
      let title := strings.TrimSpace (goquery.Text titleElement) in
      if is_empty title then
        log Warn (str "Skipping book: title is empty") ;; ret None
      else
        (* Extract authors (optional) *)
        let authorsRaw :=
          goquery.Text
            (goquery.Parent
               (goquery.Find bookInfoDiv
                  (str "a[href^='/search'] span.icon-\[mdi--user-edit\]"))) in
        let authors := strings.TrimSpace authorsRaw in
        (* Extract publisher (optional) *)
        let publisherRaw :=
          goquery.Text
            (goquery.Parent
               (goquery.Find bookInfoDiv
                  (str "a[href^='/search'] span.icon-\[mdi--company\]"))) in
        let publisher := strings.TrimSpace publisherRaw in
        (* Extract metadata *)
        let meta :=
          goquery.Text (goquery.Find bookInfoDiv (str "div.text-gray-800")) in
        let '(language, format, size) := extractMetaInformation meta in
        (* Extract link and hash *)
        let link := colly.Attr e (str "href") in
        if is_empty link then
          log Warn (str "Skipping book: no link found") ;; ret None
        else
          let hash := strings.TrimPrefix link (str "/md5/") in
          if is_empty hash then
            log Warn (str "Skipping book: no hash found") ;; ret None
          else
            ret (Some {| Book.Language := language;
                         Book.Format := format;
                         Book.Size := size;
                         Book.Title := title;
                         Book.Publisher := publisher;
                         Book.Authors := authors;
                         Book.URL := colly.AbsoluteURL e link;
                         Book.Hash := hash |}).

(** [for _, e := range bookList { ... }] *)
Fixpoint parseBooks (bookList : list colly.HTMLElement)
    (bookListParsed : list Book.t) : M (list Book.t) :=
  match bookList with
  | [] => ret bookListParsed
  | e :: rest =>
      let* r := parseBook e in
      match r with
      | Some book => parseBooks rest (bookListParsed ++ [book])
      | None => parseBooks rest bookListParsed
      end
  end.

(** The elements that the [OnHTML] callback appends to [bookList]:
    only the first link (the cover image link) of an entry, not the
    duplicate title link. *)
Definition primaryAnchors (page : gostring -> list colly.HTMLElement)
  : list colly.HTMLElement :=
  filter (fun e => gostring_eqb (colly.Attr e (str "class")) primaryClass)
         (page md5Selector).

Definition searchURLOf (base query content : gostring) : gostring :=
  str "https://" ++ base ++ str "/search?q=" ++ url.QueryEscape query
    ++ str "&content=" ++ url.QueryEscape content.

(** The collector of [FindBook] is asynchronous: [Visit] only returns
    the errors met before the request is issued, a failed request is
    reported to [OnError], and [Wait] returns when the callbacks are
    done.  The order in which the callback appends the elements to
    [bookList] is the order of [page md5Selector]. *)
Definition FindBook (query content : gostring) : M (list Book.t) :=
  let content := if is_empty content then str "book_any" else content in
  let* env := GetEnv in
  let fullURL := searchURLOf (env.AnnasBaseURL env) query content in
  emit (EvVisit fullURL) ;;
  let* bookList :=
    match visit w fullURL with
    | colly.Failed None err =>
        log Error (str "Failed to visit search URL") ;;
        fail (str "failed to visit search URL: " ++ err)
    | colly.Failed (Some _) _ =>
        log Info (str "Visiting URL") ;;
        log Error (str "Search request failed") ;;
        ret []
    | colly.Fetched page =>
        log Info (str "Visiting URL") ;;
        ret (primaryAnchors page)
    end in
  let* bookListParsed := parseBooks bookList [] in
  (* Log result count for debugging *)
  log Info (str "Search completed") ;;
  ret bookListParsed.

End Anna.

(** Either of the two [Download] methods. *)
Inductive download : Type :=
| BookDownload (b : Book.t) (secretKey : gostring)
| PaperDownload (p : Paper.t).

Definition Download `{strings.CaseTables} `{goquery.API} (w : World)
    (d : download) (folderPath : gostring) : M unit :=
  match d with
  | BookDownload b secretKey => Book_Download w b secretKey folderPath
  | PaperDownload p => Paper_Download w p folderPath
  end.

(** The requests and the visits among the events of a call. *)
Definition requests (evs : list event) : list gostring :=
  flat_map (fun e => match e with EvDo req => [req_URL req] | _ => [] end) evs.

Definition visits (evs : list event) : list gostring :=
  flat_map (fun e => match e with EvVisit u => [u] | _ => [] end) evs.

(** A call whose events show that the file [p] was created and that the
    copy into it, or its sync, failed afterwards. *)
Definition writeFailed (p : gostring) (evs : list event) : Prop :=
  In (EvCreate p None) evs
  /\ ((exists n e, In (EvCopy p n (Some e)) evs)
      \/ (exists e, In (EvSync p (Some e)) evs)).


(** The hash that phase 1 of [LookupDOI] finds on a page: that of the first
    anchor whose [href] has something after [/md5/]. *)
Definition firstHash `{goquery.API} (anchors : list colly.HTMLElement)
  : option gostring :=
  List.find (fun h => negb (is_empty h))
    (map (fun a => strings.TrimPrefix (colly.Attr a (str "href")) (str "/md5/"))
         anchors).

(** The title and the hash that [FindBook] reads from an element. *)
Definition elementTitle `{goquery.API} (e : colly.HTMLElement) : gostring :=
  strings.TrimSpace
    (goquery.Text
       (goquery.Find
          (goquery.Find (goquery.Parent (colly.DOM e)) (str "div.max-w-full"))
          md5Selector)).

Definition elementHash `{goquery.API} (e : colly.HTMLElement) : gostring :=
  strings.TrimPrefix (colly.Attr e (str "href")) (str "/md5/").

(** The events that show a file being written: a creation that succeeded,
    a copy, a sync. *)
Definition fileEvent (e : event) : bool :=
  match e with
  | EvCreate _ None | EvCopy _ _ _ | EvSync _ _ => true
  | _ => false
  end.

(** C1 as the specification words it: after a failed copy or sync no file
    is left at the path, whatever else happens. *)
Definition failed_write_leaves_no_file : Prop :=
  forall (C : strings.CaseTables) (G : goquery.API) (w : World)
         (d : download) (folderPath : gostring) fs r fs' evs (p : gostring),
    Download w d folderPath fs = (r, fs', evs) ->
    writeFailed p evs ->
    (exists e, r = inl e) /\ fs' !! p = None.

(** The control characters of Unicode (category Cc, what Go's
    [unicode.IsControl] accepts): U+0000 to U+001F and U+007F to U+009F.
    In a UTF-8 string the first are the bytes up to 0x1f, U+007F is the
    byte 0x7f, and the others are the two bytes 0xC2 0x80 to 0xC2 0x9F. *)
Fixpoint hasControl (s : gostring) : bool :=
  match s with
  | [] => false
  | c :: rest =>
      (N_of_ascii c <=? 31)%N || (N_of_ascii c =? 127)%N
      || match rest with
         | d :: _ =>
             (N_of_ascii c =? 194)%N
             && (128 <=? N_of_ascii d)%N && (N_of_ascii d <=? 159)%N
         | [] => false
         end
      || hasControl rest
  end.

(** C2 as the specification words it: control characters without a
    range, in the input and in the output. *)
Definition sanitizeFilename_removes_control_characters : Prop :=
  forall s : gostring,
    strings.Contains s (str "..") = true
    \/ Exists (fun c => unsafeFilenameChars c = true) s
    \/ hasControl s = true ->
    Forall (fun c => unsafeFilenameChars c = false) (sanitizeFilename s)
    /\ hasControl (sanitizeFilename s) = false
    /\ strings.Contains (sanitizeFilename s) (str "..") = false.

(** ** Predicates of the statements *)

(** A byte that [unsafeFilenameChars] does not match. *)
Definition safeByte (c : ascii) : Prop := unsafeFilenameChars c = false.

(** What [sanitizeFilename] returns, whatever it is given: bytes outside
    the class, no two dots in a row, between 1 and 200 bytes. *)
Record sanitized (t : gostring) : Prop := {
  sanitized_safe : Forall safeByte t;
  sanitized_dots : strings.Contains t (str "..") = false;
  sanitized_nonempty : t <> [];
  sanitized_length : (List.length t <= 200)%nat
}.

(** Events without a file event, and computations that cause no other. *)
Definition quiet (evs : list event) : Prop :=
  Forall (fun e => fileEvent e = false) evs.

Definition silent {A} (m : M A) : Prop :=
  forall fs r fs' evs, m fs = (r, fs', evs) -> quiet evs.

(** A computation that either leaves the files alone or creates one file,
    at a path for which [at_] holds, and then runs the write path on it. *)
Definition writesOnce `{strings.CaseTables} `{goquery.API} (w : World)
    (at_ : gostring -> Prop) (m : M unit) : Prop :=
  forall fs r fs' evs,
    m fs = (r, fs', evs) ->
    quiet evs
    \/ exists pre path src done fs0 evsW,
         evs = pre ++ EvCreate path None :: evsW
         /\ at_ path
         /\ quiet pre
         /\ writeBody w path src done fs0 = (r, fs', evsW).

(** A record that [FindBook] may return. *)
Definition validBook (b : Book.t) : Prop :=
  Book.Title b <> [] /\ Book.Hash b <> [].

(** ** A small world for the examples *)

Module Examples.

(** Case tables for strings that are all ASCII anyway. *)
#[export] Instance caseTables : strings.CaseTables :=
  {| strings.mapUnicodeToUpper := fun s => s;
     strings.mapUnicodeToLower := fun s => s |}.

(** Pages whose selections are a number of nodes and their text; a
    selection is its own parent, and only the container and the title
    link are found inside it. *)
#[export] Instance dom : goquery.API :=
  {| goquery.Selection := nat * list ascii;
     goquery.Parent := fun s => s;
     goquery.Find := fun s sel =>
       if gostring_eqb sel (str "div.max-w-full")
          || gostring_eqb sel md5Selector
       then s else (O, []);
     goquery.Length := fun s => fst s;
     goquery.Text := fun s => snd s |}.

Definition getenv (k : gostring) : gostring :=
  if gostring_eqb k (str "ANNAS_SECRET_KEY") then str "secret"
  else if gostring_eqb k (str "ANNAS_DOWNLOAD_PATH") then str "/srv/books"
  else [].

Definition apiURL : gostring :=
  str "https://annas-archive.li/dyn/api/fast_download.json?md5=d41d8cd9&key=secret".

Definition fileURL : gostring := str "https://files.example/d41d8cd9".

Definition paperURL : gostring :=
  str "https://annas-archive.li/scidb?doi=10.1000/182".

Definition ok (body : Body) : Response :=
  {| StatusCode := 200; Status := str "200 OK";
     Header_Get := fun _ => []; resp_Body := body |}.

(** The API answers with [apiBody], the file servers with [fileBody]. *)
Definition http (apiBody fileBody : Body) (req : Request)
  : error + Response :=
  if gostring_eqb (req_URL req) apiURL then inr (ok apiBody)
  else if gostring_eqb (req_URL req) fileURL
          || gostring_eqb (req_URL req) paperURL then inr (ok fileBody)
  else inl (str "no such host").

Definition urlEnvelope : Body :=
  {| body_data := str "{url}"; body_err := None |}.

Definition quotaEnvelope : Body :=
  {| body_data := str "{quota}"; body_err := None |}.

(** [{url}] stands for an envelope with the URL of the file, [{quota}]
    for one with an empty URL and the error [quota exceeded]. *)
Definition json (b : Body) : error + fastDownloadResponse :=
  if gostring_eqb (body_data b) (str "{url}")
  then inr {| fdr_DownloadURL := fileURL; fdr_Error := [] |}
  else if gostring_eqb (body_data b) (str "{quota}")
  then inr {| fdr_DownloadURL := []; fdr_Error := str "quota exceeded" |}
  else inl (str "unexpected end of JSON input").

Definition world (apiBody fileBody : Body) (pages : gostring -> colly.Visited)
    (removeFails : option error) : World :=
  {| Getenv := getenv;
     newRequestErr := fun _ => None;
     roundTrip := http apiBody fileBody;
     decodeJSON := json;
     parseMediaType := fun _ => inl (str "mime: no media type");
     extensionsByType := fun _ => [];
     visit := pages;
     createErr := fun _ => None;
     writeErr := fun _ => None;
     syncErr := fun _ => None;
     removeErr := fun _ => removeFails |}.

Definition offline (u : gostring) : colly.Visited :=
  colly.Failed (Some (Some 0)) (str "no such host").

(** A body that breaks off after ten bytes. *)
Definition brokenBody : Body :=
  {| body_data := str "%PDF-1.7 1"; body_err := Some (str "unexpected EOF") |}.

Definition wholeBody : Body :=
  {| body_data := str "%PDF-1.7 1 0 obj"; body_err := None |}.

Definition book : Book.t :=
  {| Book.Language := str "English"; Book.Format := str "PDF";
     Book.Size := str "0.7MB"; Book.Title := str "Dune";
     Book.Publisher := []; Book.Authors := str "Frank Herbert";
     Book.URL := str "https://annas-archive.li/md5/d41d8cd9";
     Book.Hash := str "d41d8cd9" |}.


Definition paper : Paper.t :=
  Paper.setDownloadURL (Paper.new (str "10.1000/182"))
                       (str "/scidb?doi=10.1000/182").

(** An anchor of a result page: its [href], its [class], and the
    selection of its node. *)
Definition anchor (href class : gostring) (node : nat * list ascii)
  : colly.HTMLElement :=
  {| colly.Attr := fun k =>
       if gostring_eqb k (str "href") then href
       else if gostring_eqb k (str "class") then class else [];
     colly.Text := snd node;
     colly.DOM := node;
     colly.AbsoluteURL := fun u => str "https://annas-archive.li" ++ u |}.

Definition scidbURL : gostring :=
  str "https://annas-archive.li/scidb/10.1000/182".

(** The search page of a DOI without a result: its only anchor has
    nothing after [/md5/]. *)
Definition emptySearch (u : gostring) : colly.Visited :=
  if gostring_eqb u scidbURL
  then colly.Fetched
         (fun sel => if gostring_eqb sel md5Selector
                     then [anchor (str "/md5/") [] (1%nat, [])] else [])
  else offline u.

(** The search page of a DOI with two results; the detail page cannot
    be fetched. *)
Definition foundSearch (u : gostring) : colly.Visited :=
  if gostring_eqb u scidbURL
  then colly.Fetched
         (fun sel => if gostring_eqb sel md5Selector
                     then [anchor (str "/md5/") [] (1%nat, []);
                           anchor (str "/md5/d41d8cd9") [] (1%nat, []);
                           anchor (str "/md5/98f00b20") [] (1%nat, [])]
                     else [])
  else offline u.

Definition searchURL : gostring :=
  str "https://annas-archive.li/search?q=dune&content=book_any".

(** A result page with a good entry, one without a title and one without
    a hash. *)
Definition results (u : gostring) : colly.Visited :=
  if gostring_eqb u searchURL
  then colly.Fetched
         (fun sel => if gostring_eqb sel md5Selector
                     then [anchor (str "/md5/d41d8cd9") primaryClass
                                  (1%nat, str " Dune ");
                           anchor (str "/md5/98f00b20") primaryClass
                                  (1%nat, str "  ");
                           anchor (str "/md5/") primaryClass
                                  (1%nat, str "Emma");
                           anchor (str "/md5/d41d8cd9") (str "title-link")
                                  (1%nat, str "Dune")]
                     else [])
  else offline u.

(** A world in which every request is answered with 503. *)
Definition unavailable : World :=
  {| Getenv := getenv;
     newRequestErr := fun _ => None;
     roundTrip := fun _ =>
       inr {| StatusCode := 503; Status := str "503 Service Unavailable";
              Header_Get := fun _ => [];
              resp_Body := {| body_data := str "try again later";
                              body_err := None |} |};
     decodeJSON := json;
     parseMediaType := fun _ => inl (str "mime: no media type");
     extensionsByType := fun _ => [];
     visit := offline;
     createErr := fun _ => None;
     writeErr := fun _ => None;
     syncErr := fun _ => None;
     removeErr := fun _ => None |}.

(** A world without the environment variables. *)
Definition unconfigured : World :=
  {| Getenv := fun _ => [];
     newRequestErr := fun _ => None;
     roundTrip := http urlEnvelope wholeBody;
     decodeJSON := json;
     parseMediaType := fun _ => inl (str "mime: no media type");
     extensionsByType := fun _ => [];
     visit := results;
     createErr := fun _ => None;
     writeErr := fun _ => None;
     syncErr := fun _ => None;
     removeErr := fun _ => None |}.

(** The environment that [GetEnv] reads from [getenv]. *)
Definition environment : env.Env :=
  {| env.SecretKey := str "secret";
     env.DownloadPath := str "/srv/books";
     env.AnnasBaseURL := env.DefaultAnnasBaseURL |}.

(** The record of the first entry of [results]. *)
Definition dune : Book.t :=
  {| Book.Language := []; Book.Format := []; Book.Size := [];
     Book.Title := str "Dune"; Book.Publisher := []; Book.Authors := [];
     Book.URL := str "https://annas-archive.li/md5/d41d8cd9";
     Book.Hash := str "d41d8cd9" |}.

End Examples.

(** ** What the expressions match *)

(** [Lang r m]: the expression [r] can match the text [m] (the assertion
    [\b] is read as matching the empty text anywhere), and [Captures r g]:
    a group of [r] can capture [g]. *)
Inductive Lang : regexp.re -> gostring -> Prop :=
| Lang_Eps : Lang regexp.Eps []
| Lang_Chr p c : p c = true -> Lang (regexp.Chr p) [c]
| Lang_Cat a b x y : Lang a x -> Lang b y -> Lang (regexp.Cat a b) (x ++ y)
| Lang_AltL a b x : Lang a x -> Lang (regexp.Alt a b) x
| Lang_AltR a b x : Lang b x -> Lang (regexp.Alt a b) x
| Lang_Star0 a : Lang (regexp.Star a) []
| Lang_StarS a x y :
    Lang a x -> Lang (regexp.Star a) y -> Lang (regexp.Star a) (x ++ y)
| Lang_WordBoundary : Lang regexp.WordBoundary []
| Lang_Group a x : Lang a x -> Lang (regexp.Group a) x.

Inductive Captures : regexp.re -> gostring -> Prop :=
| Captures_Group a g : Lang a g -> Captures (regexp.Group a) g
| Captures_CatL a b g : Captures a g -> Captures (regexp.Cat a b) g
| Captures_CatR a b g : Captures b g -> Captures (regexp.Cat a b) g
| Captures_AltL a b g : Captures a g -> Captures (regexp.Alt a b) g
| Captures_AltR a b g : Captures b g -> Captures (regexp.Alt a b) g
| Captures_Star a g : Captures a g -> Captures (regexp.Star a) g.

(** The format codes of [formatRegex], in upper case. *)
Definition formatCodes : list gostring :=
  map str ["EPUB"; "PDF"; "MOBI"; "AZW3"; "AZW"; "DJVU"; "CBZ"; "CBR";
           "FB2"; "DOC"; "DOCX"; "TXT"]%string.

(** The units of [sizeRegex]. *)
Definition sizeUnits : list gostring :=
  map str ["MB"; "KB"; "GB"; "TB"]%string.

(** [name] is one element of a path: not empty, without a separator, and
    neither [.] nor [..]. *)
Definition pathElement (name : gostring) : Prop :=
  name <> [] /\ name <> str "." /\ name <> str ".."
  /\ Forall (fun c => filepath.IsPathSeparator c = false) name.

(** The directory [dir] as the prefix of the paths of its files. *)
Definition dirPrefix (dir : gostring) : gostring :=
  if gostring_eqb (filepath.Clean dir) [filepath.Separator]
  then [filepath.Separator]
  else filepath.Clean dir ++ [filepath.Separator].

(** ** What a computation may do *)

(** [m] can return [a]. *)
Definition returns {A} (m : M A) (a : A) : Prop :=
  exists fs fs' evs, m fs = (inr a, fs', evs).

(** [m] leaves the files as they are. *)
Definition readonly {A} (m : M A) : Prop :=
  forall fs r fs' evs, m fs = (r, fs', evs) -> fs' = fs.

(** All events of [m] satisfy [P]. *)
Definition emits (P : event -> Prop) {A} (m : M A) : Prop :=
  forall fs r fs' evs, m fs = (r, fs', evs) -> Forall P evs.

(** Events of a function that only logs and visits pages. *)
Definition looksOnly (e : event) : Prop :=
  match e with
  | EvLog _ _ | EvVisit _ => True
  | _ => False
  end.

(** [m] fails without a change to the files, or creates one file, at a
    path and for a body for which [P] holds, and runs the write path on
    it. *)
Definition downloadsTo `{strings.CaseTables} `{goquery.API} (w : World)
    (P : gostring -> Body -> Prop) (m : M unit) : Prop :=
  forall fs r fs' evs,
    m fs = (r, fs', evs) ->
    (fs' = fs /\ exists e, r = inl e)
    \/ exists path src done evsW,
         P path src
         /\ writeBody w path src done (<[path := []]> fs) = (r, fs', evsW).

(** The file of a book and what is written into it: the body of the
    answer to the URL that the API named. *)
Definition bookTarget `{strings.CaseTables} `{goquery.API} (w : World)
    (b : Book.t) (secretKey folderPath : gostring)
    (path : gostring) (src : Body) : Prop :=
  path = Book_filePath b folderPath
  /\ exists e api apiResp dl,
       returns (GetEnv w) e
       /\ roundTrip w
            {| req_URL := fastDownloadURL (env.AnnasBaseURL e) (Book.Hash b)
                                          secretKey;
               req_Header := [] |} = inr api
       /\ StatusCode api = 200
       /\ decodeJSON w (resp_Body api) = inr apiResp
       /\ fdr_DownloadURL apiResp <> []
       /\ roundTrip w {| req_URL := fdr_DownloadURL apiResp;
                         req_Header := [] |} = inr dl
       /\ StatusCode dl = 200
       /\ src = resp_Body dl.

(** The file of a paper: named after the title, or after the DOI when the
    title is empty, with the extension inferred from the answer to the one
    request, which carries the browser's [User-Agent]. *)
Definition paperTarget `{strings.CaseTables} `{goquery.API} (w : World)
    (p : Paper.t) (folderPath : gostring)
    (path : gostring) (src : Body) : Prop :=
  exists e resp,
    returns (GetEnv w) e
    /\ roundTrip w
         {| req_URL :=
              if strings.HasPrefix (Paper.DownloadURL p) (str "http")
              then Paper.DownloadURL p
              else str "https://" ++ env.AnnasBaseURL e ++ Paper.DownloadURL p;
            req_Header := [(str "User-Agent", BrowserUserAgent)] |} = inr resp
    /\ StatusCode resp = 200
    /\ path = filepath.Join
                [folderPath;
                 sanitizeFilename
                   (if is_empty (Paper.Title p) then Paper.DOI p
                    else Paper.Title p)
                 ++ inferExt w resp]
    /\ src = resp_Body resp.

(** The target of a download: its path and the body that goes there. *)
Definition downloadTarget `{strings.CaseTables} `{goquery.API} (w : World)
    (d : download) (folderPath : gostring) (path : gostring) (src : Body)
  : Prop :=
  match d with
  | BookDownload b secretKey => bookTarget w b secretKey folderPath path src
  | PaperDownload p => paperTarget w p folderPath path src
  end.

(** The warnings among the events. *)
Definition warnings (evs : list event) : list gostring :=
  flat_map (fun e => match e with EvLog Warn msg => [msg] | _ => [] end) evs.

(** ** [Book.String] and [Paper.String] *)

Definition newline : gostring := ["010"%char].

Definition Book_String (b : Book.t) : gostring :=
  str "Title: " ++ Book.Title b ++ newline
  ++ str "Authors: " ++ Book.Authors b ++ newline
  ++ str "Publisher: " ++ Book.Publisher b ++ newline
  ++ str "Language: " ++ Book.Language b ++ newline
  ++ str "Format: " ++ Book.Format b ++ newline
  ++ str "Size: " ++ Book.Size b ++ newline
  ++ str "URL: " ++ Book.URL b ++ newline
  ++ str "Hash: " ++ Book.Hash b.

Definition Paper_String (p : Paper.t) : gostring :=
  str "DOI: " ++ Paper.DOI p ++ newline
  ++ str "Title: " ++ Paper.Title p ++ newline
  ++ str "Authors: " ++ Paper.Authors p ++ newline
  ++ str "Journal: " ++ Paper.Journal p ++ newline
  ++ str "Size: " ++ Paper.Size p ++ newline
  ++ str "Hash: " ++ Paper.Hash p ++ newline
  ++ str "Download URL: " ++ Paper.DownloadURL p ++ newline
  ++ str "Page: " ++ Paper.PageURL p.

(** ** The tools of [internal/modes] *)

(** [*mcp.CallToolResultFor[any]]: the texts of its content. *)
Record CallToolResult : Type := { Content : list gostring }.

Section Tools.

Context `{strings.CaseTables} `{goquery.API}.
Variable w : World.

Definition SearchTool (searchTerm content : gostring) : M CallToolResult :=
  log Info (str "Search command called") ;;
  let* r := try (FindBook w searchTerm content) in
  match r with
  | inl err =>
      log Error (str "Search command failed") ;;
      fail err
  | inr books =>
      if (List.length books =? 0)%nat then
        log Info (str "Search returned no results") ;;
        ret {| Content := [str "No books found."] |}
      else
        let bookList :=
          fold_left
            (fun bookList book =>
               bookList ++ Book_String book ++ newline ++ newline)
            books [] in
        log Info (str "Search command completed successfully") ;;
        ret {| Content := [bookList] |}
  end.

Definition DownloadTool (bookHash title format : gostring)
  : M CallToolResult :=
  log Info (str "Download command called") ;;
  let* r := try (GetEnv w) in
  match r with
  | inl err =>
      log Error (str "Failed to get environment variables") ;;
      fail err
  | inr env =>
      let secretKey := env.SecretKey env in
      let downloadPath := env.DownloadPath env in
      let book := {| Book.Language := []; Book.Format := format;
                     Book.Size := []; Book.Title := title;
                     Book.Publisher := []; Book.Authors := [];
                     Book.URL := []; Book.Hash := bookHash |} in
      let* r := try (Book_Download w book secretKey downloadPath) in
      match r with
      | inl err =>
          log Error (str "Download command failed") ;;
          fail err
      | inr _ =>
          log Info (str "Download command completed successfully") ;;
          ret {| Content :=
                   [str "Book downloaded successfully to path: "
                      ++ downloadPath] |}
      end
  end.

Definition DOITool (doi : gostring) : M CallToolResult :=
  log Info (str "DOI lookup called") ;;
  let* r := try (LookupDOI w doi) in
  match r with
  | inl _ =>
      log Error (str "DOI lookup failed") ;;
      ret {| Content := [str "No paper found for DOI: " ++ doi] |}
  | inr paper =>
      log Info (str "DOI lookup completed") ;;
      ret {| Content := [Paper_String paper] |}
  end.

End Tools.

(** ** More names for the statements *)

(** The fields of a paper that the detail page does not touch. *)
Definition paperCore (p : Paper.t)
  : gostring * gostring * gostring * gostring * gostring :=
  (Paper.DOI p, Paper.Hash p, Paper.DownloadURL p, Paper.SciHubURL p,
   Paper.PageURL p).

(** The record that the loop of [FindBook] makes of an element, if any:
    what [parseBook] returns for it. *)
Definition recordOf `{strings.CaseTables} `{goquery.API}
    (e : colly.HTMLElement) : option Book.t :=
  match parseBook e ∅ with
  | (inr r, _, _) => r
  | _ => None
  end.

(** The text that [SearchTool] makes of the books. *)
Definition bookListText (books : list Book.t) : gostring :=
  concat (map (fun book => Book_String book ++ newline ++ newline) books).

(** * Properties *)

(** ** [strings]: prefixes and substrings *)

Lemma byte_eqb_eq (a b : ascii) : byte_eqb a b = true <-> a = b.
Proof. unfold byte_eqb. apply Ascii.eqb_eq. Qed.

Lemma byte_eqb_refl (a : ascii) : byte_eqb a a = true.
Proof. apply byte_eqb_eq. reflexivity. Qed.

Lemma is_empty_false (s : gostring) : is_empty s = false <-> s <> [].
Proof. destruct s; simpl; split; congruence. Qed.

(** [Index] does not depend on where the count starts, and [Contains]
    unfolds along the string. *)
Lemma Index_from_sign (s sub : gostring) (i j : Z) :
  0 <= i -> 0 <= j ->
  (0 <=? strings.Index_from s sub i) = (0 <=? strings.Index_from s sub j).
Proof.
  revert i j. induction s as [|c s IH]; intros i j Hi Hj; simpl.
  - destruct (strings.HasPrefix [] sub); [|reflexivity].
    transitivity true; [|symmetry]; apply Z.leb_le; assumption.
  - destruct (strings.HasPrefix (c :: s) sub).
    + transitivity true; [|symmetry]; apply Z.leb_le; assumption.
    + apply IH; lia.
Qed.

Lemma Contains_nil (sub : gostring) :
  strings.Contains [] sub = strings.HasPrefix [] sub.
Proof.
  unfold strings.Contains, strings.Index. simpl.
  destruct (strings.HasPrefix [] sub); reflexivity.
Qed.

Lemma Contains_cons (c : ascii) (s sub : gostring) :
  strings.Contains (c :: s) sub
  = strings.HasPrefix (c :: s) sub || strings.Contains s sub.
Proof.
  unfold strings.Contains, strings.Index. simpl.
  destruct (strings.HasPrefix (c :: s) sub); [reflexivity|].
  simpl. apply Index_from_sign; lia.
Qed.

Lemma HasPrefix_firstn (n : nat) (s p : gostring) :
  strings.HasPrefix (firstn n s) p = true -> strings.HasPrefix s p = true.
Proof.
  revert n s. induction p as [|c p IH]; intros n s E; simpl in *;
    [reflexivity|].
  destruct n as [|n]; destruct s as [|d s]; simpl in E; try discriminate.
  apply andb_prop in E as [E1 E2]. rewrite E1. simpl. eapply IH, E2.
Qed.

Lemma Contains_firstn (n : nat) (s sub : gostring) :
  strings.Contains s sub = false ->
  strings.Contains (firstn n s) sub = false.
Proof.
  revert n. induction s as [|c s IH]; intros n E.
  - rewrite firstn_nil. exact E.
  - rewrite Contains_cons in E. apply orb_false_elim in E as [E1 E2].
    destruct n as [|n]; simpl.
    + rewrite Contains_nil. destruct sub; [discriminate|reflexivity].
    + rewrite Contains_cons. rewrite (IH n E2), orb_false_r.
      destruct (strings.HasPrefix (c :: firstn n s) sub) eqn:E3;
        [|reflexivity].
      apply (HasPrefix_firstn (S n) (c :: s)) in E3. congruence.
Qed.

(** ** [sanitizeFilename] *)

Lemma safeByte_not_separator (c : ascii) :
  safeByte c -> filepath.IsPathSeparator c = false.
Proof.
  unfold safeByte, filepath.IsPathSeparator, filepath.Separator. intros E.
  destruct (byte_eqb c "/") eqn:E1; [|reflexivity].
  apply byte_eqb_eq in E1. subst c. discriminate.
Qed.

Lemma ReplaceAllString_class_safe (s : gostring) :
  Forall safeByte (ReplaceAllString_class unsafeFilenameChars s (str "_")).
Proof.
  induction s as [|c s IH]; simpl; [constructor|].
  destruct (unsafeFilenameChars c) eqn:E; simpl; constructor;
    try assumption; reflexivity.
Qed.

Lemma ReplaceAllString_class_id (s : gostring) :
  Forall safeByte s ->
  ReplaceAllString_class unsafeFilenameChars s (str "_") = s.
Proof.
  induction 1 as [|c s Hc Hs IH]; simpl; [reflexivity|].
  rewrite Hc. simpl. f_equal. exact IH.
Qed.

(** The two states of the replacement of [..]: at an occurrence or not. *)
Lemma replace_dots_cons (c : ascii) (s : gostring) :
  strings.replace_go (str "..") (str "_") (c :: s) 0
  = if strings.HasPrefix (c :: s) (str "..")
    then "_"%char :: strings.replace_go (str "..") (str "_") s 1
    else c :: strings.replace_go (str "..") (str "_") s 0.
Proof. reflexivity. Qed.

Lemma replace_dots_safe (s : gostring) :
  Forall safeByte s ->
  Forall safeByte (strings.replace_go (str "..") (str "_") s 0)
  /\ Forall safeByte (strings.replace_go (str "..") (str "_") s 1).
Proof.
  induction 1 as [|c s Hc Hs [IH0 IH1]]; [split; constructor|].
  split; [|exact IH0].
  rewrite replace_dots_cons.
  destruct (strings.HasPrefix (c :: s) (str "..")).
  - constructor; [reflexivity | exact IH1].
  - constructor; assumption.
Qed.

Lemma replace_dots_none (s : gostring) :
  strings.Contains (strings.replace_go (str "..") (str "_") s 0) (str "..")
    = false
  /\ strings.Contains (strings.replace_go (str "..") (str "_") s 1) (str "..")
    = false
  /\ (strings.HasPrefix (strings.replace_go (str "..") (str "_") s 0) (str ".")
        = true -> strings.HasPrefix s (str ".") = true).
Proof.
  induction s as [|c s (IH0 & IH1 & IHh)].
  - repeat split; try reflexivity. intros E. discriminate.
  - split; [|split; [exact IH0|]].
    + rewrite replace_dots_cons.
      destruct (strings.HasPrefix (c :: s) (str "..")) eqn:E.
      * rewrite Contains_cons, IH1. reflexivity.
      * rewrite Contains_cons, IH0, orb_false_r.
        destruct (strings.HasPrefix (c :: strings.replace_go _ _ s 0) _)
          eqn:E2; [|reflexivity].
        exfalso. simpl in E2. apply andb_prop in E2 as [Ec E2].
        assert (Hs : strings.HasPrefix s (str ".") = true).
        { apply IHh. simpl.
          destruct (strings.replace_go _ _ s 0); [discriminate|].
          exact E2. }
        simpl in E. rewrite Ec in E. simpl in E, Hs.
        destruct s; [discriminate|]. congruence.
    + rewrite replace_dots_cons.
      destruct (strings.HasPrefix (c :: s) (str "..")) eqn:E.
      * intros E2. discriminate.
      * simpl. intros E2. exact E2.
Qed.

Lemma replace_dots_id (s : gostring) :
  strings.Contains s (str "..") = false ->
  strings.replace_go (str "..") (str "_") s 0 = s.
Proof.
  induction s as [|c s IH]; intros E; [reflexivity|].
  rewrite Contains_cons in E. apply orb_false_elim in E as [E1 E2].
  rewrite replace_dots_cons, E1. f_equal. apply IH, E2.
Qed.

Lemma dropWhile_none {A} (p : A -> bool) (l : list A) :
  Forall (fun x => p x = false) l -> filepath.dropWhile p l = l.
Proof. destruct 1 as [|x l Hx]; simpl; [reflexivity|]. rewrite Hx. reflexivity. Qed.

Lemma takeWhile_all {A} (p : A -> bool) (l : list A) :
  Forall (fun x => p x = true) l -> filepath.takeWhile p l = l.
Proof.
  induction 1 as [|x l Hx Hl IH]; simpl; [reflexivity|].
  rewrite Hx, IH. reflexivity.
Qed.

(** Without a separator [Base] has nothing to cut. *)
Lemma Base_no_separator (s : gostring) :
  Forall safeByte s -> s <> [] -> filepath.Base s = s.
Proof.
  intros Hs Hne. unfold filepath.Base.
  destruct s as [|c s]; [congruence|].
  assert (Hr : Forall (fun x => filepath.IsPathSeparator x = false)
                      (rev (c :: s))).
  { apply Forall_rev. eapply List.Forall_impl; [|exact Hs].
    intros a Ha. apply safeByte_not_separator, Ha. }
  rewrite dropWhile_none by exact Hr.
  rewrite takeWhile_all.
  - destruct (rev (c :: s)) eqn:E.
    + apply (f_equal (@rev ascii)) in E. rewrite rev_involutive in E.
      discriminate.
    + rewrite <- E. apply rev_involutive.
  - eapply List.Forall_impl; [|exact Hr]. intros a Ha. simpl in Ha. rewrite Ha.
    reflexivity.
Qed.

Lemma Base_replace_sanitized (s : gostring) :
  let t := filepath.Base
             (strings.ReplaceAll
                (ReplaceAllString_class unsafeFilenameChars s (str "_"))
                (str "..") (str "_")) in
  Forall safeByte t /\ strings.Contains t (str "..") = false /\ t <> [].
Proof.
  cbv zeta. change (strings.ReplaceAll ?x (str "..") (str "_"))
    with (strings.replace_go (str "..") (str "_") x 0).
  pose proof (ReplaceAllString_class_safe s) as H1.
  set (a := ReplaceAllString_class unsafeFilenameChars s (str "_")) in *.
  destruct (replace_dots_safe a H1) as [H2 _].
  destruct (replace_dots_none a) as [H3 _].
  destruct (strings.replace_go (str "..") (str "_") a 0) as [|c b].
  - simpl. repeat split; try discriminate.
    repeat constructor.
  - rewrite Base_no_separator by (try assumption; discriminate).
    repeat split; try assumption. discriminate.
Qed.

Lemma sanitizeFilename_sanitized (s : gostring) :
  sanitized (sanitizeFilename s).
Proof.
  unfold sanitizeFilename.
  destruct (Base_replace_sanitized s) as (H1 & H2 & H3). cbv zeta in *.
  set (t := filepath.Base _) in *.
  destruct (200 <? List.length t)%nat eqn:E.
  - apply Nat.ltb_lt in E. split.
    + apply Forall_take, H1.
    + apply Contains_firstn, H2.
    + destruct t; [congruence|discriminate].
    + rewrite length_firstn. lia.
  - apply Nat.ltb_ge in E. split; assumption.
Qed.

Lemma sanitizeFilename_fixpoint (t : gostring) :
  sanitized t -> sanitizeFilename t = t.
Proof.
  intros [H1 H2 H3 H4]. unfold sanitizeFilename.
  rewrite ReplaceAllString_class_id by exact H1.
  change (strings.ReplaceAll t (str "..") (str "_"))
    with (strings.replace_go (str "..") (str "_") t 0).
  rewrite replace_dots_id by exact H2.
  rewrite Base_no_separator by assumption.
  destruct (200 <? List.length t)%nat eqn:E; [|reflexivity].
  apply Nat.ltb_lt in E. lia.
Qed.

(** C2: for every input that contains [..] or a character of the class
    (less-than, greater-than, colon, double quote, slash, backslash, bar,
    question mark, star, or a control character [\x00-\x1f]), the
    output of [sanitizeFilename] contains no character of the class and no
    [..]. *)
Theorem sanitizeFilename_removes_unsafe (s : gostring) :
  strings.Contains s (str "..") = true
  \/ Exists (fun c => unsafeFilenameChars c = true) s ->
  Forall (fun c => unsafeFilenameChars c = false) (sanitizeFilename s)
  /\ strings.Contains (sanitizeFilename s) (str "..") = false.
Proof.
  intros _. destruct (sanitizeFilename_sanitized s) as [H1 H2 _ _].
  split; assumption.
Qed.

Lemma sanitizeFilename_removes_unsafe_witness :
  (strings.Contains (str "../a<b|c..") (str "..") = true
   \/ Exists (fun c => unsafeFilenameChars c = true) (str "../a<b|c.."))
  /\ Forall (fun c => unsafeFilenameChars c = false)
            (sanitizeFilename (str "../a<b|c.."))
  /\ strings.Contains (sanitizeFilename (str "../a<b|c..")) (str "..") = false.
Proof.
  split; [left; reflexivity|].
  apply (sanitizeFilename_removes_unsafe (str "../a<b|c..")).
  left. reflexivity.
Defined.

(** C2 as worded fails: the class of [unsafeFilenameChars] ends at 0x1f,
    so the control character U+007F is returned as it is. *)
Lemma sanitizeFilename_keeps_DEL :
  ~ sanitizeFilename_removes_control_characters.
Proof.
  intros HClaim.
  destruct (HClaim ["127"%char]) as (_ & HControl & _).
  - right. right. reflexivity.
  - vm_compute in HControl. discriminate HControl.
Qed.

(** The same for the control characters U+0080 to U+009F, here U+0085
    between two letters. *)
Example sanitizeFilename_keeps_NEL :
  sanitizeFilename ["a"; "194"; "133"; "b"]%char
  = ["a"; "194"; "133"; "b"]%char
  /\ hasControl ["a"; "194"; "133"; "b"]%char = true.
Proof. split; reflexivity. Qed.

(** C7: [sanitizeFilename] is idempotent. *)
Theorem sanitizeFilename_idempotent (s : gostring) :
  sanitizeFilename (sanitizeFilename s) = sanitizeFilename s.
Proof. apply sanitizeFilename_fixpoint, sanitizeFilename_sanitized. Qed.

(** C8: on the empty string [sanitizeFilename] returns ["."], not the
    empty string: [filepath.Base] turns an empty path into a dot. *)
Theorem sanitizeFilename_empty : sanitizeFilename (str "") = str ".".
Proof. reflexivity. Qed.

(** No input makes [sanitizeFilename] return the empty string, so the
    fall-back names of the callers (["untitled"], ["paper"]) are never
    used. *)
Lemma sanitizeFilename_never_empty (s : gostring) :
  is_empty (sanitizeFilename s) = false.
Proof.
  apply is_empty_false. apply sanitized_nonempty, sanitizeFilename_sanitized.
Qed.

(** ** [extractMetaInformation] *)

(** C6: the language, format and size of the metadata line of the
    specification. *)
Theorem extractMetaInformation_example `{strings.CaseTables} :
  extractMetaInformation (str "✅ English [en] · EPUB · 0.7MB · 2015")
  = (str "English", str "EPUB", str "0.7MB").
Proof. vm_compute. reflexivity. Qed.


(** ** The effectful functions *)

(** Membership in an explicit list of events, case by case. *)
Ltac in_inv :=
  repeat match goal with
    | Hin : In _ [] |- _ => destruct Hin
    | Hin : In _ (_ :: _) |- _ =>
        destruct Hin as [Hin|Hin];
        [try discriminate Hin; try (injection Hin as ?; subst)|]
    | Heq : Some _ = None |- _ => discriminate Heq
    | Heq : None = Some _ |- _ => discriminate Heq
    end.

Section Effects.

Context `{strings.CaseTables} `{goquery.API}.
Variable w : World.

(** C3: when the fast-download API answers 200 with an envelope whose
    [download_url] is empty, [Book.Download] fails with the API error
    that carries the [error] of the envelope, or with the empty-response
    error when that is empty too, and the only request made is the one
    to the API. *)
Theorem Book_Download_empty_url (b : Book.t) (secretKey folderPath : gostring)
    fs (e : env.Env) (resp : Response) (msg : gostring) :
  GetEnv w fs = (inr e, fs, []) ->
  roundTrip w
    {| req_URL := fastDownloadURL (env.AnnasBaseURL e) (Book.Hash b) secretKey;
       req_Header := [] |} = inr resp ->
  StatusCode resp = 200 ->
  decodeJSON w (resp_Body resp)
    = inr {| fdr_DownloadURL := []; fdr_Error := msg |} ->
  exists evs,
    Book_Download w b secretKey folderPath fs
    = (inl (if is_empty msg then str "API returned empty download URL"
            else str "API error: " ++ msg), fs, evs)
    /\ requests evs
       = [fastDownloadURL (env.AnnasBaseURL e) (Book.Hash b) secretKey].
Proof.
  intros HEnv HApi HStatus HJson.
  unfold Book_Download, bind, wrap. rewrite HEnv.
  unfold client_Get, client_Do, bind, log, emit, ret, fail.
  rewrite HApi, HStatus. simpl. rewrite HJson. simpl.
  destruct (is_empty msg); simpl; eexists; split; reflexivity.
Qed.

(** *** The write path *)

Lemma quiet_app (a b : list event) : quiet a -> quiet b -> quiet (a ++ b).
Proof. intros Ha Hb. apply Forall_app. split; assumption. Qed.

Lemma quiet_not_in (evs : list event) (e : event) :
  quiet evs -> fileEvent e = true -> ~ In e evs.
Proof.
  intros Hq He Hin. unfold quiet in Hq. rewrite List.Forall_forall in Hq.
  apply Hq in Hin. congruence.
Qed.

Lemma GetEnv_quiet fs r fs' evs :
  GetEnv w fs = (r, fs', evs) -> quiet evs.
Proof.
  unfold GetEnv.
  destruct (is_empty _ || is_empty _).
  - intros E. injection E as <- <- <-. repeat constructor.
  - destruct (negb _); intros E; injection E as <- <- <-; constructor.
Qed.

(** What the write path does with the file [p]. *)
Lemma writeBody_spec p src done fs r fs' evs :
  writeBody w p src done fs = (r, fs', evs) ->
  (forall q, ~ In (EvCreate q None) evs)
  /\ ((exists q n e, In (EvCopy q n (Some e)) evs)
      \/ (exists q e, In (EvSync q (Some e)) evs) ->
      (exists e, r = inl e)
      /\ In (EvRemove p (removeErr w p)) evs
      /\ (removeErr w p = None -> fs' !! p = None)).
Proof.
  unfold writeBody, bind, io_Copy, File_Sync, File_Close, os_Remove, log,
    emit, ret, fail.
  destruct (writeErr w p) as [[n e]|];
    [destruct (n <? List.length (body_data src))%nat|];
    try destruct (body_err src); try destruct (syncErr w p);
    destruct (removeErr w p) eqn:ERemove; simpl;
    intros E; injection E as <- <- <-;
    (split; [intros q0 Hin; in_inv|]);
    intros [(q & n' & e' & Hin)|(q & e' & Hin)]; in_inv;
    (split; [eexists; reflexivity|]);
    (split; [simpl; auto 6|]);
    intros; try discriminate; apply lookup_delete_eq.
Qed.

(** The error of a failed write path, and the warning of a failed
    removal. *)
Lemma writeBody_error p src done fs r fs' evs :
  writeBody w p src done fs = (r, fs', evs) ->
  (exists q n e, In (EvCopy q n (Some e)) evs)
  \/ (exists q e, In (EvSync q (Some e)) evs) ->
  ((exists n e,
       In (EvCopy p n (Some e)) evs
       /\ r = inl (str "failed to write file (wrote "
                     ++ itoa (Z.of_nat n) ++ str " bytes): " ++ e))
   \/ exists e,
        In (EvSync p (Some e)) evs
        /\ r = inl (str "failed to sync file to disk: " ++ e))
  /\ (removeErr w p <> None ->
      In (EvLog Warn (str "Failed to remove partial file")) evs).
Proof.
  unfold writeBody, bind, io_Copy, File_Sync, File_Close, os_Remove, log,
    emit, ret, fail.
  destruct (writeErr w p) as [[n e]|];
    [destruct (n <? List.length (body_data src))%nat|];
    try destruct (body_err src); try destruct (syncErr w p);
    destruct (removeErr w p) eqn:ERemove; simpl;
    intros E; injection E as <- <- <-;
    intros [(q & n' & e' & Hin)|(q & e' & Hin)]; in_inv;
    (split;
     [first [left; do 2 eexists; split; [left; reflexivity|reflexivity]
            |right; eexists; split; [right; left; reflexivity|reflexivity]]
     |intros HRemove; try congruence; simpl; auto 10]).
Qed.

Lemma silent_GetEnv : silent (GetEnv w).
Proof. intros fs r fs' evs. apply GetEnv_quiet. Qed.

Lemma silent_wrap {A} (prefix : gostring) (m : M A) :
  silent m -> silent (wrap prefix m).
Proof.
  intros Hm fs r fs' evs. unfold wrap.
  destruct (m fs) as [[r1 fs1] ev1] eqn:E1. apply Hm in E1.
  destruct r1; intros E; injection E as <- <- <-; exact E1.
Qed.

Lemma silent_log lv msg : silent (log lv msg).
Proof.
  intros fs r fs' evs E. injection E as <- <- <-. repeat constructor.
Qed.

Lemma silent_client_Do req : silent (client_Do w req).
Proof.
  intros fs r fs' evs. unfold client_Do, bind, emit, fail, ret.
  destruct (roundTrip w req); intros E; injection E as <- <- <-;
    repeat constructor.
Qed.

Lemma writesOnce_fail at_ e : writesOnce w at_ (fail e).
Proof.
  intros fs r fs' evs E. injection E as <- <- <-. left. constructor.
Qed.

Lemma writesOnce_bind {A} at_ (m : M A) (k : A -> M unit) :
  silent m -> (forall a, writesOnce w at_ (k a)) -> writesOnce w at_ (bind m k).
Proof.
  intros Hm Hk fs r fs' evs. unfold bind.
  destruct (m fs) as [[r1 fs1] ev1] eqn:E1. apply Hm in E1.
  destruct r1 as [e|a].
  - intros E. injection E as <- <- <-. left. exact E1.
  - destruct (k a fs1) as [[r2 fs2] ev2] eqn:E2.
    intros E. injection E as <- <- <-.
    destruct (Hk a _ _ _ _ E2)
      as [Hq|(pre & path & src & done & fs0 & evsW & -> & Hat & Hq & HW)].
    + left. apply quiet_app; assumption.
    + right. exists (ev1 ++ pre), path, src, done, fs0, evsW.
      rewrite <- app_assoc. repeat split; try assumption.
      apply quiet_app; assumption.
Qed.

Lemma writesOnce_create (at_ : gostring -> Prop) prefix path src done :
  at_ path ->
  writesOnce w at_
    (wrap prefix (os_Create w path) ;; writeBody w path src done).
Proof.
  intros Hat fs r fs' evs. unfold bind, wrap, os_Create.
  destruct (createErr w path) as [err|].
  - intros E. injection E as <- <- <-. left. repeat constructor.
  - destruct (writeBody _ _ _ _ _) as [[r2 fs2] ev2] eqn:E2.
    intros E. injection E as <- <- <-. right.
    exists [], path, src, done, (<[path:=[]]> fs), ev2.
    repeat split; [exact Hat | constructor | exact E2].
Qed.

Lemma Book_Download_writesOnce b secretKey folderPath :
  writesOnce w (eq (Book_filePath b folderPath))
             (Book_Download w b secretKey folderPath).
Proof.
  unfold Book_Download.
  apply writesOnce_bind; [apply silent_wrap, silent_GetEnv|intros e].
  apply writesOnce_bind; [apply silent_log|intros _].
  apply writesOnce_bind; [apply silent_wrap, silent_client_Do|intros resp].
  destruct (negb _).
  { destruct (readAllLimit _ _) as [body [err|]]; apply writesOnce_fail. }
  destruct (decodeJSON _ _) as [err|apiResp]; [apply writesOnce_fail|].
  destruct (is_empty _).
  { destruct (negb _); apply writesOnce_fail. }
  apply writesOnce_bind; [apply silent_log|intros _].
  apply writesOnce_bind; [apply silent_wrap, silent_client_Do|intros dl].
  destruct (negb _); [apply writesOnce_fail|].
  apply writesOnce_bind; [apply silent_log|intros _].
  apply writesOnce_create. reflexivity.
Qed.

Lemma Paper_Download_writesOnce p folderPath :
  writesOnce w (fun _ => True) (Paper_Download w p folderPath).
Proof.
  unfold Paper_Download.
  destruct (is_empty _); [apply writesOnce_fail|].
  apply writesOnce_bind; [apply silent_wrap, silent_GetEnv|intros e].
  apply writesOnce_bind; [apply silent_log|intros _].
  destruct (newRequestErr _ _) as [err|]; [apply writesOnce_fail|].
  apply writesOnce_bind; [apply silent_wrap, silent_client_Do|intros resp].
  destruct (negb _).
  { destruct (readAllLimit _ _) as [body [err|]]; apply writesOnce_fail. }
  apply writesOnce_bind; [apply silent_log|intros _].
  apply writesOnce_create. exact I.
Qed.

(** C1, as the code has it: when the file was created and the copy or
    the sync failed afterwards, [Download] returns an error and calls
    [os.Remove] on the file; if the removal succeeds, no file is left at
    the path.  A failed removal is logged as a warning, and the
    error returned is in every case that of the copy or of the sync. *)
Theorem Download_write_failure_cleanup (d : download)
    (folderPath : gostring) fs r fs' evs (p : gostring) :
  Download w d folderPath fs = (r, fs', evs) ->
  writeFailed p evs ->
  (exists e, r = inl e)
  /\ In (EvRemove p (removeErr w p)) evs
  /\ (removeErr w p = None -> fs' !! p = None)
  /\ (removeErr w p <> None ->
      In (EvLog Warn (str "Failed to remove partial file")) evs)
  /\ ((exists n e,
         In (EvCopy p n (Some e)) evs
         /\ r = inl (str "failed to write file (wrote "
                       ++ itoa (Z.of_nat n) ++ str " bytes): " ++ e))
      \/ exists e,
           In (EvSync p (Some e)) evs
           /\ r = inl (str "failed to sync file to disk: " ++ e)).
Proof.
  intros HRun [HCreate HFail].
  assert (HOnce : writesOnce w (fun _ => True) (Download w d folderPath)).
  { destruct d; [|apply Paper_Download_writesOnce].
    intros fs1 r1 fs1' evs1 HRun1.
    destruct (Book_Download_writesOnce _ _ _ _ _ _ _ HRun1)
      as [Hq|(pre & path & src & done & fs0 & evsW & -> & _ & Hq & HW)];
      [left; exact Hq|right].
    exists pre, path, src, done, fs0, evsW. auto. }
  destruct (HOnce _ _ _ _ HRun)
    as [Hq|(pre & path & src & done & fs0 & evsW & -> & _ & Hq & HW)].
  - exfalso. eapply quiet_not_in; [exact Hq| |exact HCreate]. reflexivity.
  - destruct (writeBody_spec _ _ _ _ _ _ _ HW) as [HNoCreate HSpec].
    assert (p = path) as ->.
    { apply in_app_or in HCreate as [Hin|[Heq|Hin]].
      - exfalso. eapply quiet_not_in; [exact Hq| |exact Hin]. reflexivity.
      - congruence.
      - exfalso. eapply HNoCreate, Hin. }
    assert (HFailW : (exists q n e, In (EvCopy q n (Some e)) evsW)
                     \/ (exists q e, In (EvSync q (Some e)) evsW)).
    { destruct HFail as [(n & e & Hin)|(e & Hin)].
      * left. exists path, n, e.
        apply in_app_or in Hin as [Hin|[Heq|Hin]];
          [exfalso; eapply quiet_not_in; [exact Hq| |exact Hin]; reflexivity
          |discriminate|exact Hin].
      * right. exists path, e.
        apply in_app_or in Hin as [Hin|[Heq|Hin]];
          [exfalso; eapply quiet_not_in; [exact Hq| |exact Hin]; reflexivity
          |discriminate|exact Hin]. }
    assert (HIn : forall ev, In ev evsW ->
                             In ev (pre ++ EvCreate path None :: evsW)).
    { intros ev Hin. apply in_or_app. right. right. exact Hin. }
    destruct (HSpec HFailW) as (HErr & HRemove & HGone).
    destruct (writeBody_error _ _ _ _ _ _ _ HW HFailW) as [HWhich HWarn].
    split; [exact HErr|]. split; [apply HIn, HRemove|].
    split; [exact HGone|]. split; [intros HR; apply HIn, HWarn, HR|].
    destruct HWhich as [(n & e & Hin & ->)|(e & Hin & ->)].
    + left. exists n, e. split; [apply HIn, Hin|reflexivity].
    + right. exists e. split; [apply HIn, Hin|reflexivity].
Qed.



(** *** [LookupDOI] *)

(** Phase 1 keeps the first hash and ignores the later ones. *)
Lemma onSearchAnchor_keep anchors (p : Paper.t) :
  Paper.Hash p <> [] -> fold_left onSearchAnchor anchors p = p.
Proof.
  intros Hp. induction anchors as [|a anchors IH]; [reflexivity|].
  cbn [fold_left]. unfold onSearchAnchor at 2.
  apply is_empty_false in Hp. rewrite Hp. cbn [negb]. exact IH.
Qed.

Lemma onSearchAnchor_none anchors (p : Paper.t) :
  Paper.Hash p = [] -> firstHash anchors = None ->
  fold_left onSearchAnchor anchors p = p.
Proof.
  intros Hp. unfold firstHash.
  induction anchors as [|a anchors IH]; [reflexivity|].
  cbn [map List.find fold_left].
  destruct (is_empty (strings.TrimPrefix _ _)) eqn:E; cbn [negb];
    [|discriminate].
  intros HNone. unfold onSearchAnchor at 2. rewrite Hp, E.
  cbn [negb is_empty]. apply IH, HNone.
Qed.

Lemma onSearchAnchor_first anchors (p : Paper.t) hash :
  Paper.Hash p = [] -> firstHash anchors = Some hash ->
  fold_left onSearchAnchor anchors p = Paper.setHash p hash /\ hash <> [].
Proof.
  intros Hp. unfold firstHash.
  induction anchors as [|a anchors IH]; [discriminate|].
  cbn [map List.find fold_left].
  destruct (is_empty (strings.TrimPrefix _ _)) eqn:E; cbn [negb].
  - intros HSome. unfold onSearchAnchor at 2. rewrite Hp, E.
    cbn [negb is_empty]. apply IH, HSome.
  - intros HSome. injection HSome as <-.
    unfold onSearchAnchor at 2. rewrite Hp, E. cbn [negb is_empty].
    apply is_empty_false in E. split; [|exact E].
    apply onSearchAnchor_keep. exact E.
Qed.

(** C4: when the search page of phase 1 has no anchor with a hash,
    [LookupDOI] returns the not-found error, and the search page is the
    only page it has visited. *)
Theorem LookupDOI_not_found (doi : gostring) fs (e : env.Env)
    (page : gostring -> list colly.HTMLElement) :
  GetEnv w fs = (inr e, fs, []) ->
  visit w (scidbURLOf (env.AnnasBaseURL e) doi) = colly.Fetched page ->
  firstHash (page md5Selector) = None ->
  exists evs,
    LookupDOI w doi fs = (inl (str "no paper found for DOI: " ++ doi), fs, evs)
    /\ visits evs = [scidbURLOf (env.AnnasBaseURL e) doi].
Proof.
  intros HEnv HVisit HNone.
  unfold LookupDOI, bind, wrap. rewrite HEnv.
  unfold collector_Visit, bind, log, emit, ret, fail. rewrite HVisit. simpl.
  rewrite onSearchAnchor_none by (reflexivity || exact HNone). simpl.
  eexists. split; reflexivity.
Qed.

(** C5: when phase 1 finds a hash and the detail page of phase 2 cannot
    be fetched, [LookupDOI] returns, without error, the paper with the
    DOI, the hash, the page URL and the download reference
    [/scidb?doi=<doi>]; the other fields are empty. *)
Theorem LookupDOI_detail_failure (doi : gostring) fs (e : env.Env)
    (page : gostring -> list colly.HTMLElement) (hash : gostring)
    (r : option (option Z)) (err : gostring) :
  GetEnv w fs = (inr e, fs, []) ->
  visit w (scidbURLOf (env.AnnasBaseURL e) doi) = colly.Fetched page ->
  firstHash (page md5Selector) = Some hash ->
  visit w (md5URLOf (env.AnnasBaseURL e) hash) = colly.Failed r err ->
  exists evs,
    LookupDOI w doi fs
    = (inr {| Paper.DOI := doi;
              Paper.Title := [];
              Paper.Authors := [];
              Paper.Journal := [];
              Paper.Size := [];
              Paper.Hash := hash;
              Paper.DownloadURL := str "/scidb?doi=" ++ doi;
              Paper.SciHubURL := [];
              Paper.PageURL := scidbURLOf (env.AnnasBaseURL e) doi |},
       fs, evs)
    /\ visits evs = [scidbURLOf (env.AnnasBaseURL e) doi;
                     md5URLOf (env.AnnasBaseURL e) hash].
Proof.
  intros HEnv HSearch HFirst HDetail.
  unfold LookupDOI, bind, wrap. rewrite HEnv.
  unfold collector_Visit, try, bind, log, emit, ret, fail.
  rewrite HSearch. simpl.
  destruct (onSearchAnchor_first (page md5Selector)
              (Paper.setPageURL (Paper.new doi)
                 (scidbURLOf (env.AnnasBaseURL e) doi)) hash eq_refl HFirst)
    as [-> HHash].
  simpl. apply is_empty_false in HHash. rewrite HHash. simpl.
  rewrite HDetail.
  destruct r as [r|]; simpl; eexists; split; reflexivity.
Qed.

(** *** [FindBook] *)

Lemma parseBook_some (e : colly.HTMLElement) fs b fs' evs :
  parseBook e fs = (inr (Some b), fs', evs) ->
  validBook b /\ Book.Title b = elementTitle e
  /\ Book.Hash b = elementHash e.
Proof.
  unfold parseBook, elementTitle, elementHash, validBook, bind, log, emit,
    ret.
  destruct (goquery.Length (goquery.Parent (colly.DOM e)) =? 0)%nat;
    [discriminate|].
  destruct (goquery.Length _ =? 0)%nat; [discriminate|].
  destruct (is_empty (strings.TrimSpace _)) eqn:ETitle; [discriminate|].
  destruct (extractMetaInformation _) as [[language format] size].
  destruct (is_empty (colly.Attr e (str "href"))); [discriminate|].
  destruct (is_empty (strings.TrimPrefix _ _)) eqn:EHash; [discriminate|].
  intros E. injection E as <- <- <-. simpl.
  apply is_empty_false in ETitle, EHash. auto.
Qed.

Lemma parseBook_skip (e : colly.HTMLElement) fs :
  elementTitle e = [] \/ elementHash e = [] ->
  exists msg, parseBook e fs = (inr None, fs, [EvLog Warn msg]).
Proof.
  unfold parseBook, elementTitle, elementHash, bind, log, emit, ret.
  intros HEmpty.
  destruct (goquery.Length (goquery.Parent (colly.DOM e)) =? 0)%nat;
    [eexists; reflexivity|].
  destruct (goquery.Length _ =? 0)%nat; [eexists; reflexivity|].
  destruct (is_empty (strings.TrimSpace _)) eqn:ETitle;
    [eexists; reflexivity|].
  destruct (extractMetaInformation _) as [[language format] size].
  destruct (is_empty (colly.Attr e (str "href"))); [eexists; reflexivity|].
  destruct (is_empty (strings.TrimPrefix _ _)) eqn:EHash;
    [eexists; reflexivity|].
  apply is_empty_false in ETitle, EHash. tauto.
Qed.

Lemma parseBooks_valid (bookList : list colly.HTMLElement) :
  forall acc fs books fs' evs,
    parseBooks bookList acc fs = (inr books, fs', evs) ->
    Forall validBook acc -> Forall validBook books.
Proof.
  induction bookList as [|e bookList IH]; intros acc fs books fs' evs.
  - intros E. injection E as <- <- <-. auto.
  - cbn [parseBooks]. unfold bind at 1.
    destruct (parseBook e fs) as [[[err|[b|]] fs1] ev1] eqn:EBook;
      [discriminate| |].
    + destruct (parseBooks _ _ _) as [[r2 fs2] ev2] eqn:ERest.
      intros E. injection E as -> <- <-. intros HAcc.
      eapply IH; [exact ERest|].
      apply Forall_app. split; [exact HAcc|].
      constructor; [|constructor].
      apply parseBook_some in EBook. tauto.
    + destruct (parseBooks _ _ _) as [[r2 fs2] ev2] eqn:ERest.
      intros E. injection E as -> <- <-. intros HAcc.
      eapply IH; [exact ERest|exact HAcc].
Qed.

Lemma FindBook_valid (query content : gostring) fs books fs' evs :
  FindBook w query content fs = (inr books, fs', evs) ->
  Forall validBook books.
Proof.
  unfold FindBook. unfold bind at 1.
  destruct (GetEnv w fs) as [[[err|e] fs1] ev1]; [discriminate|].
  unfold bind at 1. unfold emit at 1. unfold bind at 1.
  set (bookList := match visit w _ with
                   | colly.Fetched _ => _
                   | colly.Failed _ _ => _
                   end).
  destruct (bookList fs1) as [[[err|l] fs2] ev2]; [discriminate|].
  unfold bind at 1.
  destruct (parseBooks l [] fs2) as [[[err|parsed] fs3] ev3] eqn:EParse;
    [discriminate|].
  unfold bind, log, emit, ret. simpl.
  intros E. injection E as <- <- <-.
  eapply parseBooks_valid; [exact EParse|constructor].
Qed.

Lemma parseBook_files (e : colly.HTMLElement) fs r fs' evs :
  parseBook e fs = (r, fs', evs) -> fs' = fs.
Proof.
  unfold parseBook, bind, log, emit, ret.
  destruct (goquery.Length (goquery.Parent (colly.DOM e)) =? 0)%nat;
    [intros E; injection E; auto|].
  destruct (goquery.Length _ =? 0)%nat; [intros E; injection E; auto|].
  destruct (is_empty (strings.TrimSpace _)); [intros E; injection E; auto|].
  destruct (extractMetaInformation _) as [[language format] size].
  destruct (is_empty (colly.Attr e (str "href")));
    [intros E; injection E; auto|].
  destruct (is_empty (strings.TrimPrefix _ _));
    intros E; injection E; auto.
Qed.

(** Every skipped element of the loop leaves its warning among the
    events. *)
Lemma parseBooks_skips (bookList : list colly.HTMLElement)
    (e : colly.HTMLElement) :
  forall acc fs r fs' evs,
    parseBooks bookList acc fs = (r, fs', evs) ->
    In e bookList ->
    elementTitle e = [] \/ elementHash e = [] ->
    exists msg,
      parseBook e fs = (inr None, fs, [EvLog Warn msg])
      /\ In (EvLog Warn msg) evs.
Proof.
  induction bookList as [|a bookList IH]; intros acc fs r fs' evs;
    [intros _ []|].
  cbn [parseBooks]. unfold bind at 1.
  destruct (parseBook a fs) as [[r1 fs1] ev1] eqn:EBook.
  pose proof (parseBook_files _ _ _ _ _ EBook) as ->.
  intros HRun [<-|HIn] HEmpty.
  - destruct (parseBook_skip a fs HEmpty) as [msg HSkip].
    exists msg. split; [exact HSkip|].
    rewrite HSkip in EBook. injection EBook as <- <-.
    destruct (parseBooks _ _ _) as [[r2 fs2] ev2].
    injection HRun as <- <- <-. left. reflexivity.
  - destruct r1 as [err|[b|]].
    + destruct (parseBook_skip e fs HEmpty) as [msg HSkip].
      exfalso. revert EBook. clear.
      unfold parseBook, bind, log, emit, ret.
      repeat match goal with
        | |- context [if ?c then _ else _] => destruct c
        | |- context [extractMetaInformation ?m] =>
            destruct (extractMetaInformation m) as [[? ?] ?]
        end; discriminate.
    + destruct (parseBooks bookList (acc ++ [b]) fs)
        as [[r2 fs2] ev2] eqn:ERest.
      injection HRun as <- <- <-.
      destruct (IH _ _ _ _ _ ERest HIn HEmpty) as (msg & HSkip & HLog).
      exists msg. split; [exact HSkip|]. apply in_or_app. right. exact HLog.
    + destruct (parseBooks bookList acc fs) as [[r2 fs2] ev2] eqn:ERest.
      injection HRun as <- <- <-.
      destruct (IH _ _ _ _ _ ERest HIn HEmpty) as (msg & HSkip & HLog).
      exists msg. split; [exact HSkip|]. apply in_or_app. right. exact HLog.
Qed.

(** C9: every record that [FindBook] returns has a title and a hash;
    an accepted element whose title or hash is empty is skipped by the
    loop, which logs the reason as a warning, and gives no record. *)
Theorem FindBook_records_valid (query content : gostring) fs books fs' evs :
  FindBook w query content fs = (inr books, fs', evs) ->
  Forall (fun b => Book.Title b <> [] /\ Book.Hash b <> []) books
  /\ forall (e : env.Env) page (a : colly.HTMLElement),
       GetEnv w fs = (inr e, fs, []) ->
       visit w (searchURLOf (env.AnnasBaseURL e) query
                  (if is_empty content then str "book_any" else content))
         = colly.Fetched page ->
       In a (primaryAnchors page) ->
       elementTitle a = [] \/ elementHash a = [] ->
       exists msg,
         parseBook a fs = (inr None, fs, [EvLog Warn msg])
         /\ In (EvLog Warn msg) evs.
Proof.
  intros HRun. split; [exact (FindBook_valid _ _ _ _ _ _ HRun)|].
  intros e page a HEnv HVisit HIn HEmpty. revert HRun.
  unfold FindBook. unfold bind at 1. rewrite HEnv.
  unfold bind at 1. unfold emit at 1. unfold bind at 1.
  rewrite HVisit. unfold bind at 1. unfold log, emit, ret. cbn [app].
  unfold bind at 1.
  destruct (parseBooks (primaryAnchors page) [] fs)
    as [[[err|parsed] fs3] ev3] eqn:EParse; [discriminate|].
  unfold bind. intros E. injection E as <- <- <-.
  destruct (parseBooks_skips _ a _ _ _ _ _ EParse HIn HEmpty)
    as (msg & HSkip & HLog).
  exists msg. split; [exact HSkip|].
  cbn [app]. right. right. apply in_or_app. left. exact HLog.
Qed.

End Effects.

(** ** More on [sanitizeFilename] and [extractMetaInformation] *)

(** X1: whatever the input, the result of [sanitizeFilename] has between
    1 and 200 bytes, has no path separator and is its own base name. *)
Theorem sanitizeFilename_component (s : gostring) :
  (1 <= List.length (sanitizeFilename s) <= 200)%nat
  /\ Forall (fun c => filepath.IsPathSeparator c = false) (sanitizeFilename s)
  /\ filepath.Base (sanitizeFilename s) = sanitizeFilename s.
Proof.
  destruct (sanitizeFilename_sanitized s) as [HSafe _ HNe HLen].
  split; [|split].
  - split; [|exact HLen].
    destruct (sanitizeFilename s); [congruence|simpl; lia].
  - eapply List.Forall_impl; [|exact HSafe].
    intros c Hc. apply safeByte_not_separator, Hc.
  - apply Base_no_separator; assumption.
Qed.

(** X27: the names that [sanitizeFilename] leaves as they are, are exactly
    the names it can return: bytes outside the unsafe class, no two dots
    in a row, between 1 and 200 bytes. *)
Theorem sanitizeFilename_fixed_points (t : gostring) :
  sanitizeFilename t = t <-> sanitized t.
Proof.
  split.
  - intros E. rewrite <- E. apply sanitizeFilename_sanitized.
  - apply sanitizeFilename_fixpoint.
Qed.

(** A string without the separator is split into itself. *)
Lemma split_go_none (sep s cur : gostring) :
  strings.Contains s sep = false ->
  strings.split_go sep s 0 cur = [rev cur ++ s].
Proof.
  revert cur. induction s as [|c s IH]; intros cur HNone.
  - simpl. rewrite app_nil_r. reflexivity.
  - rewrite Contains_cons in HNone.
    apply orb_false_elim in HNone as [HHere HLater].
    cbn [strings.split_go]. rewrite HHere, (IH _ HLater).
    simpl. rewrite <- app_assoc. reflexivity.
Qed.

Lemma Split_none (s sep : gostring) :
  strings.Contains s sep = false -> strings.Split s sep = [s].
Proof.
  intros HNone. unfold strings.Split. destruct sep as [|c sep].
  - reflexivity.
  - apply (split_go_none (c :: sep) s []). exact HNone.
Qed.

(** *** The matcher only finds what the expression describes *)

Lemma run_sound {R} (r : regexp.re) :
  forall prev s cap (k : option ascii -> gostring -> option gostring -> option R)
         res,
    regexp.run r prev s cap k = Some res ->
    exists m s' prev' cap',
      s = m ++ s' /\ Lang r m /\ k prev' s' cap' = Some res
      /\ (cap' = cap \/ exists g, cap' = Some g /\ Captures r g).
Proof.
  induction r as [|p|a IHa b IHb|a IHa b IHb|a IHa| |a IHa];
    intros prev s cap k res HRun; cbn [regexp.run] in HRun.
  - exists [], s, prev, cap. repeat split; auto. constructor.
  - destruct s as [|c s]; [discriminate|].
    destruct (p c) eqn:Hp; [|discriminate].
    exists [c], s, (Some c), cap. repeat split; auto. constructor. exact Hp.
  - apply IHa in HRun as (m1 & s1 & p1 & c1 & -> & HL1 & HRun & HC1).
    apply IHb in HRun as (m2 & s2 & p2 & c2 & -> & HL2 & HK & HC2).
    exists (m1 ++ m2), s2, p2, c2. rewrite <- app_assoc.
    repeat split; auto; [constructor; assumption|].
    destruct HC2 as [->|(g & -> & Hg)].
    + destruct HC1 as [->|(g & -> & Hg)]; [left; reflexivity|].
      right. exists g. split; [reflexivity|]. apply Captures_CatL, Hg.
    + right. exists g. split; [reflexivity|]. apply Captures_CatR, Hg.
  - destruct (regexp.run a prev s cap k) as [res1|] eqn:E1.
    + injection HRun as ->.
      apply IHa in E1 as (m & s' & p' & c' & -> & HL & HK & HC).
      exists m, s', p', c'. repeat split; auto; [apply Lang_AltL, HL|].
      destruct HC as [->|(g & -> & Hg)]; [left; reflexivity|].
      right. exists g. split; [reflexivity|]. apply Captures_AltL, Hg.
    + apply IHb in HRun as (m & s' & p' & c' & -> & HL & HK & HC).
      exists m, s', p', c'. repeat split; auto; [apply Lang_AltR, HL|].
      destruct HC as [->|(g & -> & Hg)]; [left; reflexivity|].
      right. exists g. split; [reflexivity|]. apply Captures_AltR, Hg.
  - revert HRun. generalize (List.length s) at 1. intros n.
    revert prev s cap. induction n as [|n IHn]; intros prev s cap HRun.
    + exists [], s, prev, cap. repeat split; auto. constructor.
    + match type of HRun with
      | match ?x with _ => _ end = _ => destruct x as [res1|] eqn:E1
      end.
      * injection HRun as ->.
        apply IHa in E1 as (m1 & s1 & p1 & c1 & -> & HL1 & HIf & HC1).
        destruct (List.length s1 <? List.length (m1 ++ s1))%nat;
          [|discriminate].
        apply IHn in HIf as (m2 & s2 & p2 & c2 & -> & HL2 & HK & HC2).
        exists (m1 ++ m2), s2, p2, c2. rewrite <- app_assoc.
        repeat split; auto; [apply Lang_StarS; assumption|].
        destruct HC2 as [->|(g & -> & Hg)].
        -- destruct HC1 as [->|(g & -> & Hg)]; [left; reflexivity|].
           right. exists g. split; [reflexivity|]. apply Captures_Star, Hg.
        -- right. exists g. split; [reflexivity|]. exact Hg.
      * exists [], s, prev, cap. repeat split; auto. constructor.
  - destruct (xorb _ _); [|discriminate].
    exists [], s, prev, cap. repeat split; auto. constructor.
  - apply IHa in HRun as (m & s' & p' & c' & -> & HL & HK & _).
    rewrite length_app, Nat.add_sub, take_app_length in HK.
    exists m, s', p', (Some m). repeat split; auto; [apply Lang_Group, HL|].
    right. exists m. split; [reflexivity|]. apply Captures_Group, HL.
Qed.

Lemma matchHere_sound (r : regexp.re) prev (s : gostring) matches :
  regexp.matchHere r prev s = Some matches ->
  exists m post g,
    s = m ++ post /\ Lang r m /\ matches = [m; g]
    /\ (g = [] \/ Captures r g).
Proof.
  unfold regexp.matchHere. intros EHere.
  apply run_sound in EHere as (m & s' & p' & c' & HS & HL & HK & HC).
  injection HK as <-. subst s.
  rewrite length_app, Nat.add_sub, take_app_length.
  exists m, s', (match c' with Some g => g | None => [] end).
  repeat split; auto.
  destruct HC as [->|(g & -> & Hg)]; [left; reflexivity|right; exact Hg].
Qed.

Lemma findFrom_sound (r : regexp.re) (s : gostring) :
  forall prev matches,
    regexp.findFrom r prev s = Some matches ->
    exists pre m post g,
      s = pre ++ m ++ post /\ Lang r m /\ matches = [m; g]
      /\ (g = [] \/ Captures r g).
Proof.
  induction s as [|c s IH]; intros prev matches HFind;
    cbn [regexp.findFrom] in HFind;
    destruct (regexp.matchHere r prev _) as [ms|] eqn:EHere.
  - injection HFind as ->.
    apply matchHere_sound in EHere as (m & post & g & HS & HL & -> & HC).
    exists [], m, post, g. repeat split; auto.
  - discriminate.
  - injection HFind as ->.
    apply matchHere_sound in EHere as (m & post & g & HS & HL & -> & HC).
    exists [], m, post, g. repeat split; auto.
  - apply IH in HFind as (pre & m & post & g & -> & HL & -> & HC).
    exists (c :: pre), m, post, g. repeat split; auto.
Qed.

Lemma Lang_lit (s m : gostring) : Lang (regexp.lit s) m -> m = s.
Proof.
  revert m. induction s as [|c s IH]; intros m HL; cbn in HL.
  - inversion HL. reflexivity.
  - inversion HL as [| |a b x y Hx Hy| | | | | |]; subst.
    inversion Hx as [|p c' Hp| | | | | | |]; subst.
    apply byte_eqb_eq in Hp. subst c'.
    rewrite (IH _ Hy). reflexivity.
Qed.

Lemma Lang_litFold (s m : gostring) :
  Lang (regexp.litFold s) m ->
  map strings.upperByte m = map strings.upperByte s.
Proof.
  revert m. induction s as [|c s IH]; intros m HL; cbn in HL.
  - inversion HL. reflexivity.
  - inversion HL as [| |a b x y Hx Hy| | | | | |]; subst.
    inversion Hx as [|p c' Hp| | | | | | |]; subst.
    apply byte_eqb_eq in Hp. simpl. rewrite Hp, (IH _ Hy). reflexivity.
Qed.

Lemma Lang_fold_Alt (l : list regexp.re) :
  forall a m,
    Lang (fold_left regexp.Alt l a) m ->
    Lang a m \/ exists r, In r l /\ Lang r m.
Proof.
  induction l as [|b l IH]; intros a m HL; [left; exact HL|].
  cbn [fold_left] in HL. apply IH in HL as [HL|(r & HIn & HL)].
  - inversion HL; subst; [left; assumption|].
    right. exists b. split; [left; reflexivity|assumption].
  - right. exists r. split; [right; exact HIn|exact HL].
Qed.

Lemma Lang_alts (a : regexp.re) (l : list regexp.re) (m : gostring) :
  Lang (regexp.alts (a :: l)) m -> exists r, In r (a :: l) /\ Lang r m.
Proof.
  intros HL. apply Lang_fold_Alt in HL as [HL|(r & HIn & HL)].
  - exists a. split; [left; reflexivity|exact HL].
  - exists r. split; [right; exact HIn|exact HL].
Qed.

Lemma Lang_Cat_inv (a b : regexp.re) (m : gostring) :
  Lang (regexp.Cat a b) m -> exists x y, m = x ++ y /\ Lang a x /\ Lang b y.
Proof. intros HL. inversion HL; subst. eauto. Qed.

Lemma Lang_Quest_inv (a : regexp.re) (m : gostring) :
  Lang (regexp.Quest a) m -> Lang a m \/ m = [].
Proof.
  unfold regexp.Quest. intros HL.
  inversion HL as [| | |a' b' x Hx|a' b' x Hx| | | |]; subst;
    [left; exact Hx|].
  inversion Hx. right. reflexivity.
Qed.

Lemma Lang_Group_inv (a : regexp.re) (m : gostring) :
  Lang (regexp.Group a) m -> Lang a m.
Proof. intros HL. inversion HL; subst. assumption. Qed.

Lemma Captures_Cat_inv (a b : regexp.re) (g : gostring) :
  Captures (regexp.Cat a b) g -> Captures a g \/ Captures b g.
Proof. intros HC. inversion HC; subst; auto. Qed.

Lemma Captures_Group_inv (a : regexp.re) (g : gostring) :
  Captures (regexp.Group a) g -> Lang a g.
Proof. intros HC. inversion HC; subst. assumption. Qed.

Lemma Captures_WordBoundary (g : gostring) :
  ~ Captures regexp.WordBoundary g.
Proof. intros HC. inversion HC. Qed.

Lemma Lang_Chr_inv (p : ascii -> bool) (m : gostring) :
  Lang (regexp.Chr p) m -> exists c, m = [c] /\ p c = true.
Proof. intros HL. inversion HL; subst. eauto. Qed.

Lemma upperByte_ascii (c : ascii) :
  strings.isASCII (strings.upperByte c) = true -> strings.isASCII c = true.
Proof.
  unfold strings.upperByte, strings.isASCII.
  destruct ((97 <=? N_of_ascii c)%N && (N_of_ascii c <=? 122)%N) eqn:E;
    [|auto].
  intros _. apply andb_prop in E as [_ E]. apply N.leb_le in E.
  apply N.ltb_lt. lia.
Qed.

Lemma upper_ascii (g : gostring) :
  forallb strings.isASCII (map strings.upperByte g) = true ->
  forallb strings.isASCII g = true.
Proof.
  induction g as [|c g IH]; [reflexivity|].
  simpl. intros E. apply andb_prop in E as [E1 E2].
  rewrite (upperByte_ascii _ E1), (IH E2). reflexivity.
Qed.

Section Meta.

Context `{strings.CaseTables}.

(** What the group of [formatRegex] captures is one of the twelve codes,
    in either case. *)
Lemma formatRegex_captures (g : gostring) :
  Captures formatRegex g -> In (strings.ToUpper g) formatCodes.
Proof.
  unfold formatRegex. intros HC.
  apply Captures_Cat_inv in HC as [HC|HC]; [destruct (Captures_WordBoundary _ HC)|].
  apply Captures_Cat_inv in HC as [HC|HC]; [|destruct (Captures_WordBoundary _ HC)].
  apply Captures_Group_inv in HC.
  assert (HCode : In (map strings.upperByte g) formatCodes).
  { apply Lang_alts in HC as (r & HIn & HL).
    cbn [In] in HIn.
    repeat (destruct HIn as [<-|HIn];
            [try (apply Lang_litFold in HL; rewrite HL; vm_compute; tauto)|]);
      [|destruct HIn].
    apply Lang_Cat_inv in HL as (x & y & -> & Hx & Hy).
    apply Lang_litFold in Hx. rewrite map_app, Hx.
    apply Lang_Quest_inv in Hy as [Hy| ->].
    - apply Lang_litFold in Hy. rewrite Hy. vm_compute. tauto.
    - vm_compute. tauto. }
  unfold strings.ToUpper. rewrite upper_ascii; [exact HCode|].
  revert HCode. generalize (map strings.upperByte g). intros code HCode.
  vm_compute in HCode.
  repeat (destruct HCode as [<-|HCode]; [reflexivity|]). destruct HCode.
Qed.

Lemma scanParts_format (parts : list gostring) :
  forall format0 size0 format size,
    scanParts parts format0 size0 = (format, size) ->
    format0 = [] \/ In format0 formatCodes ->
    format = [] \/ In format formatCodes.
Proof.
  induction parts as [|p parts IH]; intros format0 size0 format size HScan H0.
  - injection HScan as <- <-. exact H0.
  - cbn [scanParts] in HScan. cbv zeta in HScan.
    set (format1 :=
           if is_empty format0
              && regexp.MatchString formatRegex (strings.TrimSpace p)
           then match regexp.FindStringSubmatch formatRegex
                        (strings.TrimSpace p) with
                | Some matches => strings.ToUpper (nth 1 matches [])
                | None => format0
                end
           else format0) in *.
    assert (H1 : format1 = [] \/ In format1 formatCodes).
    { subst format1.
      destruct (is_empty format0 && _); [|exact H0].
      destruct (regexp.FindStringSubmatch _ _) as [matches|] eqn:EFind;
        [|exact H0].
      apply findFrom_sound in EFind as (pre & m & post & g & _ & _ & -> & HC).
      cbn [nth]. destruct HC as [->|HC].
      - left. reflexivity.
      - right. apply formatRegex_captures, HC. }
    destruct (negb (is_empty format1) && _).
    + injection HScan as <- <-. exact H1.
    + eapply IH; eassumption.
Qed.

(** X2: a metadata text without the separator [ · ] gives no language, no
    format and no size. *)
Theorem extractMetaInformation_no_separator (meta : gostring) :
  strings.Contains meta (str " · ") = false ->
  extractMetaInformation meta = ([], [], []).
Proof.
  intros HNone. unfold extractMetaInformation.
  rewrite (Split_none _ _ HNone). reflexivity.
Qed.

Lemma extractMetaInformation_code (meta : gostring) :
  snd (fst (extractMetaInformation meta)) = []
  \/ In (snd (fst (extractMetaInformation meta))) formatCodes.
Proof.
  unfold extractMetaInformation.
  destruct (List.length _ <? 3)%nat; [left; reflexivity|].
  destruct (scanParts _ [] []) as [format1 size1] eqn:EScan. cbn [fst snd].
  eapply scanParts_format; [exact EScan|left; reflexivity].
Qed.

(** X3: the format that [extractMetaInformation] returns is empty or one
    of the twelve codes EPUB, PDF, MOBI, AZW3, AZW, DJVU, CBZ, CBR, FB2,
    DOC, DOCX, TXT, in upper case. *)
Theorem extractMetaInformation_format (meta language format size : gostring) :
  extractMetaInformation meta = (language, format, size) ->
  format = [] \/ In format formatCodes.
Proof.
  intros E. pose proof (extractMetaInformation_code meta) as HCode.
  rewrite E in HCode. exact HCode.
Qed.

(** What [sizeRegex] finds in a text: a digit and, later, a unit. *)
Lemma sizeRegex_match (s : gostring) :
  regexp.MatchString sizeRegex s = true ->
  exists pre d mid u post,
    s = pre ++ d :: mid ++ u ++ post
    /\ regexp.digit d = true /\ In u sizeUnits.
Proof.
  unfold regexp.MatchString.
  destruct (regexp.findFrom sizeRegex None s) as [matches|] eqn:EFind;
    [intros _|discriminate].
  apply findFrom_sound in EFind as (pre & m & post & g & -> & HL & _ & _).
  unfold sizeRegex, regexp.Plus in HL.
  apply Lang_Cat_inv in HL as (x1 & y1 & -> & H1 & HL).
  apply Lang_Cat_inv in H1 as (d1 & r1 & -> & Hd & _).
  apply Lang_Chr_inv in Hd as (d & -> & Hd).
  apply Lang_Cat_inv in HL as (x2 & y2 & -> & _ & HL).
  apply Lang_Cat_inv in HL as (x3 & y3 & -> & _ & HL).
  apply Lang_Cat_inv in HL as (x4 & u & -> & _ & HL).
  apply Lang_Group_inv, Lang_alts in HL as (r & HIn & HL).
  exists pre, d, (r1 ++ x2 ++ x3 ++ x4), u, post. split; [|split].
  - cbn [app]. repeat rewrite <- app_assoc. reflexivity.
  - exact Hd.
  - cbn [In] in HIn.
    repeat (destruct HIn as [<-|HIn];
            [apply Lang_lit in HL; rewrite HL; vm_compute; tauto|]).
    destruct HIn.
Qed.

Lemma scanParts_size (parts : list gostring) :
  forall format0 size0 format size,
    scanParts parts format0 size0 = (format, size) ->
    size = size0
    \/ exists seg,
         In seg parts /\ size = strings.TrimSpace seg
         /\ regexp.MatchString sizeRegex size = true.
Proof.
  induction parts as [|p parts IH]; intros format0 size0 format size HScan.
  - injection HScan as <- <-. left. reflexivity.
  - cbn [scanParts] in HScan. cbv zeta in HScan.
    destruct (is_empty size0
              && regexp.MatchString sizeRegex (strings.TrimSpace p))
      eqn:ESize.
    + apply andb_prop in ESize as [_ EMatch].
      assert (HHere : exists seg,
                 In seg (p :: parts)
                 /\ strings.TrimSpace p = strings.TrimSpace seg
                 /\ regexp.MatchString sizeRegex (strings.TrimSpace p) = true).
      { exists p. split; [left; reflexivity|]. auto. }
      destruct (negb _ && _).
      * injection HScan as <- <-. right. exact HHere.
      * apply IH in HScan as [->|(seg & HIn & -> & HM)].
        -- right. exact HHere.
        -- right. exists seg. split; [right; exact HIn|]. auto.
    + destruct (negb _ && _).
      * injection HScan as <- <-. left. reflexivity.
      * apply IH in HScan as [->|(seg & HIn & -> & HM)].
        -- left. reflexivity.
        -- right. exists seg. split; [right; exact HIn|]. auto.
Qed.

(** X4: the size that [extractMetaInformation] returns is empty, or it is
    one of the segments after the first, trimmed, and has a digit followed
    later by one of the units MB, KB, GB, TB. *)
Theorem extractMetaInformation_size (meta language format size : gostring) :
  extractMetaInformation meta = (language, format, size) ->
  size = []
  \/ (exists seg,
        In seg (skipn 1 (strings.Split meta (str " · ")))
        /\ size = strings.TrimSpace seg)
     /\ exists pre d mid u post,
          size = pre ++ d :: mid ++ u ++ post
          /\ regexp.digit d = true /\ In u sizeUnits.
Proof.
  unfold extractMetaInformation.
  destruct (List.length _ <? 3)%nat.
  - intros E. injection E as <- <- <-. left. reflexivity.
  - destruct (scanParts _ [] []) as [format1 size1] eqn:EScan.
    intros E. injection E as <- <- <-.
    apply scanParts_size in EScan as [->|(seg & HIn & -> & HM)];
      [left; reflexivity|right].
    split; [exists seg; auto|]. apply sizeRegex_match, HM.
Qed.

End Meta.

(** ** [path/filepath]: a file name joined to a directory *)

Lemma gostring_eqb_eq (a b : gostring) : gostring_eqb a b = true <-> a = b.
Proof.
  revert b. induction a as [|x a IH]; intros [|y b]; simpl; split;
    try congruence; try reflexivity.
  - intros E. apply andb_prop in E as [E1 E2].
    apply byte_eqb_eq in E1. apply IH in E2. congruence.
  - intros E. injection E as -> ->. rewrite byte_eqb_refl. simpl.
    apply IH. reflexivity.
Qed.

Lemma is_empty_true (s : gostring) : is_empty s = true <-> s = [].
Proof. destruct s; simpl; split; congruence. Qed.

Lemma gostring_eqb_neq (a b : gostring) : a <> b -> gostring_eqb a b = false.
Proof.
  intros HNe. destruct (gostring_eqb a b) eqn:E; [|reflexivity].
  apply gostring_eqb_eq in E. congruence.
Qed.

Lemma byte_eqb_sym (a b : ascii) : byte_eqb a b = byte_eqb b a.
Proof.
  destruct (byte_eqb a b) eqn:E1, (byte_eqb b a) eqn:E2; try reflexivity.
  - apply byte_eqb_eq in E1. subst. rewrite byte_eqb_refl in E2. discriminate.
  - apply byte_eqb_eq in E2. subst. rewrite byte_eqb_refl in E1. discriminate.
Qed.

Lemma no_separator_Contains (name : gostring) :
  Forall (fun c => filepath.IsPathSeparator c = false) name ->
  strings.Contains name [filepath.Separator] = false.
Proof.
  induction 1 as [|c name Hc Hname IH]; [reflexivity|].
  rewrite Contains_cons, IH, orb_false_r. cbn [strings.HasPrefix].
  rewrite byte_eqb_sym. unfold filepath.IsPathSeparator in Hc.
  rewrite Hc. reflexivity.
Qed.

Lemma split_go_snoc (name : gostring) :
  Forall (fun c => filepath.IsPathSeparator c = false) name ->
  forall a cur,
    strings.split_go [filepath.Separator]
                     (a ++ filepath.Separator :: name) 0 cur
    = strings.split_go [filepath.Separator] a 0 cur ++ [name].
Proof.
  intros HName. induction a as [|c a IH]; intros cur.
  - cbn [app strings.split_go strings.HasPrefix]. rewrite byte_eqb_refl.
    cbn [andb List.length Nat.sub].
    rewrite split_go_none by (apply no_separator_Contains, HName).
    reflexivity.
  - cbn [app strings.split_go strings.HasPrefix].
    destruct (byte_eqb filepath.Separator c);
      cbn [andb List.length Nat.sub]; rewrite IH; reflexivity.
Qed.

Lemma strings_Join_snoc (l : list gostring) (x sep : gostring) :
  strings.Join (l ++ [x]) sep
  = match l with
    | [] => x
    | _ => strings.Join l sep ++ sep ++ x
    end.
Proof.
  induction l as [|e l IH]; [reflexivity|].
  cbn [app strings.Join]. rewrite IH.
  destruct l as [|e' l]; cbn [app]; [reflexivity|].
  repeat rewrite <- app_assoc. reflexivity.
Qed.

(** [Clean] only writes elements that are not empty. *)
Lemma cleanElem_nonempty (rooted : bool) (st : list gostring * nat)
    (elem : gostring) :
  Forall (fun e => e <> []) (fst st) ->
  Forall (fun e => e <> []) (fst (filepath.cleanElem rooted st elem)).
Proof.
  destruct st as [out dotdot]. unfold filepath.cleanElem. intros HOut.
  destruct (is_empty elem) eqn:EEmpty; [exact HOut|].
  apply is_empty_false in EEmpty.
  destruct (gostring_eqb elem (str ".")); [exact HOut|].
  destruct (gostring_eqb elem (str "..")).
  - destruct (dotdot <? List.length out)%nat.
    + simpl in *. destruct out; [constructor|]. inversion HOut. assumption.
    + destruct (negb rooted); [constructor; assumption|exact HOut].
  - constructor; assumption.
Qed.

Lemma fold_cleanElem_nonempty (rooted : bool) (elems : list gostring) :
  forall st,
    Forall (fun e => e <> []) (fst st) ->
    Forall (fun e => e <> [])
           (fst (fold_left (filepath.cleanElem rooted) elems st)).
Proof.
  induction elems as [|e elems IH]; intros st HSt; [exact HSt|].
  cbn [fold_left]. apply IH, cleanElem_nonempty, HSt.
Qed.

Lemma strings_Join_nonempty (l : list gostring) (sep : gostring) :
  l <> [] -> Forall (fun e => e <> []) l -> strings.Join l sep <> [].
Proof.
  intros HNe HAll. destruct l as [|e l]; [congruence|].
  inversion HAll as [|e' l' He Hl]; subst.
  cbn [strings.Join]. destruct l; [exact He|].
  destruct e; [congruence|discriminate].
Qed.

(** The path of a file [name] in an absolute directory: the cleaned
    directory, a separator, the name. *)
Lemma Join_pathElement (folderPath name : gostring) :
  filepath.IsAbs folderPath = true ->
  pathElement name ->
  filepath.Join [folderPath; name] = dirPrefix folderPath ++ name.
Proof.
  intros HAbs (HNe & HDot & HDotDot & HSep).
  destruct folderPath as [|c f]; [discriminate|].
  assert (c = filepath.Separator) as ->.
  { unfold filepath.IsAbs in HAbs. cbn [strings.HasPrefix] in HAbs.
    apply andb_prop in HAbs as [HAbs _]. apply byte_eqb_eq in HAbs. auto. }
  unfold dirPrefix.
  cbn [filepath.Join is_empty strings.Join].
  unfold filepath.Clean. cbn [app].
  change (filepath.IsPathSeparator filepath.Separator) with true. cbv iota.
  unfold strings.Split.
  change (filepath.Separator :: f ++ filepath.Separator :: name)
    with ((filepath.Separator :: f) ++ filepath.Separator :: name).
  rewrite split_go_snoc by exact HSep.
  rewrite fold_left_app. cbn [fold_left].
  pose proof (fold_cleanElem_nonempty true
                (strings.split_go [filepath.Separator]
                                  (filepath.Separator :: f) 0 [])
                ([], O) (List.Forall_nil _)) as HOut.
  destruct (fold_left _ _ ([], O)) as [out dotdot]. cbn [fst] in HOut.
  unfold filepath.cleanElem.
  apply is_empty_false in HNe. rewrite HNe.
  rewrite (gostring_eqb_neq _ _ HDot), (gostring_eqb_neq _ _ HDotDot).
  cbn [rev]. rewrite strings_Join_snoc.
  destruct (rev out) as [|e l] eqn:ERev.
  - reflexivity.
  - assert (HBody : strings.Join (e :: l) [filepath.Separator] <> []).
    { apply strings_Join_nonempty; [discriminate|].
      rewrite <- ERev. apply Forall_rev, HOut. }
    rewrite gostring_eqb_neq.
    + cbn [app]. rewrite <- app_assoc. reflexivity.
    + intros E. injection E as E. exact (HBody E).
Qed.

Lemma Base_in_directory (dir name : gostring) :
  name <> [] ->
  Forall (fun c => filepath.IsPathSeparator c = false) name ->
  filepath.Base (dir ++ filepath.Separator :: name) = name.
Proof.
  intros HNe HSep. unfold filepath.Base.
  destruct (dir ++ filepath.Separator :: name) as [|c p] eqn:EPath.
  { destruct dir; discriminate. }
  rewrite <- EPath. rewrite rev_app_distr. cbn [rev].
  rewrite <- app_assoc. cbn [app].
  destruct (rev name) as [|c' r] eqn:ERev.
  { apply (f_equal (@rev ascii)) in ERev. rewrite rev_involutive in ERev.
    simpl in ERev. congruence. }
  assert (HRev : Forall (fun c => filepath.IsPathSeparator c = false)
                        (c' :: r)).
  { rewrite <- ERev. apply Forall_rev, HSep. }
  inversion HRev as [|x l Hc' Hr]; subst.
  cbn [app filepath.dropWhile]. rewrite Hc'.
  assert (HTake : forall l rest,
             Forall (fun c => filepath.IsPathSeparator c = false) l ->
             filepath.takeWhile (fun c => negb (filepath.IsPathSeparator c))
                                (l ++ filepath.Separator :: rest) = l).
  { clear. induction 1 as [|x l Hx Hl IH].
    - reflexivity.
    - cbn [app filepath.takeWhile]. rewrite Hx. cbn [negb].
      rewrite IH. reflexivity. }
  change (c' :: r ++ filepath.Separator :: rev dir)
    with ((c' :: r) ++ filepath.Separator :: rev dir).
  rewrite HTake by exact HRev.
  rewrite <- ERev. apply rev_involutive.
Qed.

(** ** Effects: what the functions do and never do *)

Section MonadFacts.

Lemma bind_inv {A B} (m : M A) (k : A -> M B) fs r fs' evs :
  bind m k fs = (r, fs', evs) ->
  (exists e, m fs = (inl e, fs', evs) /\ r = inl e)
  \/ exists a fs1 ev1 ev2,
       m fs = (inr a, fs1, ev1) /\ k a fs1 = (r, fs', ev2)
       /\ evs = ev1 ++ ev2.
Proof.
  unfold bind. destruct (m fs) as [[[e|a] fs1] ev1].
  - intros E. injection E as <- <- <-. left. eauto.
  - destruct (k a fs1) as [[r2 fs2] ev2] eqn:EK.
    intros E. injection E as <- <- <-. right.
    exists a, fs1, ev1, ev2. auto.
Qed.

Lemma readonly_ret {A} (a : A) : readonly (ret a).
Proof. intros fs r fs' evs E. injection E as _ <- _. reflexivity. Qed.

Lemma readonly_fail {A} e : readonly (@fail A e).
Proof. intros fs r fs' evs E. injection E as _ <- _. reflexivity. Qed.

Lemma readonly_emit e : readonly (emit e).
Proof. intros fs r fs' evs E. injection E as _ <- _. reflexivity. Qed.

Lemma readonly_bind {A B} (m : M A) (k : A -> M B) :
  readonly m -> (forall a, returns m a -> readonly (k a)) ->
  readonly (bind m k).
Proof.
  intros Hm Hk fs r fs' evs HRun.
  apply bind_inv in HRun
    as [(e & Em & _)|(a & fs1 & ev1 & ev2 & Em & Ek & _)].
  - eapply Hm, Em.
  - pose proof (Hm _ _ _ _ Em) as ->.
    eapply Hk; [|exact Ek]. exists fs, fs, ev1. exact Em.
Qed.

Lemma readonly_wrap {A} prefix (m : M A) : readonly m -> readonly (wrap prefix m).
Proof.
  intros Hm fs r fs' evs. unfold wrap.
  destruct (m fs) as [[r1 fs1] ev1] eqn:Em. apply Hm in Em. subst fs1.
  destruct r1; intros E; injection E as _ <- _; reflexivity.
Qed.

Lemma readonly_try {A} (m : M A) : readonly m -> readonly (try m).
Proof.
  intros Hm fs r fs' evs. unfold try.
  destruct (m fs) as [[r1 fs1] ev1] eqn:Em. apply Hm in Em. subst fs1.
  intros E; injection E as _ <- _; reflexivity.
Qed.

Lemma emits_ret P {A} (a : A) : emits P (ret a).
Proof. intros fs r fs' evs E. injection E as _ _ <-. constructor. Qed.

Lemma emits_fail P {A} e : emits P (@fail A e).
Proof. intros fs r fs' evs E. injection E as _ _ <-. constructor. Qed.

Lemma emits_emit (P : event -> Prop) e : P e -> emits P (emit e).
Proof.
  intros HP fs r fs' evs E. injection E as _ _ <-. repeat constructor. exact HP.
Qed.

Lemma emits_bind P {A B} (m : M A) (k : A -> M B) :
  emits P m -> (forall a, returns m a -> emits P (k a)) ->
  emits P (bind m k).
Proof.
  intros Hm Hk fs r fs' evs HRun.
  apply bind_inv in HRun
    as [(e & Em & _)|(a & fs1 & ev1 & ev2 & Em & Ek & ->)].
  - eapply Hm, Em.
  - apply Forall_app. split; [eapply Hm, Em|].
    eapply Hk; [|exact Ek]. exists fs, fs1, ev1. exact Em.
Qed.

Lemma emits_wrap P {A} prefix (m : M A) : emits P m -> emits P (wrap prefix m).
Proof.
  intros Hm fs r fs' evs. unfold wrap.
  destruct (m fs) as [[r1 fs1] ev1] eqn:Em. apply Hm in Em.
  destruct r1; intros E; injection E as _ _ <-; exact Em.
Qed.

Lemma emits_try P {A} (m : M A) : emits P m -> emits P (try m).
Proof.
  intros Hm fs r fs' evs. unfold try.
  destruct (m fs) as [[r1 fs1] ev1] eqn:Em. apply Hm in Em.
  intros E; injection E as _ _ <-; exact Em.
Qed.

Lemma returns_try {A} (m : M A) (a : A) :
  returns (try m) (inr a) -> returns m a.
Proof.
  intros (fs & fs' & evs & E). unfold try in E.
  destruct (m fs) as [[r1 fs1] ev1] eqn:Em.
  injection E as -> <- <-. exists fs, fs1, ev1. exact Em.
Qed.

End MonadFacts.

(** Steps of a proof that a computation is [readonly] or [emits] only
    events of one kind. *)
Ltac effects :=
  repeat first
    [ apply readonly_ret | apply readonly_fail | apply readonly_emit
    | apply readonly_wrap | apply readonly_try
    | apply readonly_bind; [|intros ? _]
    | apply emits_ret | apply emits_fail
    | apply emits_emit; exact I
    | apply emits_wrap | apply emits_try
    | apply emits_bind; [|intros ? _]
    | match goal with
      | |- readonly (match ?x with _ => _ end) => destruct x
      | |- emits _ (match ?x with _ => _ end) => destruct x
      | |- readonly (log _ _) => unfold log
      | |- emits _ (log _ _) => unfold log
      end ].

Section Lookups.

Context `{strings.CaseTables} `{goquery.API}.
Variable w : World.

(** What a successful [GetEnv] has read. *)
Lemma GetEnv_success fs e fs' evs :
  GetEnv w fs = (inr e, fs', evs) ->
  fs' = fs /\ evs = []
  /\ env.SecretKey e = Getenv w (str "ANNAS_SECRET_KEY")
  /\ env.SecretKey e <> []
  /\ env.DownloadPath e = Getenv w (str "ANNAS_DOWNLOAD_PATH")
  /\ filepath.IsAbs (env.DownloadPath e) = true
  /\ env.AnnasBaseURL e <> []
  /\ (env.AnnasBaseURL e = Getenv w (str "ANNAS_BASE_URL")
      \/ Getenv w (str "ANNAS_BASE_URL") = []
         /\ env.AnnasBaseURL e = env.DefaultAnnasBaseURL).
Proof.
  unfold GetEnv.
  destruct (is_empty (Getenv w (str "ANNAS_SECRET_KEY"))) eqn:EKey;
    [discriminate|].
  destruct (is_empty (Getenv w (str "ANNAS_DOWNLOAD_PATH"))) eqn:EPath;
    [discriminate|].
  destruct (filepath.IsAbs (Getenv w (str "ANNAS_DOWNLOAD_PATH"))) eqn:EAbs;
    [|discriminate].
  cbn [orb negb]. apply is_empty_false in EKey.
  intros E. unfold ret in E. cbv beta zeta in E.
  injection E as <- <- <-.
  cbn [env.SecretKey env.DownloadPath env.AnnasBaseURL].
  repeat split; auto.
  - match goal with
    | |- context [is_empty ?x] => destruct (is_empty x) eqn:EBase
    end;
      [intros E; vm_compute in E; discriminate E
      |apply is_empty_false, EBase].
  - match goal with
    | |- context [is_empty ?x] => destruct (is_empty x) eqn:EBase
    end;
      [right; apply is_empty_true in EBase; auto|left; reflexivity].
Qed.

(** X5: [GetEnv] returns an environment exactly when the secret key and
    the download path are set and the path is absolute; the environment
    has this key and this path, and a base URL that is not empty: the
    variable [ANNAS_BASE_URL], or the default host when it is not set. *)
Theorem GetEnv_environment fs :
  ((exists e, GetEnv w fs = (inr e, fs, []))
   <-> Getenv w (str "ANNAS_SECRET_KEY") <> []
       /\ filepath.IsAbs (Getenv w (str "ANNAS_DOWNLOAD_PATH")) = true)
  /\ forall e fs' evs,
       GetEnv w fs = (inr e, fs', evs) ->
       fs' = fs /\ evs = []
       /\ env.SecretKey e = Getenv w (str "ANNAS_SECRET_KEY")
       /\ env.SecretKey e <> []
       /\ env.DownloadPath e = Getenv w (str "ANNAS_DOWNLOAD_PATH")
       /\ filepath.IsAbs (env.DownloadPath e) = true
       /\ env.AnnasBaseURL e <> []
       /\ (env.AnnasBaseURL e = Getenv w (str "ANNAS_BASE_URL")
           \/ Getenv w (str "ANNAS_BASE_URL") = []
              /\ env.AnnasBaseURL e = env.DefaultAnnasBaseURL).
Proof.
  split; [|intros e fs' evs; apply GetEnv_success].
  split.
  - intros [e HRun].
    destruct (GetEnv_success _ _ _ _ HRun)
      as (_ & _ & HKey & HKeyNe & HPath & HAbs & _).
    split; congruence.
  - intros [HKey HAbs]. unfold GetEnv. cbv zeta.
    apply is_empty_false in HKey. rewrite HKey, HAbs.
    destruct (is_empty (Getenv w (str "ANNAS_DOWNLOAD_PATH"))) eqn:EPath.
    + apply is_empty_true in EPath. rewrite EPath in HAbs. discriminate.
    + cbn [orb negb]. eexists. reflexivity.
Qed.

Lemma readonly_GetEnv : readonly (GetEnv w).
Proof.
  unfold GetEnv.
  destruct (_ || _); [effects|]. destruct (negb _); effects.
Qed.

Lemma emits_GetEnv (P : event -> Prop) :
  (forall lv msg, P (EvLog lv msg)) -> emits P (GetEnv w).
Proof.
  intros HP. unfold GetEnv.
  destruct (_ || _).
  - apply emits_bind; [apply emits_emit, HP|intros _ _; apply emits_fail].
  - destruct (negb _); [apply emits_fail|apply emits_ret].
Qed.

Lemma readonly_parseBook (e : colly.HTMLElement) : readonly (parseBook e).
Proof.
  unfold parseBook.
  repeat match goal with
    | |- readonly (if ?c then _ else _) => destruct c
    | |- readonly (let '(_, _) := ?x in _) => destruct x as [[? ?] ?]
    | _ => progress effects
    end.
Qed.

Lemma emits_parseBook (e : colly.HTMLElement) : emits looksOnly (parseBook e).
Proof.
  unfold parseBook.
  repeat match goal with
    | |- emits _ (if ?c then _ else _) => destruct c
    | |- emits _ (let '(_, _) := ?x in _) => destruct x as [[? ?] ?]
    | _ => progress effects
    end.
Qed.

Lemma readonly_parseBooks (l : list colly.HTMLElement) :
  forall acc, readonly (parseBooks l acc).
Proof.
  induction l as [|e l IH]; intros acc; cbn [parseBooks]; [effects|].
  apply readonly_bind; [apply readonly_parseBook|intros [b|] _; apply IH].
Qed.

Lemma emits_parseBooks (l : list colly.HTMLElement) :
  forall acc, emits looksOnly (parseBooks l acc).
Proof.
  induction l as [|e l IH]; intros acc; cbn [parseBooks]; [effects|].
  apply emits_bind; [apply emits_parseBook|intros [b|] _; apply IH].
Qed.

Lemma LookupDOI_looks (doi : gostring) :
  readonly (LookupDOI w doi) /\ emits looksOnly (LookupDOI w doi).
Proof.
  unfold LookupDOI, collector_Visit. split.
  - apply readonly_bind; [apply readonly_GetEnv|intros e _]. cbv zeta.
    effects.
    all: repeat match goal with
           | |- readonly (if ?c then _ else _) => destruct c
           | |- readonly (match ?x with _ => _ end) => destruct x
           | _ => progress effects
           end.
  - apply emits_bind; [apply emits_GetEnv; intros; exact I|intros e _].
    cbv zeta. effects.
    all: repeat match goal with
           | |- emits _ (if ?c then _ else _) => destruct c
           | |- emits _ (match ?x with _ => _ end) => destruct x
           | _ => progress effects
           end.
Qed.

Lemma FindBook_looks (query content : gostring) :
  readonly (FindBook w query content)
  /\ emits looksOnly (FindBook w query content).
Proof.
  unfold FindBook. split.
  - apply readonly_bind; [apply readonly_GetEnv|intros e _]. cbv zeta.
    effects; apply readonly_parseBooks.
  - apply emits_bind; [apply emits_GetEnv; intros; exact I|intros e _].
    cbv zeta. effects; apply emits_parseBooks.
Qed.

(** X6: [LookupDOI] and [FindBook] never change a file, and they do
    nothing but log and visit pages: no HTTP request of their own, no
    file created, written or removed. *)
Theorem lookups_only_look :
  (forall doi fs r fs' evs,
      LookupDOI w doi fs = (r, fs', evs) ->
      fs' = fs /\ Forall looksOnly evs /\ requests evs = [])
  /\ (forall query content fs r fs' evs,
        FindBook w query content fs = (r, fs', evs) ->
        fs' = fs /\ Forall looksOnly evs /\ requests evs = []).
Proof.
  assert (HReq : forall evs, Forall looksOnly evs -> requests evs = []).
  { induction 1 as [|e evs He _ IH]; [reflexivity|].
    destruct e; try destruct He; exact IH. }
  split.
  - intros doi fs r fs' evs HRun.
    destruct (LookupDOI_looks doi) as [HRead HEmits].
    pose proof (HEmits _ _ _ _ HRun). split; [eapply HRead, HRun|]. auto.
  - intros query content fs r fs' evs HRun.
    destruct (FindBook_looks query content) as [HRead HEmits].
    pose proof (HEmits _ _ _ _ HRun). split; [eapply HRead, HRun|]. auto.
Qed.

End Lookups.

(** ** The downloads: files and requests *)

Section Downloads.

Context `{strings.CaseTables} `{goquery.API}.
Variable w : World.

Lemma returns_GetEnv (e : env.Env) :
  returns (GetEnv w) e -> forall fs, GetEnv w fs = (inr e, fs, []).
Proof.
  intros (fs0 & fs1 & evs & E) fs. revert E. unfold GetEnv.
  destruct (_ || _); [discriminate|]. destruct (negb _); [discriminate|].
  unfold ret. intros E. injection E as <- _ _. reflexivity.
Qed.

Lemma returns_wrap {A} prefix (m : M A) (a : A) :
  returns (wrap prefix m) a -> returns m a.
Proof.
  intros (fs & fs' & evs & E). unfold wrap in E.
  destruct (m fs) as [[[e|a'] fs1] ev1] eqn:Em; [discriminate|].
  injection E as -> <- <-. exists fs, fs1, ev1. exact Em.
Qed.

Lemma returns_client_Do req (resp : Response) :
  returns (client_Do w req) resp -> roundTrip w req = inr resp.
Proof.
  intros (fs & fs' & evs & E). revert E.
  unfold client_Do, bind, emit, fail, ret.
  destruct (roundTrip w req); [discriminate|].
  intros E. injection E as <- _ _. reflexivity.
Qed.

Lemma readonly_client_Do req : readonly (client_Do w req).
Proof. unfold client_Do. effects. Qed.

(** What the write path leaves behind. *)
Lemma writeBody_files p src done fs0 r fs' evs :
  writeBody w p src done fs0 = (r, fs', evs) ->
  (r = inr tt /\ body_err src = None /\ fs' = <[p := body_data src]> fs0)
  \/ exists e,
       r = inl e
       /\ ((removeErr w p = None /\ fs' = delete p fs0)
           \/ exists err n,
                removeErr w p = Some err
                /\ fs' = <[p := firstn n (body_data src)]> fs0).
Proof.
  unfold writeBody, bind, io_Copy, File_Sync, File_Close, os_Remove, log,
    emit, ret, fail.
  destruct (writeErr w p) as [[n e]|];
    [destruct (n <? List.length (body_data src))%nat|];
    destruct (body_err src) eqn:EBody; try destruct (syncErr w p);
    destruct (removeErr w p) eqn:ERemove; cbn;
    intros E; injection E as <- <- <-;
    try (left; repeat split; rewrite firstn_all; reflexivity);
    right; eexists; (split; [reflexivity|]);
    try (left; split; [reflexivity|apply delete_insert_eq]);
    right; do 2 eexists; split; reflexivity.
Qed.

Lemma downloadsTo_fail P e : downloadsTo w P (fail e).
Proof.
  intros fs r fs' evs E. injection E as <- <- _. left. eauto.
Qed.

Lemma downloadsTo_bind {A} P (m : M A) (k : A -> M unit) :
  readonly m -> (forall a, returns m a -> downloadsTo w P (k a)) ->
  downloadsTo w P (bind m k).
Proof.
  intros Hm Hk fs r fs' evs HRun.
  apply bind_inv in HRun
    as [(e & Em & ->)|(a & fs1 & ev1 & ev2 & Em & Ek & _)].
  - left. split; [eapply Hm, Em|eauto].
  - pose proof (Hm _ _ _ _ Em) as ->.
    eapply Hk; [|exact Ek]. exists fs, fs, ev1. exact Em.
Qed.

Lemma downloadsTo_create (P : gostring -> Body -> Prop) prefix path src done :
  P path src ->
  downloadsTo w P
    (wrap prefix (os_Create w path) ;; writeBody w path src done).
Proof.
  intros HP fs r fs' evs. unfold bind, wrap, os_Create.
  destruct (createErr w path) as [err|].
  - intros E. injection E as <- <- _. left. eauto.
  - destruct (writeBody _ _ _ _ _) as [[r2 fs2] ev2] eqn:EW.
    intros E. injection E as <- <- _. right.
    exists path, src, done, ev2. auto.
Qed.

Lemma Book_Download_downloadsTo b secretKey folderPath :
  downloadsTo w (bookTarget w b secretKey folderPath)
              (Book_Download w b secretKey folderPath).
Proof.
  unfold Book_Download.
  apply downloadsTo_bind; [apply readonly_wrap, readonly_GetEnv|].
  intros e He. apply returns_wrap in He.
  apply downloadsTo_bind; [unfold log; apply readonly_emit|intros _ _].
  apply downloadsTo_bind; [apply readonly_wrap, readonly_client_Do|].
  intros api Hapi. apply returns_wrap, returns_client_Do in Hapi.
  destruct (negb (StatusCode api =? 200)) eqn:EStatus.
  { destruct (readAllLimit _ _) as [body [err|]]; apply downloadsTo_fail. }
  destruct (decodeJSON _ _) as [err|apiResp] eqn:EJson;
    [apply downloadsTo_fail|].
  destruct (is_empty (fdr_DownloadURL apiResp)) eqn:EUrl.
  { destruct (negb (is_empty (fdr_Error apiResp))); apply downloadsTo_fail. }
  apply downloadsTo_bind; [unfold log; apply readonly_emit|intros _ _].
  apply downloadsTo_bind; [apply readonly_wrap, readonly_client_Do|].
  intros dl Hdl. apply returns_wrap, returns_client_Do in Hdl.
  destruct (negb (StatusCode dl =? 200)) eqn:EStatus2;
    [apply downloadsTo_fail|].
  apply downloadsTo_bind; [unfold log; apply readonly_emit|intros _ _].
  apply downloadsTo_create. split; [reflexivity|].
  exists e, api, apiResp, dl.
  apply negb_false_iff, Z.eqb_eq in EStatus, EStatus2.
  apply is_empty_false in EUrl. repeat split; auto.
Qed.

Lemma Paper_Download_downloadsTo p folderPath :
  downloadsTo w (paperTarget w p folderPath) (Paper_Download w p folderPath).
Proof.
  unfold Paper_Download.
  destruct (is_empty (Paper.DownloadURL p)); [apply downloadsTo_fail|].
  apply downloadsTo_bind; [apply readonly_wrap, readonly_GetEnv|].
  intros e He. apply returns_wrap in He. cbv zeta.
  apply downloadsTo_bind; [unfold log; apply readonly_emit|intros _ _].
  destruct (newRequestErr _ _); [apply downloadsTo_fail|].
  apply downloadsTo_bind; [apply readonly_wrap, readonly_client_Do|].
  intros resp Hresp. apply returns_wrap, returns_client_Do in Hresp.
  destruct (negb (StatusCode resp =? 200)) eqn:EStatus.
  { destruct (readAllLimit _ _) as [body [err|]]; apply downloadsTo_fail. }
  apply downloadsTo_bind; [unfold log; apply readonly_emit|intros _ _].
  rewrite sanitizeFilename_never_empty.
  apply downloadsTo_create.
  exists e, resp. apply negb_false_iff, Z.eqb_eq in EStatus.
  repeat split; auto.
  destruct (strings.HasPrefix _ _); exact Hresp.
Qed.

(** X7: a download changes no file but its own: whatever [Book.Download]
    or [Paper.Download] returns, every path other than the target has the
    content it had before.  The target of a book is [Book_filePath]; that
    of a paper is the folder joined with the sanitized title (or DOI) and
    an extension. *)
Theorem Download_changes_one_file (d : download) (folderPath : gostring)
    fs r fs' evs :
  Download w d folderPath fs = (r, fs', evs) ->
  exists path,
    (forall q, q <> path -> fs' !! q = fs !! q)
    /\ match d with
       | BookDownload b _ => path = Book_filePath b folderPath
       | PaperDownload p =>
           exists ext,
             path = filepath.Join
                      [folderPath;
                       sanitizeFilename
                         (if is_empty (Paper.Title p) then Paper.DOI p
                          else Paper.Title p) ++ ext]
       end.
Proof.
  intros HRun.
  assert (HFrame : forall path src done evsW,
             writeBody w path src done (<[path := []]> fs) = (r, fs', evsW) ->
             forall q, q <> path -> fs' !! q = fs !! q).
  { intros path src done evsW HW q Hq.
    apply writeBody_files in HW
      as [(_ & _ & ->)|(e & _ & [[_ ->]|(err & n & _ & ->)])].
    - rewrite !lookup_insert_ne by congruence. reflexivity.
    - rewrite lookup_delete_ne, lookup_insert_ne by congruence. reflexivity.
    - rewrite !lookup_insert_ne by congruence. reflexivity. }
  destruct d as [b secretKey|p]; cbn [Download] in HRun.
  - exists (Book_filePath b folderPath). split; [|reflexivity].
    apply Book_Download_downloadsTo in HRun
      as [[-> _]|(path & src & done & evsW & [-> _] & HW)];
      [reflexivity|].
    eapply HFrame, HW.
  - apply Paper_Download_downloadsTo in HRun
      as [[-> _]|(path & src & done & evsW & HP & HW)].
    + exists (filepath.Join
                [folderPath;
                 sanitizeFilename
                   (if is_empty (Paper.Title p) then Paper.DOI p
                    else Paper.Title p) ++ []]).
      split; [reflexivity|eauto].
    + exists path. split; [eapply HFrame, HW|].
      destruct HP as (e & resp & _ & _ & _ & -> & _). eauto.
Qed.

(** X8: when [Book.Download] returns without error, the API answered 200
    with an envelope that names a URL, that URL answered 200 with a body
    that was read to its end, and the files are the old ones with exactly
    this body at [Book_filePath]. *)
Theorem Book_Download_success (b : Book.t) (secretKey folderPath : gostring)
    fs fs' evs :
  Book_Download w b secretKey folderPath fs = (inr tt, fs', evs) ->
  exists e api apiResp dl,
    (forall fs0, GetEnv w fs0 = (inr e, fs0, []))
    /\ roundTrip w
         {| req_URL := fastDownloadURL (env.AnnasBaseURL e) (Book.Hash b)
                                       secretKey;
            req_Header := [] |} = inr api
    /\ StatusCode api = 200
    /\ decodeJSON w (resp_Body api) = inr apiResp
    /\ fdr_DownloadURL apiResp <> []
    /\ roundTrip w {| req_URL := fdr_DownloadURL apiResp; req_Header := [] |}
       = inr dl
    /\ StatusCode dl = 200
    /\ body_err (resp_Body dl) = None
    /\ fs' = <[Book_filePath b folderPath := body_data (resp_Body dl)]> fs.
Proof.
  intros HRun.
  apply Book_Download_downloadsTo in HRun
    as [[_ [e E]]|(path & src & done & evsW & [-> HChain] & HW)];
    [discriminate|].
  destruct HChain as (e & api & apiResp & dl & He & Hapi & HSt & HJson
                      & HUrl & Hdl & HSt2 & ->).
  apply writeBody_files in HW as [(_ & HBody & ->)|(err & E & _)];
    [|discriminate].
  exists e, api, apiResp, dl. rewrite insert_insert_eq.
  repeat split; auto. apply returns_GetEnv, He.
Qed.

(** X9: all or nothing.  Where removing the target cannot fail, a
    download fails before it creates a file and leaves the files as they
    were, or it has a target, a path and the body of an answer, and then
    it returns without error with the whole of that body at the path, or
    it returns an error with no file at the path (also when a file was
    there before); the other files are as they were. *)
Theorem Download_all_or_nothing (d : download) (folderPath : gostring)
    fs r fs' evs :
  (forall p, removeErr w p = None) ->
  Download w d folderPath fs = (r, fs', evs) ->
  ((exists e, r = inl e) /\ fs' = fs)
  \/ exists path src,
       downloadTarget w d folderPath path src
       /\ ((r = inr tt /\ body_err src = None
            /\ fs' = <[path := body_data src]> fs)
           \/ ((exists e, r = inl e) /\ fs' = delete path fs)).
Proof.
  intros HRemove HRun.
  assert (HShape : (fs' = fs /\ exists e, r = inl e)
                   \/ exists path src done evsW,
                        downloadTarget w d folderPath path src
                        /\ writeBody w path src done (<[path := []]> fs)
                           = (r, fs', evsW)).
  { destruct d as [b secretKey|p]; cbn [Download downloadTarget] in *.
    - apply Book_Download_downloadsTo in HRun
        as [HFail|(path & src & done & evsW & HT & HW)]; [left; exact HFail|].
      right. exists path, src, done, evsW. split; assumption.
    - apply Paper_Download_downloadsTo in HRun
        as [HFail|(path & src & done & evsW & HT & HW)]; [left; exact HFail|].
      right. exists path, src, done, evsW. split; assumption. }
  destruct HShape as [[-> HErr]|(path & src & done & evsW & HT & HW)];
    [left; auto|right].
  exists path, src. split; [exact HT|].
  apply writeBody_files in HW
    as [(-> & HBody & ->)|(e & -> & [[_ ->]|(err & n & HSome & _)])].
  - left. rewrite insert_insert_eq. repeat split; [exact HBody].
  - right. split; [eauto|]. apply delete_insert_eq.
  - rewrite HRemove in HSome. discriminate.
Qed.

(** X10: when [Paper.Download] returns without error, its one request
    went to the download URL, taken as it is when it begins with [http]
    and put behind [https://<base>] otherwise, with the browser's
    [User-Agent]; the answer was 200, and its whole body is now in the
    folder, in the file named after the sanitized title (the DOI when the
    title is empty) with the extension inferred from the answer. *)
Theorem Paper_Download_success (p : Paper.t) (folderPath : gostring)
    fs fs' evs :
  Paper_Download w p folderPath fs = (inr tt, fs', evs) ->
  exists e resp,
    (forall fs0, GetEnv w fs0 = (inr e, fs0, []))
    /\ Paper.DownloadURL p <> []
    /\ roundTrip w
         {| req_URL :=
              if strings.HasPrefix (Paper.DownloadURL p) (str "http")
              then Paper.DownloadURL p
              else str "https://" ++ env.AnnasBaseURL e ++ Paper.DownloadURL p;
            req_Header := [(str "User-Agent", BrowserUserAgent)] |} = inr resp
    /\ StatusCode resp = 200
    /\ body_err (resp_Body resp) = None
    /\ fs' = <[filepath.Join
                 [folderPath;
                  sanitizeFilename
                    (if is_empty (Paper.Title p) then Paper.DOI p
                     else Paper.Title p)
                  ++ inferExt w resp]
               := body_data (resp_Body resp)]> fs.
Proof.
  intros HRun.
  assert (HUrl : Paper.DownloadURL p <> []).
  { intros E. unfold Paper_Download in HRun. rewrite E in HRun.
    discriminate. }
  apply Paper_Download_downloadsTo in HRun
    as [[_ [e E]]|(path & src & done & evsW & HP & HW)];
    [discriminate|].
  destruct HP as (e & resp & He & Hresp & HSt & -> & ->).
  apply writeBody_files in HW as [(_ & HBody & ->)|(err & E & _)];
    [|discriminate].
  exists e, resp. rewrite insert_insert_eq.
  repeat split; auto. apply returns_GetEnv, He.
Qed.

Lemma requests_app (a b : list event) :
  requests (a ++ b) = requests a ++ requests b.
Proof. unfold requests. apply flat_map_app. Qed.

Lemma requests_cons (e : event) (l : list event) :
  requests (e :: l)
  = match e with EvDo req => [req_URL req] | _ => [] end ++ requests l.
Proof. reflexivity. Qed.

Lemma writeBody_requests p src done fs0 r fs' evs :
  writeBody w p src done fs0 = (r, fs', evs) -> requests evs = [].
Proof.
  unfold writeBody, bind, io_Copy, File_Sync, File_Close, os_Remove, log,
    emit, ret, fail.
  destruct (writeErr w p) as [[n e]|];
    [destruct (n <? List.length (body_data src))%nat|];
    destruct (body_err src); try destruct (syncErr w p);
    destruct (removeErr w p); cbn;
    intros E; injection E as _ _ <-; reflexivity.
Qed.

Lemma GetEnv_requests fs r fs' evs :
  GetEnv w fs = (r, fs', evs) -> requests evs = [].
Proof.
  unfold GetEnv. destruct (_ || _).
  - intros E. injection E as _ _ <-. reflexivity.
  - destruct (negb _); intros E; injection E as _ _ <-; reflexivity.
Qed.

Lemma readAllLimit_bound (n : nat) (b : Body) body err :
  readAllLimit n b = (body, err) ->
  (List.length body <= n)%nat
  /\ body = firstn (List.length body) (body_data b).
Proof.
  unfold readAllLimit.
  destruct (n <=? List.length (body_data b))%nat eqn:E;
    intros Eq; injection Eq as <- <-.
  - apply Nat.leb_le in E. rewrite length_firstn.
    split; [lia|]. rewrite Nat.min_l by lia. reflexivity.
  - apply Nat.leb_gt in E. split; [lia|]. rewrite firstn_all. reflexivity.
Qed.

(** X11: [Book.Download] makes at most two requests.  The first goes to
    the fast-download endpoint of the configured host and is the only one
    that carries the secret key; the second goes to the URL that the API
    named in its envelope. *)
Theorem Book_Download_requests (b : Book.t) (secretKey folderPath : gostring)
    fs r fs' evs :
  Book_Download w b secretKey folderPath fs = (r, fs', evs) ->
  requests evs = []
  \/ exists e,
       (forall fs0, GetEnv w fs0 = (inr e, fs0, []))
       /\ (requests evs
           = [fastDownloadURL (env.AnnasBaseURL e) (Book.Hash b) secretKey]
           \/ exists api apiResp,
                roundTrip w
                  {| req_URL := fastDownloadURL (env.AnnasBaseURL e)
                                                (Book.Hash b) secretKey;
                     req_Header := [] |} = inr api
                /\ decodeJSON w (resp_Body api) = inr apiResp
                /\ requests evs
                   = [fastDownloadURL (env.AnnasBaseURL e) (Book.Hash b)
                                      secretKey;
                      fdr_DownloadURL apiResp]).
Proof.
  unfold Book_Download. unfold bind at 1. unfold wrap at 1.
  destruct (GetEnv w fs) as [[[err|e] fs1] ev1] eqn:EEnv.
  { intros E. injection E as _ _ <-. left. eapply GetEnv_requests, EEnv. }
  destruct (GetEnv_success w _ _ _ _ EEnv) as (-> & -> & _).
  assert (He : forall fs0, GetEnv w fs0 = (inr e, fs0, [])).
  { apply returns_GetEnv. exists fs, fs, []. exact EEnv. }
  intros HRun. right. exists e. split; [exact He|]. revert HRun.
  unfold client_Get, client_Do, bind, wrap, log, emit, ret, fail, os_Create.
  destruct (roundTrip w _) as [err|api] eqn:EApi; cbn.
  { intros E. injection E as _ _ <-. left. reflexivity. }
  destruct (negb (StatusCode api =? 200)).
  { destruct (readAllLimit _ _) as [body [err|]]; cbn;
      intros E; injection E as _ _ <-; left; reflexivity. }
  destruct (decodeJSON w (resp_Body api)) as [err|apiResp] eqn:EJson; cbn.
  { intros E. injection E as _ _ <-. left. reflexivity. }
  destruct (is_empty (fdr_DownloadURL apiResp)).
  { destruct (negb (is_empty (fdr_Error apiResp))); cbn;
      intros E; injection E as _ _ <-; left; reflexivity. }
  cbn. intros HRun. right. exists api, apiResp.
  split; [reflexivity|]. split; [exact EJson|]. revert HRun.
  destruct (roundTrip w {| req_URL := fdr_DownloadURL apiResp;
                           req_Header := [] |}) as [err|dl]; cbn.
  { intros E. injection E as _ _ <-. reflexivity. }
  destruct (negb (StatusCode dl =? 200)); cbn.
  { intros E. injection E as _ _ <-. reflexivity. }
  destruct (createErr w _); cbn.
  { intros E. injection E as _ _ <-. reflexivity. }
  destruct (writeBody _ _ _ _ _) as [[r2 fs2] ev2] eqn:EW.
  apply writeBody_requests in EW.
  intros E. injection E as _ _ <-. cbn [app].
  rewrite !requests_cons, EW. reflexivity.
Qed.

(** X12: when the API answers with a status other than 200,
    [Book.Download] fails after this one request, without a change to the
    files; its error names the status and quotes at most 512 bytes from
    the beginning of the body. *)
Theorem Book_Download_api_status (b : Book.t)
    (secretKey folderPath : gostring) fs (e : env.Env) (api : Response) :
  GetEnv w fs = (inr e, fs, []) ->
  roundTrip w
    {| req_URL := fastDownloadURL (env.AnnasBaseURL e) (Book.Hash b) secretKey;
       req_Header := [] |} = inr api ->
  StatusCode api <> 200 ->
  exists msg evs,
    Book_Download w b secretKey folderPath fs = (inl msg, fs, evs)
    /\ requests evs
       = [fastDownloadURL (env.AnnasBaseURL e) (Book.Hash b) secretKey]
    /\ (msg = str "API request failed with status " ++ itoa (StatusCode api)
                ++ str ": " ++ Status api
        \/ exists body,
             msg = str "API request failed with status "
                     ++ itoa (StatusCode api) ++ str ": " ++ Status api
                     ++ str " (body: " ++ body ++ str ")"
             /\ (List.length body <= 512)%nat
             /\ body = firstn (List.length body) (body_data (resp_Body api))).
Proof.
  intros HEnv HApi HStatus.
  unfold Book_Download, bind, wrap. rewrite HEnv.
  unfold client_Get, client_Do, bind, log, emit, ret, fail.
  rewrite HApi. cbn.
  apply Z.eqb_neq in HStatus. rewrite HStatus. cbn.
  destruct (readAllLimit 512 (resp_Body api)) as [body [err|]] eqn:ERead;
    cbn; do 2 eexists; (split; [reflexivity|]); (split; [reflexivity|]).
  - left. reflexivity.
  - right. exists body. split; [reflexivity|].
    eapply readAllLimit_bound, ERead.
Qed.

Lemma Paper_Download_request_list (p : Paper.t) (folderPath : gostring)
    fs r fs' evs :
  Paper_Download w p folderPath fs = (r, fs', evs) ->
  requests evs = []
  \/ exists e,
       (forall fs0, GetEnv w fs0 = (inr e, fs0, []))
       /\ requests evs
          = [if strings.HasPrefix (Paper.DownloadURL p) (str "http")
             then Paper.DownloadURL p
             else str "https://" ++ env.AnnasBaseURL e
                    ++ Paper.DownloadURL p].
Proof.
  unfold Paper_Download.
  destruct (is_empty (Paper.DownloadURL p)) eqn:EUrl.
  { intros E. injection E as <- <- <-. left; reflexivity. }
  unfold bind at 1. unfold wrap at 1.
  destruct (GetEnv w fs) as [[[err|e] fs1] ev1] eqn:EEnv.
  { intros E. injection E as _ _ <-. left. eapply GetEnv_requests, EEnv. }
  destruct (GetEnv_success w _ _ _ _ EEnv) as (-> & -> & _).
  assert (He : forall fs0, GetEnv w fs0 = (inr e, fs0, [])).
  { apply returns_GetEnv. exists fs, fs, []. exact EEnv. }
  cbv zeta.
  destruct (strings.HasPrefix (Paper.DownloadURL p) (str "http"));
    cbn [negb];
    unfold client_Do, bind, wrap, log, emit, ret, fail, os_Create;
    (destruct (newRequestErr w _); cbn;
     [intros E; injection E as _ _ <-; left; reflexivity|]);
    intros HRun; right; exists e; (split; [exact He|]); revert HRun;
    (destruct (roundTrip w _) as [err|resp]; cbn;
     [intros E; injection E as _ _ <-; reflexivity|]);
    (destruct (negb (StatusCode resp =? 200));
     [destruct (readAllLimit _ _) as [body [err|]]; cbn;
      intros E; injection E as _ _ <-; reflexivity|]);
    cbn; (destruct (createErr w _); cbn;
          [intros E; injection E as _ _ <-; reflexivity|]);
    destruct (writeBody _ _ _ _ _) as [[r2 fs2] ev2] eqn:EW;
    apply writeBody_requests in EW;
    intros E; injection E as _ _ <-; cbn [app];
    rewrite !requests_cons, EW; reflexivity.
Qed.

(** X13: [Paper.Download] makes at most one request; without a download
    URL it makes none, and does nothing else either. *)
Theorem Paper_Download_requests (p : Paper.t) (folderPath : gostring)
    fs r fs' evs :
  Paper_Download w p folderPath fs = (r, fs', evs) ->
  (Paper.DownloadURL p = [] ->
   r = inl (str "no download URL available for this paper")
   /\ fs' = fs /\ evs = [])
  /\ (requests evs = []
      \/ exists e,
           (forall fs0, GetEnv w fs0 = (inr e, fs0, []))
           /\ requests evs
              = [if strings.HasPrefix (Paper.DownloadURL p) (str "http")
                 then Paper.DownloadURL p
                 else str "https://" ++ env.AnnasBaseURL e
                        ++ Paper.DownloadURL p]).
Proof.
  intros HRun. split; [|eapply Paper_Download_request_list, HRun].
  intros HUrl. unfold Paper_Download in HRun. rewrite HUrl in HRun.
  injection HRun as <- <- <-. auto.
Qed.

End Downloads.

(** ** [LookupDOI], [FindBook] and the tools *)

Section Catalog.

Context `{strings.CaseTables} `{goquery.API}.
Variable w : World.

Lemma fold_left_core {E} (f : Paper.t -> E -> Paper.t) (l : list E) :
  (forall p e, paperCore (f p e) = paperCore p) ->
  forall p, paperCore (fold_left f l p) = paperCore p.
Proof.
  intros Hf. induction l as [|e l IH]; intros p; [reflexivity|].
  cbn [fold_left]. rewrite IH. apply Hf.
Qed.

(** The callbacks of the detail page only fill in title, journal, authors
    and size. *)
Lemma detailCallbacks_core page (p : Paper.t) :
  paperCore (detailCallbacks page p) = paperCore p.
Proof.
  unfold detailCallbacks.
  rewrite !fold_left_core; [reflexivity|..].
  - intros q e. unfold onTitle. destruct (0 <? _); reflexivity.
  - intros q e. unfold onDescription.
    destruct (3 <=? _)%nat; [reflexivity|].
    destruct (2 <=? _)%nat; reflexivity.
  - intros q e. unfold onSearchLink.
    destruct (negb _); [reflexivity|]. destruct (0 <? _)%nat; reflexivity.
  - intros q e. unfold onSizeLine. destruct (_ || _); reflexivity.
Qed.

Lemma LookupDOI_paperCore (doi : gostring) fs (paper : Paper.t) fs' evs :
  LookupDOI w doi fs = (inr paper, fs', evs) ->
  exists e page hash,
    (forall fs0, GetEnv w fs0 = (inr e, fs0, []))
    /\ visit w (scidbURLOf (env.AnnasBaseURL e) doi) = colly.Fetched page
    /\ firstHash (page md5Selector) = Some hash
    /\ hash <> []
    /\ paperCore paper
       = (doi, hash, str "/scidb?doi=" ++ doi, [],
          scidbURLOf (env.AnnasBaseURL e) doi)
    /\ fs' = fs.
Proof.
  unfold LookupDOI. unfold bind at 1.
  destruct (GetEnv w fs) as [[[err|e] fs1] ev1] eqn:EEnv; [discriminate|].
  destruct (GetEnv_success w _ _ _ _ EEnv) as (-> & -> & _).
  assert (He : forall fs0, GetEnv w fs0 = (inr e, fs0, [])).
  { apply returns_GetEnv. exists fs, fs, []. exact EEnv. }
  unfold collector_Visit, try, bind, wrap, log, emit, ret, fail.
  destruct (visit w (scidbURLOf (env.AnnasBaseURL e) doi))
    as [page|[r|] err] eqn:ESearch; simpl; try discriminate.
  destruct (firstHash (page md5Selector)) as [hash|] eqn:EFirst.
  - destruct (onSearchAnchor_first (page md5Selector)
                (Paper.setPageURL (Paper.new doi)
                   (scidbURLOf (env.AnnasBaseURL e) doi)) hash eq_refl EFirst)
      as [-> HHash].
    simpl. pose proof HHash as HEmpty. apply is_empty_false in HEmpty.
    rewrite HEmpty. simpl.
    intros HRun. exists e, page, hash.
    repeat split; auto; revert HRun;
      destruct (visit w (md5URLOf (env.AnnasBaseURL e) hash))
        as [detail|[r|] err]; cbn;
      intros E; injection E as <- <- _; try reflexivity.
    unfold paperCore. cbn.
    pose proof (detailCallbacks_core detail
                  (Paper.setHash
                     (Paper.setPageURL (Paper.new doi)
                        (scidbURLOf (env.AnnasBaseURL e) doi)) hash)) as HCore.
    unfold paperCore in HCore. cbn in HCore.
    injection HCore as -> -> _ -> ->. reflexivity.
  - rewrite onSearchAnchor_none by (reflexivity || exact EFirst).
    simpl. discriminate.
Qed.

(** X14: a paper that [LookupDOI] returns has the DOI it was asked for,
    the first hash of the search page (which is not empty), the page URL
    [https://<base>/scidb/<doi>], the download reference
    [/scidb?doi=<doi>] and no Sci-Hub URL, whatever the detail page says;
    and no file has changed. *)
Theorem LookupDOI_success (doi : gostring) fs (paper : Paper.t) fs' evs :
  LookupDOI w doi fs = (inr paper, fs', evs) ->
  exists e page hash,
    (forall fs0, GetEnv w fs0 = (inr e, fs0, []))
    /\ visit w (scidbURLOf (env.AnnasBaseURL e) doi) = colly.Fetched page
    /\ firstHash (page md5Selector) = Some hash
    /\ hash <> []
    /\ Paper.DOI paper = doi
    /\ Paper.Hash paper = hash
    /\ Paper.PageURL paper = scidbURLOf (env.AnnasBaseURL e) doi
    /\ Paper.DownloadURL paper = str "/scidb?doi=" ++ doi
    /\ Paper.SciHubURL paper = []
    /\ fs' = fs.
Proof.
  intros HRun.
  apply LookupDOI_paperCore in HRun
    as (e & page & hash & He & HVisit & HFirst & HHash & HCore & ->).
  unfold paperCore in HCore. injection HCore as HDoi HH HUrl HSci HPage.
  exists e, page, hash. repeat split; assumption.
Qed.

(** X15: when the search page of phase 1 cannot be fetched, [LookupDOI]
    fails with [failed to lookup DOI: <cause>]; it has visited no other
    page. *)
Theorem LookupDOI_search_failure (doi : gostring) fs (e : env.Env)
    (r : option (option Z)) (err : gostring) :
  GetEnv w fs = (inr e, fs, []) ->
  visit w (scidbURLOf (env.AnnasBaseURL e) doi) = colly.Failed r err ->
  exists evs,
    LookupDOI w doi fs = (inl (str "failed to lookup DOI: " ++ err), fs, evs)
    /\ visits evs = [scidbURLOf (env.AnnasBaseURL e) doi].
Proof.
  intros HEnv HVisit.
  unfold LookupDOI, bind, wrap. rewrite HEnv.
  unfold collector_Visit, bind, log, emit, ret, fail. rewrite HVisit.
  destruct r as [r|]; cbn; eexists; split; reflexivity.
Qed.

(** *** The loop of [FindBook] *)

Lemma warnings_app (a b : list event) :
  warnings (a ++ b) = warnings a ++ warnings b.
Proof. unfold warnings. apply flat_map_app. Qed.

Lemma visits_app (a b : list event) : visits (a ++ b) = visits a ++ visits b.
Proof. unfold visits. apply flat_map_app. Qed.

(** The body of the loop never fails and never touches a file: it gives
    the record of the element, or one warning. *)
Lemma parseBook_run (e : colly.HTMLElement) fs :
  exists evs,
    parseBook e fs = (inr (recordOf e), fs, evs)
    /\ visits evs = []
    /\ List.length (warnings evs)
       = match recordOf e with Some _ => 0%nat | None => 1%nat end.
Proof.
  unfold recordOf, parseBook, bind, log, emit, ret.
  destruct (goquery.Length (goquery.Parent (colly.DOM e)) =? 0)%nat;
    [eexists; repeat split; reflexivity|].
  destruct (goquery.Length
              (goquery.Find (goquery.Parent (colly.DOM e))
                            (str "div.max-w-full")) =? 0)%nat;
    [eexists; repeat split; reflexivity|].
  destruct (is_empty (strings.TrimSpace _));
    [eexists; repeat split; reflexivity|].
  destruct (extractMetaInformation _) as [[language format] size].
  destruct (is_empty (colly.Attr e (str "href")));
    [eexists; repeat split; reflexivity|].
  destruct (is_empty (strings.TrimPrefix _ _));
    eexists; repeat split; reflexivity.
Qed.

Lemma parseBooks_run (l : list colly.HTMLElement) :
  forall acc fs,
    exists evs,
      parseBooks l acc fs = (inr (acc ++ omap recordOf l), fs, evs)
      /\ visits evs = []
      /\ (List.length (warnings evs) + List.length (omap recordOf l)
          = List.length l)%nat.
Proof.
  induction l as [|e l IH]; intros acc fs.
  - exists []. cbn. rewrite app_nil_r. auto.
  - cbn [parseBooks]. unfold bind at 1.
    destruct (parseBook_run e fs) as (ev1 & -> & HV1 & HW1).
    cbn [omap list_omap]. destruct (recordOf e) as [b|].
    + destruct (IH (acc ++ [b]) fs) as (ev2 & -> & HV2 & HW2).
      exists (ev1 ++ ev2). rewrite <- app_assoc.
      rewrite visits_app, warnings_app, length_app, HV1, HV2, HW1.
      cbn [app List.length]. repeat split; auto. lia.
    + destruct (IH acc fs) as (ev2 & -> & HV2 & HW2).
      exists (ev1 ++ ev2).
      rewrite visits_app, warnings_app, length_app, HV1, HV2, HW1.
      repeat split; auto. cbn [List.length]. lia.
Qed.

Lemma FindBook_on_page (query content : gostring) fs (e : env.Env)
    (page : gostring -> list colly.HTMLElement) :
  GetEnv w fs = (inr e, fs, []) ->
  visit w (searchURLOf (env.AnnasBaseURL e) query
             (if is_empty content then str "book_any" else content))
    = colly.Fetched page ->
  exists evs,
    FindBook w query content fs
    = (inr (omap recordOf (primaryAnchors page)), fs, evs)
    /\ (List.length (warnings evs)
        + List.length (omap recordOf (primaryAnchors page))
        = List.length (primaryAnchors page))%nat
    /\ visits evs
       = [searchURLOf (env.AnnasBaseURL e) query
            (if is_empty content then str "book_any" else content)].
Proof.
  intros HEnv HVisit.
  unfold FindBook. unfold bind at 1. rewrite HEnv.
  unfold bind at 1. unfold emit at 1. unfold bind at 1.
  rewrite HVisit. unfold bind at 1. unfold log, emit, ret. cbn [app].
  unfold bind at 1.
  destruct (parseBooks_run (primaryAnchors page) [] fs)
    as (ev & -> & HV & HW).
  unfold bind. cbn [app].
  eexists. split; [reflexivity|]. split.
  - cbn [warnings flat_map app]. rewrite warnings_app. cbn.
    rewrite app_nil_r. exact HW.
  - cbn [visits flat_map app]. rewrite visits_app, HV. reflexivity.
Qed.

(** X16: once the result page is fetched, [FindBook] cannot fail: it
    returns the records of the accepted anchors, in the order of the
    anchors, and logs one warning for every anchor without a record; a
    skipped element does not stop the loop, and a page without records
    gives the empty list.  The page is the only one visited and no file
    changes. *)
Theorem FindBook_fetched (query content : gostring) fs (e : env.Env)
    (page : gostring -> list colly.HTMLElement) :
  GetEnv w fs = (inr e, fs, []) ->
  visit w (searchURLOf (env.AnnasBaseURL e) query
             (if is_empty content then str "book_any" else content))
    = colly.Fetched page ->
  exists evs,
    FindBook w query content fs
    = (inr (omap recordOf (primaryAnchors page)), fs, evs)
    /\ (List.length (warnings evs)
        + List.length (omap recordOf (primaryAnchors page))
        = List.length (primaryAnchors page))%nat
    /\ visits evs
       = [searchURLOf (env.AnnasBaseURL e) query
            (if is_empty content then str "book_any" else content)].
Proof. intros HEnv HVisit. apply FindBook_on_page; assumption. Qed.

(** What a record says about its element. *)
Lemma recordOf_fields (a : colly.HTMLElement) (b : Book.t) :
  recordOf a = Some b ->
  Book.Title b = elementTitle a
  /\ Book.Hash b = elementHash a
  /\ Book.URL b = colly.AbsoluteURL a (colly.Attr a (str "href"))
  /\ (Book.Format b = [] \/ In (Book.Format b) formatCodes).
Proof.
  unfold recordOf, parseBook, elementTitle, elementHash, bind, log, emit, ret.
  destruct (goquery.Length (goquery.Parent (colly.DOM a)) =? 0)%nat;
    [discriminate|].
  destruct (goquery.Length
              (goquery.Find (goquery.Parent (colly.DOM a))
                            (str "div.max-w-full")) =? 0)%nat;
    [discriminate|].
  destruct (is_empty (strings.TrimSpace _)); [discriminate|].
  destruct (extractMetaInformation _) as [[language format] size] eqn:EMeta.
  destruct (is_empty (colly.Attr a (str "href"))); [discriminate|].
  destruct (is_empty (strings.TrimPrefix _ _)); [discriminate|].
  intros E. injection E as <-. cbn.
  repeat split.
  match type of EMeta with
  | extractMetaInformation ?meta = _ =>
      pose proof (extractMetaInformation_code meta) as HCode
  end.
  rewrite EMeta in HCode. exact HCode.
Qed.

Lemma FindBook_from_records (query content : gostring) fs books fs' evs :
  FindBook w query content fs = (inr books, fs', evs) ->
  Forall (fun b => exists a, recordOf a = Some b) books.
Proof.
  unfold FindBook. unfold bind at 1.
  destruct (GetEnv w fs) as [[[err|e] fs1] ev1]; [discriminate|].
  unfold bind at 1. unfold emit at 1. unfold bind at 1.
  set (bookList := match visit w _ with
                   | colly.Fetched _ => _
                   | colly.Failed _ _ => _
                   end).
  destruct (bookList fs1) as [[[err|l] fs2] ev2]; [discriminate|].
  unfold bind at 1.
  destruct (parseBooks_run l [] fs2) as (ev & -> & _ & _).
  unfold bind, log, emit, ret. simpl.
  intros E. injection E as <- _ _.
  clear. induction l as [|a l IH]; [constructor|].
  cbn [omap list_omap]. destruct (recordOf a) as [b|] eqn:ERec; [|exact IH].
  constructor; [eauto|exact IH].
Qed.

(** X17: the format of every record that [FindBook] returns is empty or
    one of the twelve codes in upper case. *)
Theorem FindBook_formats (query content : gostring) fs books fs' evs :
  FindBook w query content fs = (inr books, fs', evs) ->
  Forall (fun b => Book.Format b = [] \/ In (Book.Format b) formatCodes)
         books.
Proof.
  intros HRun. apply FindBook_from_records in HRun.
  eapply List.Forall_impl; [|exact HRun].
  intros b [a HRec]. apply recordOf_fields in HRec. tauto.
Qed.

(** *** Where the file of a book goes *)

Lemma Book_fileName_element (b : Book.t) :
  Forall (fun c => filepath.IsPathSeparator c = false)
         (strings.ToLower (Book.Format b)) ->
  pathElement
    (sanitizeFilename (Book.Title b) ++ str "."
       ++ (if is_empty (strings.ToLower (Book.Format b)) then str "bin"
           else strings.ToLower (Book.Format b))).
Proof.
  intros HFormat.
  destruct (sanitizeFilename_sanitized (Book.Title b)) as [HSafe _ HNe _].
  assert (HLen : (1 <= List.length (sanitizeFilename (Book.Title b)))%nat).
  { destruct (sanitizeFilename (Book.Title b)); [congruence|cbn; lia]. }
  set (ext := if is_empty (strings.ToLower (Book.Format b)) then str "bin"
              else strings.ToLower (Book.Format b)).
  assert (HExt : Forall (fun c => filepath.IsPathSeparator c = false) ext
                 /\ (1 <= List.length ext)%nat).
  { subst ext. destruct (strings.ToLower (Book.Format b)) as [|c f].
    - split; [repeat constructor|cbn; lia].
    - split; [exact HFormat|cbn; lia]. }
  destruct HExt as [HExtSep HExtLen].
  assert (HL : (3 <= List.length
                       (sanitizeFilename (Book.Title b) ++ str "." ++ ext))%nat).
  { rewrite !length_app. change (List.length (str ".")) with 1%nat. lia. }
  repeat split.
  - intros E. rewrite E in HL. cbn in HL. lia.
  - intros E. rewrite E in HL. cbn in HL. lia.
  - intros E. rewrite E in HL. cbn in HL. lia.
  - apply Forall_app. split.
    + eapply List.Forall_impl; [|exact HSafe].
      intros c Hc. apply safeByte_not_separator, Hc.
    + apply Forall_app. split; [repeat constructor|exact HExtSep].
Qed.

Lemma Book_filePath_element (b : Book.t) (folderPath : gostring) :
  filepath.IsAbs folderPath = true ->
  Forall (fun c => filepath.IsPathSeparator c = false)
         (strings.ToLower (Book.Format b)) ->
  Book_filePath b folderPath
  = dirPrefix folderPath ++ sanitizeFilename (Book.Title b) ++ str "."
      ++ (if is_empty (strings.ToLower (Book.Format b)) then str "bin"
          else strings.ToLower (Book.Format b)).
Proof.
  intros HAbs HFormat.
  unfold Book_filePath. rewrite sanitizeFilename_never_empty.
  apply Join_pathElement; [exact HAbs|].
  apply Book_fileName_element, HFormat.
Qed.

(** X18: in an absolute folder, a book whose lowercased format has no
    separator gets its file directly in the folder: the path is the
    cleaned folder, a separator, and the name
    [<sanitized title>.<lowercased format, or bin>]; the name is the base
    name of the path. *)
Theorem Book_filePath_in_folder (b : Book.t) (folderPath : gostring) :
  filepath.IsAbs folderPath = true ->
  Forall (fun c => filepath.IsPathSeparator c = false)
         (strings.ToLower (Book.Format b)) ->
  let name :=
    sanitizeFilename (Book.Title b) ++ str "."
      ++ (if is_empty (strings.ToLower (Book.Format b)) then str "bin"
          else strings.ToLower (Book.Format b)) in
  Book_filePath b folderPath = dirPrefix folderPath ++ name
  /\ filepath.Base (Book_filePath b folderPath) = name.
Proof.
  intros HAbs HFormat name.
  pose proof (Book_filePath_element b folderPath HAbs HFormat) as HPath.
  split; [exact HPath|]. rewrite HPath. fold name.
  destruct (Book_fileName_element b HFormat) as (HNe & _ & _ & HNoSep).
  fold name in HNe, HNoSep.
  unfold dirPrefix. destruct (gostring_eqb _ _).
  - apply (Base_in_directory [] name); assumption.
  - rewrite <- app_assoc. apply Base_in_directory; assumption.
Qed.

Lemma formatCodes_lower (f : gostring) :
  f = [] \/ In f formatCodes ->
  Forall (fun c => filepath.IsPathSeparator c = false) (strings.ToLower f)
  /\ is_empty (strings.ToLower f) = is_empty f.
Proof.
  intros [->|HIn]; [split; [constructor|reflexivity]|].
  vm_compute in HIn.
  repeat (destruct HIn as [<-|HIn];
          [split; [vm_compute; repeat constructor|reflexivity]|]).
  destruct HIn.
Qed.

(** X19: a book that [FindBook] has returned is always downloaded into
    the folder itself: for an absolute folder its file is the cleaned
    folder, a separator, and
    [<sanitized title>.<lowercased format, or bin>]. *)
Theorem FindBook_then_filePath (query content : gostring) fs books fs' evs
    (b : Book.t) (folderPath : gostring) :
  FindBook w query content fs = (inr books, fs', evs) ->
  In b books ->
  filepath.IsAbs folderPath = true ->
  Book_filePath b folderPath
  = dirPrefix folderPath ++ sanitizeFilename (Book.Title b) ++ str "."
      ++ (if is_empty (Book.Format b) then str "bin"
          else strings.ToLower (Book.Format b)).
Proof.
  intros HRun HIn HAbs.
  apply FindBook_from_records in HRun. rewrite List.Forall_forall in HRun.
  destruct (HRun _ HIn) as [a HRec].
  apply recordOf_fields in HRec as (_ & _ & _ & HFormat).
  destruct (formatCodes_lower _ HFormat) as [HSep HEmpty].
  rewrite (Book_filePath_element b folderPath HAbs HSep), HEmpty.
  reflexivity.
Qed.

(** *** From lookup to download *)

(** X20: a paper that [LookupDOI] has returned can be downloaded: the
    request of [Paper.Download], if it gets that far, goes to
    [https://<base>/scidb?doi=<doi>]; when it succeeds, the body is in the
    folder under the sanitized title, or the sanitized DOI when the detail
    page gave no title. *)
Theorem LookupDOI_then_Download (doi folderPath : gostring) fs
    (paper : Paper.t) fs1 ev1 r fs2 ev2 :
  LookupDOI w doi fs = (inr paper, fs1, ev1) ->
  Paper_Download w paper folderPath fs1 = (r, fs2, ev2) ->
  exists e,
    (forall fs0, GetEnv w fs0 = (inr e, fs0, []))
    /\ (requests ev2 = []
        \/ requests ev2
           = [str "https://" ++ env.AnnasBaseURL e ++ str "/scidb?doi=" ++ doi])
    /\ (r = inr tt ->
        exists resp,
          roundTrip w
            {| req_URL := str "https://" ++ env.AnnasBaseURL e
                            ++ str "/scidb?doi=" ++ doi;
               req_Header := [(str "User-Agent", BrowserUserAgent)] |}
          = inr resp
          /\ fs2 = <[filepath.Join
                       [folderPath;
                        sanitizeFilename
                          (if is_empty (Paper.Title paper) then doi
                           else Paper.Title paper)
                        ++ inferExt w resp]
                     := body_data (resp_Body resp)]> fs).
Proof.
  intros HLookup HDownload.
  apply LookupDOI_paperCore in HLookup
    as (e & page & hash & He & _ & _ & _ & HCore & ->).
  unfold paperCore in HCore. injection HCore as HDoi _ HUrl _ _.
  assert (HSame : forall e', (forall fs0, GetEnv w fs0 = (inr e', fs0, [])) ->
                             e' = e).
  { intros e' He'. specialize (He ∅). rewrite He' in He. congruence. }
  assert (HPrefix : strings.HasPrefix (Paper.DownloadURL paper) (str "http")
                    = false).
  { rewrite HUrl. reflexivity. }
  exists e. split; [exact He|]. split.
  - destruct (Paper_Download_request_list w _ _ _ _ _ _ HDownload)
      as [HNone|(e' & He' & HOne)]; [left; exact HNone|right].
    rewrite HOne, HPrefix, HUrl, (HSame _ He'). reflexivity.
  - intros ->.
    apply Paper_Download_downloadsTo in HDownload
      as [[_ [e0 E]]|(path & src & done & evsW & HP & HW)];
      [discriminate|].
    destruct HP as (e' & resp & He' & HResp & _ & -> & ->).
    apply writeBody_files in HW as [(_ & _ & ->)|(e0 & E & _)];
      [|discriminate].
    pose proof (returns_GetEnv w e' He') as He''.
    rewrite HPrefix, HUrl, (HSame _ He'') in HResp.
    exists resp. rewrite insert_insert_eq, HDoi. auto.
Qed.

(** *** The tools *)

(** X21: [DOITool] never returns an error and changes no file.  When
    [LookupDOI] fails, for whatever reason (the configuration, the
    network, no hash), the tool answers
    [No paper found for DOI: <doi>]; otherwise it answers the text of
    the paper. *)
Theorem DOITool_never_fails (doi : gostring) fs :
  exists text evs,
    DOITool w doi fs = (inr {| Content := [text] |}, fs, evs)
    /\ match fst (fst (LookupDOI w doi fs)) with
       | inl _ => text = str "No paper found for DOI: " ++ doi
       | inr paper => text = Paper_String paper
       end.
Proof.
  unfold DOITool, try, bind, log, emit, ret.
  destruct (LookupDOI w doi fs) as [[[err|paper] fs1] ev1] eqn:ELookup;
    pose proof (proj1 (LookupDOI_looks w doi) _ _ _ _ ELookup) as ->;
    cbn; do 2 eexists; split; reflexivity.
Qed.

Lemma fold_left_concat {A} (f : A -> gostring) (l : list A) :
  forall init,
    fold_left (fun acc x => acc ++ f x) l init = init ++ concat (map f l).
Proof.
  induction l as [|x l IH]; intros init; cbn.
  - rewrite app_nil_r. reflexivity.
  - rewrite IH, <- app_assoc. reflexivity.
Qed.

(** X22: [SearchTool] on a fetched result page answers
    [No books found.] when no accepted anchor gives a record, and
    otherwise one text with the eight lines of each record, in the order
    of the anchors, each followed by an empty line; it changes no
    file. *)
Theorem SearchTool_fetched (searchTerm content : gostring) fs (e : env.Env)
    (page : gostring -> list colly.HTMLElement) :
  GetEnv w fs = (inr e, fs, []) ->
  visit w (searchURLOf (env.AnnasBaseURL e) searchTerm
             (if is_empty content then str "book_any" else content))
    = colly.Fetched page ->
  exists evs,
    SearchTool w searchTerm content fs
    = (inr {| Content :=
                [match omap recordOf (primaryAnchors page) with
                 | [] => str "No books found."
                 | books => bookListText books
                 end] |}, fs, evs).
Proof.
  intros HEnv HVisit.
  destruct (FindBook_on_page searchTerm content fs e page HEnv HVisit)
    as (evs & HFind & _).
  unfold SearchTool, try, bind, log, emit, ret. rewrite HFind.
  destruct (omap recordOf (primaryAnchors page)) as [|b books]; cbn.
  - eexists. reflexivity.
  - eexists. unfold bookListText.
    rewrite (fold_left_concat
               (fun book => Book_String book ++ newline ++ newline)).
    reflexivity.
Qed.

(** X23: [SearchTool] passes an error of [FindBook] on as it is. *)
Theorem SearchTool_error (searchTerm content : gostring) fs err fs' evs :
  FindBook w searchTerm content fs = (inl err, fs', evs) ->
  exists evs', SearchTool w searchTerm content fs = (inl err, fs', evs').
Proof.
  intros HFind. unfold SearchTool, try, bind, log, emit, fail.
  rewrite HFind. cbn. eexists. reflexivity.
Qed.

(** X24: when [DownloadTool] returns without error for a format whose
    lowercased form has no separator, exactly one file is new or changed:
    [<sanitized title>.<lowercased format, or bin>] directly in the
    directory named by [ANNAS_DOWNLOAD_PATH]; the answer names that
    directory. *)
Theorem DownloadTool_success (bookHash title format : gostring) fs
    (res : CallToolResult) fs' evs :
  DownloadTool w bookHash title format fs = (inr res, fs', evs) ->
  Forall (fun c => filepath.IsPathSeparator c = false)
         (strings.ToLower format) ->
  let downloadPath := Getenv w (str "ANNAS_DOWNLOAD_PATH") in
  Content res
  = [str "Book downloaded successfully to path: " ++ downloadPath]
  /\ exists data,
       fs' = <[dirPrefix downloadPath ++ sanitizeFilename title ++ str "."
                 ++ (if is_empty (strings.ToLower format) then str "bin"
                     else strings.ToLower format)
               := data]> fs.
Proof.
  unfold DownloadTool, try. unfold bind at 1. unfold log, emit.
  unfold bind at 1.
  destruct (GetEnv w fs) as [[[err|e] fs1] ev1] eqn:EEnv;
    [unfold bind, fail; cbn; discriminate|].
  destruct (GetEnv_success w _ _ _ _ EEnv)
    as (-> & -> & _ & _ & HPath & HAbs & _).
  rewrite HPath in HAbs |- *.
  cbv zeta. unfold bind at 1.
  match goal with
  | |- context [Book_Download w ?b ?k ?p fs] =>
      destruct (Book_Download w b k p fs) as [[[err|[]] fs2] ev2] eqn:EDownload;
      [unfold bind, fail; cbn; discriminate|];
      pose proof (Book_filePath_element b p HAbs) as HFile
  end.
  unfold bind, ret. cbn.
  intros E HFormat. injection E as <- <- _.
  split; [reflexivity|].
  apply Book_Download_downloadsTo in EDownload
    as [[_ [e0 E]]|(path & src & done & evsW & [-> _] & HW)];
    [discriminate|].
  apply writeBody_files in HW as [(_ & _ & ->)|(e0 & E & _)];
    [|discriminate].
  exists (body_data src). rewrite insert_insert_eq.
  rewrite (HFile HFormat). reflexivity.
Qed.

(** X25: [DownloadTool] does nothing on the network or the files without
    a configuration: when [GetEnv] fails it returns that error, with no
    request and no change. *)
Theorem DownloadTool_without_environment (bookHash title format : gostring)
    fs err fs0 evs0 :
  GetEnv w fs = (inl err, fs0, evs0) ->
  exists evs,
    DownloadTool w bookHash title format fs = (inl err, fs, evs)
    /\ requests evs = [].
Proof.
  intros HEnv.
  pose proof (readonly_GetEnv w _ _ _ _ HEnv) as ->.
  pose proof (GetEnv_requests w _ _ _ _ HEnv) as HReq.
  unfold DownloadTool, try, bind, log, emit, fail. rewrite HEnv. cbn.
  eexists. split; [reflexivity|].
  rewrite !requests_cons, requests_app, HReq. reflexivity.
Qed.

(** X26: the collector of [FindBook] is asynchronous, so a request for
    the result page that fails after it was issued reaches only the
    [OnError] callback, which logs it: [FindBook] returns the empty list
    without an error, and [SearchTool] answers [No books found.]. *)
Theorem FindBook_request_failure (query content : gostring) fs (e : env.Env)
    (status : option Z) (err : gostring) :
  GetEnv w fs = (inr e, fs, []) ->
  visit w (searchURLOf (env.AnnasBaseURL e) query
             (if is_empty content then str "book_any" else content))
    = colly.Failed (Some status) err ->
  (exists evs,
      FindBook w query content fs = (inr [], fs, evs)
      /\ In (EvLog Error (str "Search request failed")) evs)
  /\ exists evs,
       SearchTool w query content fs
       = (inr {| Content := [str "No books found."] |}, fs, evs).
Proof.
  intros HEnv HVisit.
  assert (HFind : exists evs,
             FindBook w query content fs = (inr [], fs, evs)
             /\ In (EvLog Error (str "Search request failed")) evs).
  { unfold FindBook. unfold bind at 1. rewrite HEnv.
    unfold bind at 1. unfold emit at 1. unfold bind at 1.
    rewrite HVisit. unfold bind, log, emit, ret. cbn.
    eexists. split; [reflexivity|]. right. right. left. reflexivity. }
  split; [exact HFind|].
  destruct HFind as (evs & HFind & _).
  unfold SearchTool, try, bind, log, emit, ret. rewrite HFind. cbn.
  eexists. reflexivity.
Qed.

End Catalog.

#[local] Existing Instances Examples.caseTables Examples.dom.

Lemma Book_Download_empty_url_witness :
  exists evs,
    Book_Download
      (Examples.world Examples.quotaEnvelope Examples.wholeBody
                      Examples.offline None)
      Examples.book (str "secret") (str "/srv/books") ∅
    = (inl (str "API error: quota exceeded"), ∅, evs)
    /\ requests evs = [Examples.apiURL].
Proof.
  apply (Book_Download_empty_url
           (Examples.world Examples.quotaEnvelope Examples.wholeBody
                           Examples.offline None)
           Examples.book (str "secret") (str "/srv/books") ∅
           {| env.SecretKey := str "secret";
              env.DownloadPath := str "/srv/books";
              env.AnnasBaseURL := env.DefaultAnnasBaseURL |}
           (Examples.ok Examples.quotaEnvelope) (str "quota exceeded"));
    reflexivity.
Defined.

(** The download of a body that breaks off, in a world where the file can
    be removed and in one where it cannot. *)
Lemma Download_write_failure_cleanup_witness :
  let p := str "/srv/books/Dune.pdf" in
  let outcome (w : World) :=
    let run := Download w (BookDownload Examples.book (str "secret"))
                        (str "/srv/books") ∅ in
    let r := fst (fst run) in
    let fs' := snd (fst run) in
    let evs := snd run in
    writeFailed p evs
    /\ (exists e, r = inl e)
    /\ In (EvRemove p (removeErr w p)) evs
    /\ (removeErr w p = None -> fs' !! p = None)
    /\ (removeErr w p <> None ->
        In (EvLog Warn (str "Failed to remove partial file")) evs)
    /\ ((exists n e,
           In (EvCopy p n (Some e)) evs
           /\ r = inl (str "failed to write file (wrote "
                         ++ itoa (Z.of_nat n) ++ str " bytes): " ++ e))
        \/ exists e,
             In (EvSync p (Some e)) evs
             /\ r = inl (str "failed to sync file to disk: " ++ e)) in
  outcome (Examples.world Examples.urlEnvelope Examples.brokenBody
                          Examples.offline None)
  /\ outcome (Examples.world Examples.urlEnvelope Examples.brokenBody
                             Examples.offline
                             (Some (str "permission denied"))).
Proof.
  intros p outcome. subst outcome. cbv beta zeta.
  split.
  - assert (HFail : writeFailed p
                      (snd (Download
                              (Examples.world Examples.urlEnvelope
                                              Examples.brokenBody
                                              Examples.offline None)
                              (BookDownload Examples.book (str "secret"))
                              (str "/srv/books") ∅))).
    { split.
      - vm_compute. do 5 right. left. reflexivity.
      - left. exists 10%nat, (str "unexpected EOF").
        vm_compute. do 6 right. left. reflexivity. }
    split; [exact HFail|].
    apply (Download_write_failure_cleanup
             (Examples.world Examples.urlEnvelope Examples.brokenBody
                             Examples.offline None)
             (BookDownload Examples.book (str "secret")) (str "/srv/books") ∅
             _ _ _ p); [reflexivity|exact HFail].
  - assert (HFail : writeFailed p
                      (snd (Download
                              (Examples.world Examples.urlEnvelope
                                              Examples.brokenBody
                                              Examples.offline
                                              (Some (str "permission denied")))
                              (BookDownload Examples.book (str "secret"))
                              (str "/srv/books") ∅))).
    { split.
      - vm_compute. do 5 right. left. reflexivity.
      - left. exists 10%nat, (str "unexpected EOF").
        vm_compute. do 6 right. left. reflexivity. }
    split; [exact HFail|].
    apply (Download_write_failure_cleanup
             (Examples.world Examples.urlEnvelope Examples.brokenBody
                             Examples.offline
                             (Some (str "permission denied")))
             (BookDownload Examples.book (str "secret")) (str "/srv/books") ∅
             _ _ _ p); [reflexivity|exact HFail].
Defined.

(** C1 as worded fails: the body breaks off after ten bytes and the
    removal is refused, so the ten bytes stay at the path. *)
Lemma failed_write_may_leave_file : ~ failed_write_leaves_no_file.
Proof.
  intros HClaim.
  pose (w := Examples.world Examples.urlEnvelope Examples.brokenBody
                            Examples.offline (Some (str "permission denied"))).
  pose (run := Download w (BookDownload Examples.book (str "secret"))
                        (str "/srv/books") ∅).
  destruct (HClaim _ _ w (BookDownload Examples.book (str "secret"))
                   (str "/srv/books") ∅
                   (fst (fst run)) (snd (fst run)) (snd run)
                   (str "/srv/books/Dune.pdf")) as [_ HGone].
  - reflexivity.
  - split.
    + vm_compute. do 5 right. left. reflexivity.
    + left. exists 10%nat, (str "unexpected EOF").
      vm_compute. do 6 right. left. reflexivity.
  - vm_compute in HGone. discriminate HGone.
Qed.

Lemma LookupDOI_not_found_witness :
  exists evs,
    LookupDOI (Examples.world Examples.urlEnvelope Examples.wholeBody
                              Examples.emptySearch None)
              (str "10.1000/182") ∅
    = (inl (str "no paper found for DOI: 10.1000/182"), ∅, evs)
    /\ visits evs = [Examples.scidbURL].
Proof.
  eapply (LookupDOI_not_found
            (Examples.world Examples.urlEnvelope Examples.wholeBody
                            Examples.emptySearch None)
            (str "10.1000/182") ∅
            {| env.SecretKey := str "secret";
               env.DownloadPath := str "/srv/books";
               env.AnnasBaseURL := env.DefaultAnnasBaseURL |});
    reflexivity.
Defined.

Lemma LookupDOI_detail_failure_witness :
  exists evs,
    LookupDOI (Examples.world Examples.urlEnvelope Examples.wholeBody
                              Examples.foundSearch None)
              (str "10.1000/182") ∅
    = (inr {| Paper.DOI := str "10.1000/182";
              Paper.Title := [];
              Paper.Authors := [];
              Paper.Journal := [];
              Paper.Size := [];
              Paper.Hash := str "d41d8cd9";
              Paper.DownloadURL := str "/scidb?doi=10.1000/182";
              Paper.SciHubURL := [];
              Paper.PageURL := Examples.scidbURL |}, ∅, evs)
    /\ visits evs
       = [Examples.scidbURL; str "https://annas-archive.li/md5/d41d8cd9"].
Proof.
  eapply (LookupDOI_detail_failure
            (Examples.world Examples.urlEnvelope Examples.wholeBody
                            Examples.foundSearch None)
            (str "10.1000/182") ∅
            {| env.SecretKey := str "secret";
               env.DownloadPath := str "/srv/books";
               env.AnnasBaseURL := env.DefaultAnnasBaseURL |});
    reflexivity.
Defined.

(** The result page of the examples: of its three accepted entries only
    the first gives a record. *)
Lemma FindBook_records_valid_witness :
  let w := Examples.world Examples.urlEnvelope Examples.wholeBody
                          Examples.results None in
  let run := FindBook w (str "dune") [] ∅ in
  fst (fst run)
  = inr [ {| Book.Language := []; Book.Format := []; Book.Size := [];
             Book.Title := str "Dune"; Book.Publisher := [];
             Book.Authors := [];
             Book.URL := str "https://annas-archive.li/md5/d41d8cd9";
             Book.Hash := str "d41d8cd9" |} ]
  /\ Forall (fun b => Book.Title b <> [] /\ Book.Hash b <> [])
            [ {| Book.Language := []; Book.Format := []; Book.Size := [];
                 Book.Title := str "Dune"; Book.Publisher := [];
                 Book.Authors := [];
                 Book.URL := str "https://annas-archive.li/md5/d41d8cd9";
                 Book.Hash := str "d41d8cd9" |} ]
  /\ exists msg,
       parseBook (Examples.anchor (str "/md5/98f00b20") primaryClass
                                  (1%nat, str "  ")) ∅
       = (inr None, ∅, [EvLog Warn msg])
       /\ In (EvLog Warn msg) (snd run).
Proof.
  intros w run. split; [reflexivity|].
  destruct (FindBook_records_valid w (str "dune") [] ∅
              [ {| Book.Language := []; Book.Format := []; Book.Size := [];
                   Book.Title := str "Dune"; Book.Publisher := [];
                   Book.Authors := [];
                   Book.URL := str "https://annas-archive.li/md5/d41d8cd9";
                   Book.Hash := str "d41d8cd9" |} ]
              (snd (fst run)) (snd run)) as [HValid HSkip].
  - reflexivity.
  - split; [exact HValid|].
    eapply (HSkip {| env.SecretKey := str "secret";
                     env.DownloadPath := str "/srv/books";
                     env.AnnasBaseURL := env.DefaultAnnasBaseURL |}).
    + reflexivity.
    + reflexivity.
    + right. left. reflexivity.
    + left. reflexivity.
Defined.



(** ** Further runs of the examples *)

(** The second layout named in the source: a second language before the
    format. *)
Example extractMetaInformation_two_languages :
  extractMetaInformation (str "✅ English [en] · Hindi [hi] · EPUB · 0.7MB · 2015")
  = (str "English", str "EPUB", str "0.7MB").
Proof. vm_compute. reflexivity. Qed.

Example extractMetaInformation_two_segments :
  extractMetaInformation (str "✅ English [en] · EPUB") = ([], [], []).
Proof. vm_compute. reflexivity. Qed.

(** With an empty title the file is named after the dot that
    [sanitizeFilename] returns, not [untitled]. *)
Example Book_filePath_empty_title :
  Book_filePath
    {| Book.Language := []; Book.Format := str "PDF"; Book.Size := [];
       Book.Title := []; Book.Publisher := []; Book.Authors := [];
       Book.URL := []; Book.Hash := str "d41d8cd9" |}
    (str "/srv/books")
  = str "/srv/books/..pdf".
Proof. vm_compute. reflexivity. Qed.

(** The write path of [Paper.Download]: the broken body is removed again,
    and the error names the ten bytes written. *)
Example Paper_Download_broken_body :
  let w := Examples.world Examples.urlEnvelope Examples.brokenBody
                          Examples.offline None in
  let run := Paper_Download w Examples.paper (str "/srv/books") ∅ in
  fst (fst run)
  = inl (str "failed to write file (wrote 10 bytes): unexpected EOF")
  /\ snd (fst run) !! str "/srv/books/10.1000_182.pdf" = None
  /\ In (EvRemove (str "/srv/books/10.1000_182.pdf") None) (snd run).
Proof.
  intros w run. split; [reflexivity|]. split; [reflexivity|].
  vm_compute. do 6 right. left. reflexivity.
Qed.

(** A whole download of the book of the examples. *)
Example Book_Download_whole :
  let w := Examples.world Examples.urlEnvelope Examples.wholeBody
                          Examples.offline None in
  let run := Book_Download w Examples.book (str "secret") (str "/srv/books") ∅ in
  fst (fst run) = inr tt
  /\ snd (fst run) !! str "/srv/books/Dune.pdf" = Some (str "%PDF-1.7 1 0 obj")
  /\ requests (snd run) = [Examples.apiURL; Examples.fileURL].
Proof. intros w run. repeat split; reflexivity. Qed.

(** ** The properties on the examples *)

Lemma extractMetaInformation_no_separator_witness :
  extractMetaInformation (str "EPUB, 0.7MB") = ([], [], []).
Proof. apply extractMetaInformation_no_separator. reflexivity. Defined.

Lemma extractMetaInformation_format_witness :
  str "EPUB" = [] \/ In (str "EPUB") formatCodes.
Proof.
  apply (extractMetaInformation_format
           (str "✅ English [en] · EPUB · 0.7MB · 2015")
           (str "English") (str "EPUB") (str "0.7MB")).
  vm_compute. reflexivity.
Defined.

Lemma extractMetaInformation_size_witness :
  let meta := str "✅ English [en] · EPUB · 0.7MB · 2015" in
  let size := str "0.7MB" in
  size = []
  \/ (exists seg,
        In seg (skipn 1 (strings.Split meta (str " · ")))
        /\ size = strings.TrimSpace seg)
     /\ exists pre d mid u post,
          size = pre ++ d :: mid ++ u ++ post
          /\ regexp.digit d = true /\ In u sizeUnits.
Proof.
  intros meta size.
  apply (extractMetaInformation_size meta (str "English") (str "EPUB") size).
  vm_compute. reflexivity.
Defined.

Lemma Download_changes_one_file_witness :
  let w := Examples.world Examples.urlEnvelope Examples.wholeBody
                          Examples.offline None in
  let fs : gmap (list ascii) (list ascii) := ∅ in
  let run := Download w (BookDownload Examples.book (str "secret"))
                      (str "/srv/books") fs in
  exists path,
    (forall q, q <> path -> snd (fst run) !! q = fs !! q)
    /\ path = Book_filePath Examples.book (str "/srv/books").
Proof.
  intros w fs run.
  apply (Download_changes_one_file w
           (BookDownload Examples.book (str "secret")) (str "/srv/books") fs
           (fst (fst run)) (snd (fst run)) (snd run)).
  reflexivity.
Defined.

Lemma Book_Download_success_witness :
  let w := Examples.world Examples.urlEnvelope Examples.wholeBody
                          Examples.offline None in
  let b := Examples.book in
  let secretKey := str "secret" in
  let folderPath := str "/srv/books" in
  let fs : gmap (list ascii) (list ascii) := ∅ in
  let fs' := snd (fst (Book_Download w b secretKey folderPath fs)) in
  exists e api apiResp dl,
    (forall fs0, GetEnv w fs0 = (inr e, fs0, []))
    /\ roundTrip w
         {| req_URL := fastDownloadURL (env.AnnasBaseURL e) (Book.Hash b)
                                       secretKey;
            req_Header := [] |} = inr api
    /\ StatusCode api = 200
    /\ decodeJSON w (resp_Body api) = inr apiResp
    /\ fdr_DownloadURL apiResp <> []
    /\ roundTrip w {| req_URL := fdr_DownloadURL apiResp; req_Header := [] |}
       = inr dl
    /\ StatusCode dl = 200
    /\ body_err (resp_Body dl) = None
    /\ fs' = <[Book_filePath b folderPath := body_data (resp_Body dl)]> fs.
Proof.
  intros w b secretKey folderPath fs fs'.
  apply (Book_Download_success w b secretKey folderPath fs fs'
           (snd (Book_Download w b secretKey folderPath fs))).
  reflexivity.
Defined.

(** The body breaks off: the download fails and the target is gone. *)
Lemma Download_all_or_nothing_witness :
  let w := Examples.world Examples.urlEnvelope Examples.brokenBody
                          Examples.offline None in
  let d := BookDownload Examples.book (str "secret") in
  let folderPath := str "/srv/books" in
  let fs : gmap (list ascii) (list ascii) := ∅ in
  let run := Download w d folderPath fs in
  let r := fst (fst run) in
  let fs' := snd (fst run) in
  ((exists e, r = inl e) /\ fs' = fs)
  \/ exists path src,
       downloadTarget w d folderPath path src
       /\ ((r = inr tt /\ body_err src = None
            /\ fs' = <[path := body_data src]> fs)
           \/ ((exists e, r = inl e) /\ fs' = delete path fs)).
Proof.
  intros w d folderPath fs run r fs'.
  apply (Download_all_or_nothing w d folderPath fs r fs' (snd run)).
  - intros p. reflexivity.
  - reflexivity.
Defined.

Lemma Paper_Download_success_witness :
  let w := Examples.world Examples.urlEnvelope Examples.wholeBody
                          Examples.offline None in
  let p := Examples.paper in
  let folderPath := str "/srv/books" in
  let fs : gmap (list ascii) (list ascii) := ∅ in
  let fs' := snd (fst (Paper_Download w p folderPath fs)) in
  exists e resp,
    (forall fs0, GetEnv w fs0 = (inr e, fs0, []))
    /\ Paper.DownloadURL p <> []
    /\ roundTrip w
         {| req_URL :=
              if strings.HasPrefix (Paper.DownloadURL p) (str "http")
              then Paper.DownloadURL p
              else str "https://" ++ env.AnnasBaseURL e ++ Paper.DownloadURL p;
            req_Header := [(str "User-Agent", BrowserUserAgent)] |} = inr resp
    /\ StatusCode resp = 200
    /\ body_err (resp_Body resp) = None
    /\ fs' = <[filepath.Join
                 [folderPath;
                  sanitizeFilename
                    (if is_empty (Paper.Title p) then Paper.DOI p
                     else Paper.Title p)
                  ++ inferExt w resp]
               := body_data (resp_Body resp)]> fs.
Proof.
  intros w p folderPath fs fs'.
  apply (Paper_Download_success w p folderPath fs fs'
           (snd (Paper_Download w p folderPath fs))).
  reflexivity.
Defined.

Lemma Book_Download_requests_witness :
  let w := Examples.world Examples.urlEnvelope Examples.wholeBody
                          Examples.offline None in
  let b := Examples.book in
  let secretKey := str "secret" in
  let evs := snd (Book_Download w b secretKey (str "/srv/books") ∅) in
  requests evs = []
  \/ exists e,
       (forall fs0, GetEnv w fs0 = (inr e, fs0, []))
       /\ (requests evs
           = [fastDownloadURL (env.AnnasBaseURL e) (Book.Hash b) secretKey]
           \/ exists api apiResp,
                roundTrip w
                  {| req_URL := fastDownloadURL (env.AnnasBaseURL e)
                                                (Book.Hash b) secretKey;
                     req_Header := [] |} = inr api
                /\ decodeJSON w (resp_Body api) = inr apiResp
                /\ requests evs
                   = [fastDownloadURL (env.AnnasBaseURL e) (Book.Hash b)
                                      secretKey;
                      fdr_DownloadURL apiResp]).
Proof.
  intros w b secretKey evs.
  apply (Book_Download_requests w b secretKey (str "/srv/books") ∅
           (fst (fst (Book_Download w b secretKey (str "/srv/books") ∅)))
           (snd (fst (Book_Download w b secretKey (str "/srv/books") ∅)))
           evs).
  reflexivity.
Defined.

Lemma Book_Download_api_status_witness :
  let w := Examples.unavailable in
  let b := Examples.book in
  let secretKey := str "secret" in
  let folderPath := str "/srv/books" in
  let fs : gmap (list ascii) (list ascii) := ∅ in
  let e := Examples.environment in
  let api := {| StatusCode := 503; Status := str "503 Service Unavailable";
                Header_Get := fun _ => [];
                resp_Body := {| body_data := str "try again later";
                                body_err := None |} |} in
  exists msg evs,
    Book_Download w b secretKey folderPath fs = (inl msg, fs, evs)
    /\ requests evs
       = [fastDownloadURL (env.AnnasBaseURL e) (Book.Hash b) secretKey]
    /\ (msg = str "API request failed with status " ++ itoa (StatusCode api)
                ++ str ": " ++ Status api
        \/ exists body,
             msg = str "API request failed with status "
                     ++ itoa (StatusCode api) ++ str ": " ++ Status api
                     ++ str " (body: " ++ body ++ str ")"
             /\ (List.length body <= 512)%nat
             /\ body = firstn (List.length body) (body_data (resp_Body api))).
Proof.
  intros w b secretKey folderPath fs e api.
  apply (Book_Download_api_status w b secretKey folderPath fs e api).
  - reflexivity.
  - reflexivity.
  - discriminate.
Defined.

Lemma Paper_Download_requests_witness :
  let w := Examples.world Examples.urlEnvelope Examples.wholeBody
                          Examples.offline None in
  let p := Examples.paper in
  let fs : gmap (list ascii) (list ascii) := ∅ in
  let run := Paper_Download w p (str "/srv/books") fs in
  let r := fst (fst run) in
  let fs' := snd (fst run) in
  let evs := snd run in
  (Paper.DownloadURL p = [] ->
   r = inl (str "no download URL available for this paper")
   /\ fs' = fs /\ evs = [])
  /\ (requests evs = []
      \/ exists e,
           (forall fs0, GetEnv w fs0 = (inr e, fs0, []))
           /\ requests evs
              = [if strings.HasPrefix (Paper.DownloadURL p) (str "http")
                 then Paper.DownloadURL p
                 else str "https://" ++ env.AnnasBaseURL e
                        ++ Paper.DownloadURL p]).
Proof.
  intros w p fs run r fs' evs.
  apply (Paper_Download_requests w p (str "/srv/books") fs r fs' evs).
  reflexivity.
Defined.

Lemma LookupDOI_success_witness :
  let w := Examples.world Examples.urlEnvelope Examples.wholeBody
                          Examples.foundSearch None in
  let doi := str "10.1000/182" in
  let fs : gmap (list ascii) (list ascii) := ∅ in
  let paper :=
    {| Paper.DOI := str "10.1000/182";
       Paper.Title := [];
       Paper.Authors := [];
       Paper.Journal := [];
       Paper.Size := [];
       Paper.Hash := str "d41d8cd9";
       Paper.DownloadURL := str "/scidb?doi=10.1000/182";
       Paper.SciHubURL := [];
       Paper.PageURL := Examples.scidbURL |} in
  let fs' := snd (fst (LookupDOI w doi fs)) in
  exists e page hash,
    (forall fs0, GetEnv w fs0 = (inr e, fs0, []))
    /\ visit w (scidbURLOf (env.AnnasBaseURL e) doi) = colly.Fetched page
    /\ firstHash (page md5Selector) = Some hash
    /\ hash <> []
    /\ Paper.DOI paper = doi
    /\ Paper.Hash paper = hash
    /\ Paper.PageURL paper = scidbURLOf (env.AnnasBaseURL e) doi
    /\ Paper.DownloadURL paper = str "/scidb?doi=" ++ doi
    /\ Paper.SciHubURL paper = []
    /\ fs' = fs.
Proof.
  intros w doi fs paper fs'.
  apply (LookupDOI_success w doi fs paper fs' (snd (LookupDOI w doi fs))).
  reflexivity.
Defined.

Lemma LookupDOI_search_failure_witness :
  let w := Examples.world Examples.urlEnvelope Examples.wholeBody
                          Examples.offline None in
  let doi := str "10.1000/182" in
  let fs : gmap (list ascii) (list ascii) := ∅ in
  let e := Examples.environment in
  exists evs,
    LookupDOI w doi fs
    = (inl (str "failed to lookup DOI: " ++ str "no such host"), fs, evs)
    /\ visits evs = [scidbURLOf (env.AnnasBaseURL e) doi].
Proof.
  intros w doi fs e.
  apply (LookupDOI_search_failure w doi fs e (Some (Some 0))
           (str "no such host")); reflexivity.
Defined.

Lemma FindBook_fetched_witness :
  let w := Examples.world Examples.urlEnvelope Examples.wholeBody
                          Examples.results None in
  let query := str "dune" in
  let content : gostring := [] in
  let fs : gmap (list ascii) (list ascii) := ∅ in
  let e := Examples.environment in
  let page := match Examples.results Examples.searchURL with
              | colly.Fetched page => page
              | colly.Failed _ _ => fun _ => []
              end in
  exists evs,
    FindBook w query content fs
    = (inr (omap recordOf (primaryAnchors page)), fs, evs)
    /\ (List.length (warnings evs)
        + List.length (omap recordOf (primaryAnchors page))
        = List.length (primaryAnchors page))%nat
    /\ visits evs
       = [searchURLOf (env.AnnasBaseURL e) query
            (if is_empty content then str "book_any" else content)].
Proof.
  intros w query content fs e page.
  apply (FindBook_fetched w query content fs e page); reflexivity.
Defined.

Lemma FindBook_formats_witness :
  Forall (fun b => Book.Format b = [] \/ In (Book.Format b) formatCodes)
         [Examples.dune].
Proof.
  apply (FindBook_formats
           (Examples.world Examples.urlEnvelope Examples.wholeBody
                           Examples.results None)
           (str "dune") [] ∅ [Examples.dune]
           (snd (fst (FindBook
                        (Examples.world Examples.urlEnvelope
                                        Examples.wholeBody
                                        Examples.results None)
                        (str "dune") [] ∅)))
           (snd (FindBook
                   (Examples.world Examples.urlEnvelope Examples.wholeBody
                                   Examples.results None)
                   (str "dune") [] ∅))).
  reflexivity.
Defined.

Lemma Book_filePath_in_folder_witness :
  let b := Examples.book in
  let folderPath := str "/srv/books" in
  let name :=
    sanitizeFilename (Book.Title b) ++ str "."
      ++ (if is_empty (strings.ToLower (Book.Format b)) then str "bin"
          else strings.ToLower (Book.Format b)) in
  Book_filePath b folderPath = dirPrefix folderPath ++ name
  /\ filepath.Base (Book_filePath b folderPath) = name.
Proof.
  intros b folderPath.
  apply (Book_filePath_in_folder b folderPath).
  - reflexivity.
  - vm_compute. repeat constructor.
Defined.

Lemma FindBook_then_filePath_witness :
  let b := Examples.dune in
  let folderPath := str "/srv/books" in
  Book_filePath b folderPath
  = dirPrefix folderPath ++ sanitizeFilename (Book.Title b) ++ str "."
      ++ (if is_empty (Book.Format b) then str "bin"
          else strings.ToLower (Book.Format b)).
Proof.
  intros b folderPath.
  apply (FindBook_then_filePath
           (Examples.world Examples.urlEnvelope Examples.wholeBody
                           Examples.results None)
           (str "dune") [] ∅ [Examples.dune]
           (snd (fst (FindBook
                        (Examples.world Examples.urlEnvelope
                                        Examples.wholeBody
                                        Examples.results None)
                        (str "dune") [] ∅)))
           (snd (FindBook
                   (Examples.world Examples.urlEnvelope Examples.wholeBody
                                   Examples.results None)
                   (str "dune") [] ∅))
           b folderPath).
  - reflexivity.
  - left. reflexivity.
  - reflexivity.
Defined.

Lemma LookupDOI_then_Download_witness :
  let w := Examples.world Examples.urlEnvelope Examples.wholeBody
                          Examples.foundSearch None in
  let doi := str "10.1000/182" in
  let folderPath := str "/srv/books" in
  let fs : gmap (list ascii) (list ascii) := ∅ in
  let paper :=
    {| Paper.DOI := str "10.1000/182";
       Paper.Title := [];
       Paper.Authors := [];
       Paper.Journal := [];
       Paper.Size := [];
       Paper.Hash := str "d41d8cd9";
       Paper.DownloadURL := str "/scidb?doi=10.1000/182";
       Paper.SciHubURL := [];
       Paper.PageURL := Examples.scidbURL |} in
  let run := Paper_Download w paper folderPath fs in
  let r := fst (fst run) in
  let fs2 := snd (fst run) in
  let ev2 := snd run in
  exists e,
    (forall fs0, GetEnv w fs0 = (inr e, fs0, []))
    /\ (requests ev2 = []
        \/ requests ev2
           = [str "https://" ++ env.AnnasBaseURL e ++ str "/scidb?doi=" ++ doi])
    /\ (r = inr tt ->
        exists resp,
          roundTrip w
            {| req_URL := str "https://" ++ env.AnnasBaseURL e
                            ++ str "/scidb?doi=" ++ doi;
               req_Header := [(str "User-Agent", BrowserUserAgent)] |}
          = inr resp
          /\ fs2 = <[filepath.Join
                       [folderPath;
                        sanitizeFilename
                          (if is_empty (Paper.Title paper) then doi
                           else Paper.Title paper)
                        ++ inferExt w resp]
                     := body_data (resp_Body resp)]> fs).
Proof.
  intros w doi folderPath fs paper run r fs2 ev2.
  apply (LookupDOI_then_Download w doi folderPath fs paper
           (snd (fst (LookupDOI w doi fs))) (snd (LookupDOI w doi fs))
           r fs2 ev2); reflexivity.
Defined.

Lemma SearchTool_fetched_witness :
  let w := Examples.world Examples.urlEnvelope Examples.wholeBody
                          Examples.results None in
  let searchTerm := str "dune" in
  let content : gostring := [] in
  let fs : gmap (list ascii) (list ascii) := ∅ in
  let page := match Examples.results Examples.searchURL with
              | colly.Fetched page => page
              | colly.Failed _ _ => fun _ => []
              end in
  exists evs,
    SearchTool w searchTerm content fs
    = (inr {| Content :=
                [match omap recordOf (primaryAnchors page) with
                 | [] => str "No books found."
                 | books => bookListText books
                 end] |}, fs, evs).
Proof.
  intros w searchTerm content fs page.
  apply (SearchTool_fetched w searchTerm content fs Examples.environment page);
    reflexivity.
Defined.

Lemma SearchTool_error_witness :
  let w := Examples.unconfigured in
  let fs : gmap (list ascii) (list ascii) := ∅ in
  let err :=
    str "ANNAS_SECRET_KEY and ANNAS_DOWNLOAD_PATH environment variables must be set" in
  exists evs', SearchTool w (str "dune") [] fs = (inl err, fs, evs').
Proof.
  intros w fs err.
  apply (SearchTool_error w (str "dune") [] fs err fs
           (snd (FindBook w (str "dune") [] fs))).
  reflexivity.
Defined.

Lemma DownloadTool_success_witness :
  let w := Examples.world Examples.urlEnvelope Examples.wholeBody
                          Examples.offline None in
  let title := str "Dune" in
  let format := str "PDF" in
  let fs : gmap (list ascii) (list ascii) := ∅ in
  let run := DownloadTool w (str "d41d8cd9") title format fs in
  let res :=
    {| Content := [str "Book downloaded successfully to path: /srv/books"] |} in
  let fs' := snd (fst run) in
  let downloadPath := Getenv w (str "ANNAS_DOWNLOAD_PATH") in
  Content res
  = [str "Book downloaded successfully to path: " ++ downloadPath]
  /\ exists data,
       fs' = <[dirPrefix downloadPath ++ sanitizeFilename title ++ str "."
                 ++ (if is_empty (strings.ToLower format) then str "bin"
                     else strings.ToLower format)
               := data]> fs.
Proof.
  intros w title format fs run res fs'.
  apply (DownloadTool_success w (str "d41d8cd9") title format fs res fs'
           (snd run)).
  - reflexivity.
  - vm_compute. repeat constructor.
Defined.

Lemma DownloadTool_without_environment_witness :
  let w := Examples.unconfigured in
  let fs : gmap (list ascii) (list ascii) := ∅ in
  let err :=
    str "ANNAS_SECRET_KEY and ANNAS_DOWNLOAD_PATH environment variables must be set" in
  exists evs,
    DownloadTool w (str "d41d8cd9") (str "Dune") (str "PDF") fs
    = (inl err, fs, evs)
    /\ requests evs = [].
Proof.
  intros w fs err.
  apply (DownloadTool_without_environment w (str "d41d8cd9") (str "Dune")
           (str "PDF") fs err (snd (fst (GetEnv w fs))) (snd (GetEnv w fs))).
  reflexivity.
Defined.

Lemma FindBook_request_failure_witness :
  let w := Examples.world Examples.urlEnvelope Examples.wholeBody
                          Examples.offline None in
  let query := str "dune" in
  let content : gostring := [] in
  let fs : gmap (list ascii) (list ascii) := ∅ in
  (exists evs,
      FindBook w query content fs = (inr [], fs, evs)
      /\ In (EvLog Error (str "Search request failed")) evs)
  /\ exists evs,
       SearchTool w query content fs
       = (inr {| Content := [str "No books found."] |}, fs, evs).
Proof.
  intros w query content fs.
  apply (FindBook_request_failure w query content fs Examples.environment
           (Some 0) (str "no such host")); reflexivity.
Defined.
